(** * talkback-bootstrap: the RTSP back-channel initiator

    A shallow embedding of [src/talkback/initiator.py] (class
    [TalkBackInitiator]) and of the runtime pieces it relies on: Python
    [str] values, UTF-8 [encode], [hashlib.md5], the handful of regular
    expressions of the handshake, and a blocking socket.

    Conventions.
    - A Python [str] is a list of code points ([N]); [bytes] is a list of
      octets ([N] below 256).  Python [int] is [Z].
    - Methods of the class are functions in a small state-and-exception
      monad over the pair (instance attributes, network).
    - An exception is known by its class; its message is left out.
    - The logger only observes; its calls are left out.  [socket.close]
      does not raise.  [assert] statements are enabled.
    - The URL arrives parsed, as [utils.parse_rtsp_url] returns it. *)

From Stdlib Require Import ZArith NArith List String Ascii Bool Lia.
From Stdlib Require Import Sorted.
Import ListNotations.

Set Implicit Arguments.

(** ** Python [str] *)

Definition str := list N.

(** [py "text"] is the [str] whose code points are the characters of the
    literal (ASCII literals only). *)
Definition py (s : string) : str := map N_of_ascii (list_ascii_of_string s).

Definition CR : N := 13.
Definition LF : N := 10.
Definition CRLF : str := [CR; LF].
(** The double quote character. *)
Definition DQ : str := [34%N].

Module PyStr.

Fixpoint eqb (a b : str) : bool :=
  match a, b with
  | [], [] => true
  | x :: a', y :: b' => N.eqb x y && eqb a' b'
  | _, _ => false
  end.

(** [s.startswith(p)] *)
Fixpoint startswith (p s : str) : bool :=
  match p, s with
  | [], _ => true
  | x :: p', y :: s' => N.eqb x y && startswith p' s'
  | _ :: _, [] => false
  end.

(** [sub in s] *)
Fixpoint contains (sub s : str) : bool :=
  startswith sub s ||
  match s with
  | [] => false
  | _ :: s' => contains sub s'
  end.

(** Truthiness of a [str]: the empty string is falsy. *)
Definition truthy (s : str) : bool :=
  match s with [] => false | _ :: _ => true end.

(** Truthiness of an attribute that is [None] or a [str]. *)
Definition truthy_opt (o : option str) : bool :=
  match o with None => false | Some s => truthy s end.

(** [str.isspace] on one code point; also the class [\s] of [re] on
    [str] patterns. *)
Definition isspace (c : N) : bool :=
  ((9 <=? c) && (c <=? 13) || (28 <=? c) && (c <=? 32)
   || (c =? 0x85) || (c =? 0xA0) || (c =? 0x1680)
   || (0x2000 <=? c) && (c <=? 0x200A)
   || (c =? 0x2028) || (c =? 0x2029) || (c =? 0x202F)
   || (c =? 0x205F) || (c =? 0x3000))%N.

(** Drop the leading code points that satisfy [p]. *)
Fixpoint lstrip_by (p : N -> bool) (s : str) : str :=
  match s with
  | [] => []
  | c :: s' => if p c then lstrip_by p s' else s
  end.

(** Drop the trailing code points that satisfy [p]. *)
Fixpoint rstrip_by (p : N -> bool) (s : str) : str :=
  match s with
  | [] => []
  | c :: s' =>
      match rstrip_by p s' with
      | [] => if p c then [] else [c]
      | r => c :: r
      end
  end.

(** [s.strip()] *)
Definition strip (s : str) : str := rstrip_by isspace (lstrip_by isspace s).

(** [s.rstrip("/")] *)
Definition rstrip_slash (s : str) : str := rstrip_by (N.eqb 47) s.

(** [s.split(sep)] for a non-empty [sep]: cut at every occurrence of
    [sep], scanning left to right.  [skip] counts the code points of the
    separator still to be passed over; [cur] is the piece being read, in
    reverse. *)
Fixpoint split_aux (sep : str) (skip : nat) (cur : str) (s : str)
  : list str :=
  match s with
  | [] => [rev cur]
  | c :: s' =>
      match skip with
      | S k => split_aux sep k cur s'
      | O =>
          if startswith sep s
          then rev cur :: split_aux sep (List.length sep - 1) [] s'
          else split_aux sep 0 (c :: cur) s'
      end
  end.

Definition split (sep s : str) : list str := split_aux sep 0 [] s.

(** [s.split(sep, 1)]: cut at the first occurrence only. *)
Fixpoint split1_aux (sep : str) (cur : str) (s : str) : list str :=
  match s with
  | [] => [rev cur]
  | c :: s' =>
      if startswith sep s
      then [rev cur; skipn (List.length sep) s]
      else split1_aux sep (c :: cur) s'
  end.

Definition split1 (sep s : str) : list str := split1_aux sep [] s.

(** [str(n)] for an [int]. *)
Fixpoint of_uint (d : Decimal.uint) : str :=
  match d with
  | Decimal.Nil => []
  | Decimal.D0 d => 48%N :: of_uint d
  | Decimal.D1 d => 49%N :: of_uint d
  | Decimal.D2 d => 50%N :: of_uint d
  | Decimal.D3 d => 51%N :: of_uint d
  | Decimal.D4 d => 52%N :: of_uint d
  | Decimal.D5 d => 53%N :: of_uint d
  | Decimal.D6 d => 54%N :: of_uint d
  | Decimal.D7 d => 55%N :: of_uint d
  | Decimal.D8 d => 56%N :: of_uint d
  | Decimal.D9 d => 57%N :: of_uint d
  end.

Definition of_int (z : Z) : str :=
  match Z.to_int z with
  | Decimal.Pos d => of_uint d
  | Decimal.Neg d => 45%N :: of_uint d
  end.

End PyStr.

(** ** [str.encode()]: UTF-8 *)

Module Utf8.

(** Code points that UTF-8 can carry: everything below 0x110000 but the
    surrogates. *)
Definition is_scalar (c : N) : bool :=
  ((c <? 0xD800) || (0xDFFF <? c) && (c <? 0x110000))%N.

Definition cont (c : N) : N := N.lor 0x80 (N.land c 0x3F).

Definition encode_cp (c : N) : list N :=
  (if c <? 0x80 then [c]
   else if c <? 0x800 then [N.lor 0xC0 (N.shiftr c 6); cont c]
   else if c <? 0x10000 then
     [N.lor 0xE0 (N.shiftr c 12); cont (N.shiftr c 6); cont c]
   else
     [N.lor 0xF0 (N.shiftr c 18); cont (N.shiftr c 12);
      cont (N.shiftr c 6); cont c])%N.

Definition encodable (s : str) : bool := forallb is_scalar s.

(** [s.encode()]; [None] stands for [UnicodeEncodeError]. *)
Definition encode (s : str) : option (list N) :=
  if encodable s then Some (flat_map encode_cp s) else None.

End Utf8.

(** ** [hashlib.md5]: RFC 1321 on a list of octets *)

Module MD5.
Local Open Scope N_scope.

Definition mask32 : N := 0xFFFFFFFF.
Definition add32 (a b : N) : N := (a + b) mod 0x100000000.
Definition not32 (a : N) : N := N.lxor a mask32.
Definition rotl32 (x n : N) : N :=
  N.lor (N.land (N.shiftl x n) mask32) (N.shiftr x (32 - n)).

Definition SHIFTS : list N :=
  [7; 12; 17; 22; 7; 12; 17; 22; 7; 12; 17; 22; 7; 12; 17; 22;
   5; 9; 14; 20; 5; 9; 14; 20; 5; 9; 14; 20; 5; 9; 14; 20;
   4; 11; 16; 23; 4; 11; 16; 23; 4; 11; 16; 23; 4; 11; 16; 23;
   6; 10; 15; 21; 6; 10; 15; 21; 6; 10; 15; 21; 6; 10; 15; 21].

Definition SINES : list N :=
  [0xd76aa478; 0xe8c7b756; 0x242070db; 0xc1bdceee;
   0xf57c0faf; 0x4787c62a; 0xa8304613; 0xfd469501;
   0x698098d8; 0x8b44f7af; 0xffff5bb1; 0x895cd7be;
   0x6b901122; 0xfd987193; 0xa679438e; 0x49b40821;
   0xf61e2562; 0xc040b340; 0x265e5a51; 0xe9b6c7aa;
   0xd62f105d; 0x02441453; 0xd8a1e681; 0xe7d3fbc8;
   0x21e1cde6; 0xc33707d6; 0xf4d50d87; 0x455a14ed;
   0xa9e3e905; 0xfcefa3f8; 0x676f02d9; 0x8d2a4c8a;
   0xfffa3942; 0x8771f681; 0x6d9d6122; 0xfde5380c;
   0xa4beea44; 0x4bdecfa9; 0xf6bb4b60; 0xbebfbc70;
   0x289b7ec6; 0xeaa127fa; 0xd4ef3085; 0x04881d05;
   0xd9d4d039; 0xe6db99e5; 0x1fa27cf8; 0xc4ac5665;
   0xf4292244; 0x432aff97; 0xab9423a7; 0xfc93a039;
   0x655b59c3; 0x8f0ccc92; 0xffeff47d; 0x85845dd1;
   0x6fa87e4f; 0xfe2ce6e0; 0xa3014314; 0x4e0811a1;
   0xf7537e82; 0xbd3af235; 0x2ad7d2bb; 0xeb86d391].

Record regs := Regs { rA : N; rB : N; rC : N; rD : N }.

Definition init : regs :=
  Regs 0x67452301 0xefcdab89 0x98badcfe 0x10325476.

(** One of the 64 operations of a block; [m] holds its 16 words. *)
Definition step (m : list N) (r : regs) (i : nat) : regs :=
  let '(Regs a b c d) := r in
  let n := N.of_nat i in
  let '(f, g) :=
    if n <? 16 then (N.lor (N.land b c) (N.land (not32 b) d), n)
    else if n <? 32 then
      (N.lor (N.land d b) (N.land (not32 d) c), (5 * n + 1) mod 16)
    else if n <? 48 then (N.lxor b (N.lxor c d), (3 * n + 5) mod 16)
    else (N.lxor c (N.lor b (not32 d)), (7 * n) mod 16) in
  let f' := add32 (add32 (add32 f a) (nth i SINES 0)) (nth (N.to_nat g) m 0) in
  Regs d (add32 b (rotl32 f' (nth i SHIFTS 0))) b c.

(** Little-endian words of a block. *)
Fixpoint words (bs : list N) : list N :=
  match bs with
  | b0 :: b1 :: b2 :: b3 :: bs' =>
      (b0 + N.shiftl b1 8 + N.shiftl b2 16 + N.shiftl b3 24) :: words bs'
  | _ => []
  end.

Definition block (r : regs) (bs : list N) : regs :=
  let r' := fold_left (step (words bs)) (seq 0 64) r in
  Regs (add32 (rA r) (rA r')) (add32 (rB r) (rB r'))
       (add32 (rC r) (rC r')) (add32 (rD r) (rD r')).

(** [w] as [k] little-endian octets. *)
Fixpoint le_bytes (k : nat) (w : N) : list N :=
  match k with
  | O => []
  | S k' => (w mod 256) :: le_bytes k' (w / 256)
  end.

Definition pad (msg : list N) : list N :=
  let len := List.length msg in
  msg ++ [0x80] ++ repeat 0 ((119 - len mod 64) mod 64)%nat
      ++ le_bytes 8 ((8 * N.of_nat len) mod 0x10000000000000000).

(** Fold [block] over the 64-octet blocks of [bs]; [fuel] bounds their
    number. *)
Fixpoint blocks (fuel : nat) (r : regs) (bs : list N) : regs :=
  match fuel, bs with
  | S fuel', _ :: _ =>
      blocks fuel' (block r (firstn 64 bs)) (skipn 64 bs)
  | _, _ => r
  end.

(** [hashlib.md5(msg).digest()] *)
Definition digest (msg : list N) : list N :=
  let p := pad msg in
  let r := blocks (List.length p) init p in
  le_bytes 4 (rA r) ++ le_bytes 4 (rB r)
    ++ le_bytes 4 (rC r) ++ le_bytes 4 (rD r).

Definition hexchar (n : N) : N := if n <? 10 then 48 + n else 87 + n.

Definition hex (bs : list N) : str :=
  flat_map (fun b => [hexchar (b / 16); hexchar (b mod 16)]) bs.

(** [hashlib.md5(msg).hexdigest()] *)
Definition hexdigest (msg : list N) : str := hex (digest msg).

End MD5.

(** ** The fragment of [re] the handshake uses

    Every pattern of the source is a sequence of literals and greedy
    repetitions of one character class, some of them captured.
    [match_here] is the backtracking matcher: a repetition first takes as
    much as it can and gives code points back while the rest of the
    pattern fails ([greedy]). *)

Module Re.

Inductive atom :=
| Lit (s : str)                          (* literal text *)
| Star (cls : N -> bool) (cap : bool)    (* [cls*], captured when [cap] *)
| Plus (cls : N -> bool) (cap : bool).   (* [cls+], captured when [cap] *)

Definition pattern := list atom.

Definition with_capture (cap : bool) (taken : str)
           (r : option (list str * str)) : option (list str * str) :=
  match r with
  | Some (caps, rest) =>
      Some (if cap then rev taken :: caps else caps, rest)
  | None => None
  end.

(** A greedy repetition of [cls] followed by the rest of the pattern,
    [k]: take one more code point when [cls] allows and the match then
    goes through; otherwise stop here, which [least_one] forbids while
    nothing has been taken.  [taken] is what was taken, in reverse. *)
Fixpoint greedy (cls : N -> bool) (cap least_one : bool)
         (k : str -> option (list str * str)) (s taken : str) {struct s}
  : option (list str * str) :=
  let stop :=
    match least_one, taken with
    | true, [] => None
    | _, _ => with_capture cap taken (k s)
    end in
  match s with
  | c :: s' =>
      if cls c then
        match greedy cls cap least_one k s' (c :: taken) with
        | Some r => Some r
        | None => stop
        end
      else stop
  | [] => stop
  end.

(** Match [p] at the start of [s]: the captured groups and the text left
    over. *)
Fixpoint match_here (p : pattern) (s : str) {struct p}
  : option (list str * str) :=
  match p with
  | [] => Some ([], s)
  | Lit l :: p' =>
      if PyStr.startswith l s
      then match_here p' (skipn (List.length l) s)
      else None
  | Star cls cap :: p' => greedy cls cap false (match_here p') s []
  | Plus cls cap :: p' => greedy cls cap true (match_here p') s []
  end.

(** [re.search(p, s)]: the leftmost match; the result is [m.groups()]. *)
Fixpoint search (p : pattern) (s : str) : option (list str) :=
  match match_here p s with
  | Some (caps, _) => Some caps
  | None =>
      match s with
      | [] => None
      | _ :: s' => search p s'
      end
  end.

(** [m.group(i)], [i] counted from 1. *)
Definition group (i : nat) (caps : list str) : str := nth (i - 1) caps [].

(** Character classes: [\s], [\S], any code point but the double quote,
    [.] (any but the line feed), and any but [;] and white space. *)
Definition space : N -> bool := PyStr.isspace.
Definition nonspace (c : N) : bool := negb (PyStr.isspace c).
Definition not_quote (c : N) : bool := negb (N.eqb c 34).
Definition dot (c : N) : bool := negb (N.eqb c 10).
Definition session_char (c : N) : bool :=
  negb (N.eqb c 59) && negb (PyStr.isspace c).

End Re.

(** ** Exceptions, as far as their class goes *)

Inductive exn :=
| RTSPHandshakeError   (* exceptions.py: any error during the handshake *)
| RTSPAuthError        (* exceptions.py: challenge missing or no credentials *)
| AssertionError
| UnicodeEncodeError
| OSError              (* socket errors and timeouts *)
| IndexError
| ValueError.

Inductive result (A : Type) :=
| Return (a : A)
| Raise (e : exn).
Arguments Return {A} a.
Arguments Raise {A} e.

Definition raised {A} (r : result A) : bool :=
  match r with Raise _ => true | Return _ => false end.

(** ** Data of the instance *)

(** [utils.RTSPUrlParts] *)
Record RTSPUrlParts := {
  username : option str;
  password : option str;
  host : str;
  port : Z;
  path : str
}.

(** [settings.Settings], at its defaults. *)
Module settings.
Definition rtsp_timeout : Z := 5.
Definition default_client_port : Z := 5000.
End settings.

(** A socket is named by a number; the network tells which are open. *)
Definition socket := nat.

(** The attributes of a [TalkBackInitiator]. *)
Record TalkBackInitiator := {
  _url : RTSPUrlParts;
  _client_port : Z;
  _rtsp_timeout : Z;
  _sock : option socket;
  _session_id : option str;
  _realm : option str;
  _nonce : option str;
  _uri_base : option str;
  _back_channel_port : option Z;
  _cseq : Z
}.

Definition set_sock (v : option socket) (o : TalkBackInitiator) :=
  {| _url := _url o; _client_port := _client_port o;
     _rtsp_timeout := _rtsp_timeout o; _sock := v;
     _session_id := _session_id o; _realm := _realm o; _nonce := _nonce o;
     _uri_base := _uri_base o; _back_channel_port := _back_channel_port o;
     _cseq := _cseq o |}.

Definition set_session_id (v : option str) (o : TalkBackInitiator) :=
  {| _url := _url o; _client_port := _client_port o;
     _rtsp_timeout := _rtsp_timeout o; _sock := _sock o;
     _session_id := v; _realm := _realm o; _nonce := _nonce o;
     _uri_base := _uri_base o; _back_channel_port := _back_channel_port o;
     _cseq := _cseq o |}.

Definition set_challenge (r n : option str) (o : TalkBackInitiator) :=
  {| _url := _url o; _client_port := _client_port o;
     _rtsp_timeout := _rtsp_timeout o; _sock := _sock o;
     _session_id := _session_id o; _realm := r; _nonce := n;
     _uri_base := _uri_base o; _back_channel_port := _back_channel_port o;
     _cseq := _cseq o |}.

Definition set_uri_base (v : option str) (o : TalkBackInitiator) :=
  {| _url := _url o; _client_port := _client_port o;
     _rtsp_timeout := _rtsp_timeout o; _sock := _sock o;
     _session_id := _session_id o; _realm := _realm o; _nonce := _nonce o;
     _uri_base := v; _back_channel_port := _back_channel_port o;
     _cseq := _cseq o |}.

Definition set_back_channel_port (v : option Z) (o : TalkBackInitiator) :=
  {| _url := _url o; _client_port := _client_port o;
     _rtsp_timeout := _rtsp_timeout o; _sock := _sock o;
     _session_id := _session_id o; _realm := _realm o; _nonce := _nonce o;
     _uri_base := _uri_base o; _back_channel_port := v;
     _cseq := _cseq o |}.

Definition set_cseq (v : Z) (o : TalkBackInitiator) :=
  {| _url := _url o; _client_port := _client_port o;
     _rtsp_timeout := _rtsp_timeout o; _sock := _sock o;
     _session_id := _session_id o; _realm := _realm o; _nonce := _nonce o;
     _uri_base := _uri_base o; _back_channel_port := _back_channel_port o;
     _cseq := v |}.

(** ** The network

    A request is kept in structured form; [render] is the text that goes
    on the wire.  What the network does is given in advance by three
    lists: the outcome of every connection attempt, of every [sendall] and
    of every [recv] still to come. *)

Record request := {
  rq_method : str;
  rq_uri : str;
  rq_cseq : Z;
  rq_headers : list (str * str)   (* the headers after [CSeq], in order *)
}.

Definition render_header (h : str * str) : str :=
  fst h ++ py ": " ++ snd h ++ CRLF.

Definition render (r : request) : str :=
  rq_method r ++ py " " ++ rq_uri r ++ py " RTSP/1.0" ++ CRLF
  ++ py "CSeq: " ++ PyStr.of_int (rq_cseq r) ++ CRLF
  ++ flat_map render_header (rq_headers r)
  ++ CRLF.

Definition has_header (name : str) (r : request) : bool :=
  existsb (fun h => PyStr.eqb (fst h) name) (rq_headers r).

Record network := {
  conn_results : list bool;        (* [false]: the connection attempt fails *)
  send_results : list bool;        (* [false]: [sendall] raises *)
  incoming : list (option str);    (* what each [recv] returns, decoded;
                                      [None]: it raises (timeout, reset) *)
  wire : list (socket * request);  (* requests sent so far, oldest first *)
  next_sock : socket;
  open_socks : list socket
}.

Record state := { self : TalkBackInitiator; net : network }.

Definition with_self (f : TalkBackInitiator -> TalkBackInitiator)
           (s : state) : state :=
  {| self := f (self s); net := net s |}.

Definition with_net (f : network -> network) (s : state) : state :=
  {| self := self s; net := f (net s) |}.

(** ** State and exceptions *)

Definition M (A : Type) : Type := state -> result A * state.

Definition ret {A} (a : A) : M A := fun s => (Return a, s).

Definition raise {A} (e : exn) : M A := fun s => (Raise e, s).

Definition bind {A B} (m : M A) (f : A -> M B) : M B :=
  fun s =>
    match m s with
    | (Return a, s') => f a s'
    | (Raise e, s') => (Raise e, s')
    end.

Notation "x <- m ;; k" := (bind m (fun x => k))
  (at level 61, m at next level, right associativity).
Notation "m ;; k" := (bind m (fun _ => k))
  (at level 61, right associativity).

(** A pure computation that may raise. *)
Definition lift {A} (r : result A) : M A := fun s => (r, s).

Definition get_self : M TalkBackInitiator := fun s => (Return (self s), s).

Definition modify_self (f : TalkBackInitiator -> TalkBackInitiator)
  : M unit := fun s => (Return tt, with_self f s).

(** [try: m except Exception as e: h e] *)
Definition try_except {A} (m : M A) (h : exn -> M A) : M A :=
  fun s =>
    match m s with
    | (Raise e, s') => h e s'
    | (Return a, s') => (Return a, s')
    end.

(** [try: m finally: fin]: [fin] always runs; what it raises replaces the
    outcome of [m]. *)
Definition try_finally {A} (m : M A) (fin : M unit) : M A :=
  fun s =>
    let '(r, s') := m s in
    match fin s' with
    | (Return _, s'') => (r, s'')
    | (Raise e, s'') => (Raise e, s'')
    end.

(** ** Socket operations *)

(** [socket.create_connection((host, port), timeout=...)] *)
Definition create_connection : M socket :=
  fun s =>
    let n := net s in
    match conn_results n with
    | false :: rest =>
        (Raise OSError,
         with_net (fun n =>
           {| conn_results := rest; send_results := send_results n;
              incoming := incoming n; wire := wire n;
              next_sock := next_sock n; open_socks := open_socks n |}) s)
    | _ =>
        (Return (next_sock n),
         with_net (fun n =>
           {| conn_results := tl (conn_results n);
              send_results := send_results n;
              incoming := incoming n; wire := wire n;
              next_sock := S (next_sock n);
              open_socks := next_sock n :: open_socks n |}) s)
    end.

(** [sock.sendall(render(rq).encode())], the text already encoded.  A
    request whose [sendall] raises is not counted as sent. *)
Definition sendall (k : socket) (rq : request) : M unit :=
  fun s =>
    match send_results (net s) with
    | false :: rest =>
        (Raise OSError,
         with_net (fun n =>
           {| conn_results := conn_results n; send_results := rest;
              incoming := incoming n; wire := wire n;
              next_sock := next_sock n; open_socks := open_socks n |}) s)
    | _ =>
        (Return tt,
         with_net (fun n =>
           {| conn_results := conn_results n;
              send_results := tl (send_results n);
              incoming := incoming n; wire := wire n ++ [(k, rq)];
              next_sock := next_sock n; open_socks := open_socks n |}) s)
    end.

(** [sock.recv(8192).decode(errors="replace")]: one read. *)
Definition recv (k : socket) : M str :=
  fun s =>
    let rest_of (n : network) :=
      {| conn_results := conn_results n; send_results := send_results n;
         incoming := tl (incoming n); wire := wire n;
         next_sock := next_sock n; open_socks := open_socks n |} in
    match incoming (net s) with
    | Some data :: _ => (Return data, with_net rest_of s)
    | _ => (Raise OSError, with_net rest_of s)
    end.

(** [sock.close()] *)
Definition close (k : socket) : M unit :=
  fun s =>
    (Return tt,
     with_net (fun n =>
       {| conn_results := conn_results n; send_results := send_results n;
          incoming := incoming n; wire := wire n;
          next_sock := next_sock n;
          open_socks := List.remove Nat.eq_dec k (open_socks n) |}) s).

(** ** [TalkBackInitiator] *)

(** How an f-string shows an attribute that may be [None]. *)
Definition fmt (o : option str) : str :=
  match o with Some s => s | None => py "None" end.

(** [__init__]; the URL arrives parsed ([utils.parse_rtsp_url]). *)
Definition __init__ (url : RTSPUrlParts) (client_port : option Z)
  : TalkBackInitiator :=
  {| _url := url;
     _client_port :=
       match client_port with
       | Some p => if (p =? 0)%Z then settings.default_client_port else p
       | None => settings.default_client_port
       end;
     _rtsp_timeout := settings.rtsp_timeout;
     _sock := None;
     _session_id := None;
     _realm := None;
     _nonce := None;
     _uri_base := None;
     _back_channel_port := None;
     _cseq := 5 |}.

(** [_build_authorization], with [assert] statements enabled. *)
Definition _build_authorization (o : TalkBackInitiator) (method uri : str)
  : result str :=
  match username (_url o), password (_url o) with
  | Some user, Some pass =>
      if PyStr.truthy_opt (_realm o) && PyStr.truthy_opt (_nonce o) then
        match Utf8.encode (user ++ py ":" ++ fmt (_realm o) ++ py ":" ++ pass)
        with
        | None => Raise UnicodeEncodeError
        | Some b1 =>
            let ha1 := MD5.hexdigest b1 in
            match Utf8.encode (method ++ py ":" ++ uri) with
            | None => Raise UnicodeEncodeError
            | Some b2 =>
                let ha2 := MD5.hexdigest b2 in
                match Utf8.encode
                        (ha1 ++ py ":" ++ fmt (_nonce o) ++ py ":" ++ ha2)
                with
                | None => Raise UnicodeEncodeError
                | Some b3 =>
                    let resp := MD5.hexdigest b3 in
                    Return
                      (py "Digest username=" ++ DQ ++ user ++ DQ
                       ++ py ", realm=" ++ DQ ++ fmt (_realm o) ++ DQ
                       ++ py ", nonce=" ++ DQ ++ fmt (_nonce o) ++ DQ
                       ++ py ", uri=" ++ DQ ++ uri ++ DQ
                       ++ py ", response=" ++ DQ ++ resp ++ DQ)
                end
            end
        end
      else Raise AssertionError
  | _, _ => Raise RTSPAuthError
  end.

(** [_send]: one [sendall], one [recv]. *)
Definition _send (rq : request) : M str :=
  o <- get_self ;;
  match _sock o with
  | None => raise RTSPHandshakeError
  | Some k =>
      match Utf8.encode (render rq) with
      | None => raise UnicodeEncodeError
      | Some _ =>
          sendall k rq ;;
          response <- recv k ;;
          ret response
      end
  end.

Definition _send_simple (method uri : str) (cseq : Z) (session : option str)
           (raise_on_error : bool) : M bool :=
  o <- get_self ;;
  auth <- lift (_build_authorization o method uri) ;;
  let req :=
    {| rq_method := method; rq_uri := uri; rq_cseq := cseq;
       rq_headers :=
         (py "Authorization", auth)
         :: (if PyStr.truthy_opt session
             then [(py "Session", fmt session)] else []) |} in
  resp <- _send req ;;
  let ok := PyStr.startswith (py "RTSP/1.0 200") resp in
  if negb ok && raise_on_error then
    (* the message needs [resp.splitlines()[0]] *)
    match resp with
    | [] => raise IndexError
    | _ :: _ => raise RTSPHandshakeError
    end
  else ret ok.

Definition keep_alive : M bool :=
  o <- get_self ;;
  match _sock o with
  | Some _ =>
      if PyStr.truthy_opt (_uri_base o) then
        modify_self (set_cseq (_cseq o + 1)) ;;
        o <- get_self ;;
        ok <- _send_simple (py "OPTIONS") (fmt (_uri_base o)) (_cseq o)
                           (_session_id o) true ;;
        ret ok
      else ret false
  | None => ret false
  end.

Definition terminate : M unit :=
  o <- get_self ;;
  match _sock o with
  | Some k =>
      if PyStr.truthy_opt (_uri_base o) then
        try_finally
          (try_except
             (_send_simple (py "TEARDOWN") (fmt (_uri_base o)) (_cseq o + 1)
                           (_session_id o) false ;;
              ret tt)
             (fun _ => ret tt))
          (try_finally (close k) (modify_self (set_sock None)))
      else ret tt
  | None => ret tt
  end.

(** The patterns of [_do_rtsp_handshake]. *)
Module Patterns.
Import Re.

(** [WWW-Authenticate:\s*Digest realm=Q([^Q]+)Q,\s*nonce=Q([^Q]+)Q], [Q]
    the double quote. *)
Definition WWW_AUTHENTICATE : pattern :=
  [Lit (py "WWW-Authenticate:"); Star space false;
   Lit (py "Digest realm=" ++ DQ); Plus not_quote true;
   Lit (DQ ++ py ","); Star space false;
   Lit (py "nonce=" ++ DQ); Plus not_quote true; Lit DQ].

(** [Content-Base:\s*(\S+)] *)
Definition CONTENT_BASE : pattern :=
  [Lit (py "Content-Base:"); Star space false; Plus nonspace true].

(** [a=control:] and then a captured run of [.], possibly empty *)
Definition A_CONTROL : pattern :=
  [Lit (py "a=control:"); Star dot true].

(** [Session:\s*([^;\s]+)] *)
Definition SESSION : pattern :=
  [Lit (py "Session:"); Star space false; Plus session_char true].

(** [server_port=(\d+)-(\d+)]; [isdecimal] is the class [\d]. *)
Definition SERVER_PORT (isdecimal : N -> bool) : pattern :=
  [Lit (py "server_port="); Plus isdecimal true; Lit (py "-");
   Plus isdecimal true].
End Patterns.

(** *** Steps 4 and 5 of the handshake: the talk-back URL *)

(** The loop over [sdp.split("m=")]: the stripped control attribute of the
    first section that has [a=sendonly] and an [a=control:] line. *)
Fixpoint find_talk_control (sections : list str) : option str :=
  match sections with
  | [] => None
  | section :: rest =>
      if PyStr.contains (py "a=sendonly") section then
        match Re.search Patterns.A_CONTROL section with
        | Some m2 => Some (PyStr.strip (Re.group 1 m2))
        | None => find_talk_control rest
        end
      else find_talk_control rest
  end.

(** From the value of the [Content-Base] header and the SDP body to the
    talk-back URL. *)
Definition talk_url_of (cb sdp : str) : result str :=
  let content_base := PyStr.rstrip_slash cb ++ py "/" in
  match find_talk_control (PyStr.split (py "m=") sdp) with
  | Some talk_control =>
      if PyStr.truthy talk_control
      then Return (content_base ++ talk_control)
      else Raise RTSPHandshakeError
  | None => Raise RTSPHandshakeError
  end.

(** [resp2.split("\r\n\r\n", 1)[1] if "\r\n\r\n" in resp2 else ""] *)
Definition sdp_of (resp2 : str) : str :=
  if PyStr.contains (CRLF ++ CRLF) resp2
  then nth 1 (PyStr.split1 (CRLF ++ CRLF) resp2) []
  else [].

Definition resolve_talk_url (resp2 : str) : result str :=
  match Re.search Patterns.CONTENT_BASE resp2 with
  | None => Raise RTSPHandshakeError
  | Some cb_match => talk_url_of (Re.group 1 cb_match) (sdp_of resp2)
  end.

Section Handshake.

(** The interpreter's table of decimal digits (the class [\d] of [re])
    and [int] on a run of such digits; [None] stands for [ValueError]. *)
Variable isdecimal : N -> bool.
Variable py_int : str -> option Z.

Definition describe_headers : list (str * str) :=
  [(py "Accept", py "application/sdp");
   (py "Require", py "www.onvif.org/ver20/backchannel")].

Definition _do_rtsp_handshake : M unit :=
  o <- get_self ;;
  let uri_base :=
    py "rtsp://" ++ host (_url o) ++ py ":"
       ++ PyStr.of_int (port (_url o)) ++ py "/" ++ path (_url o) in
  modify_self (set_uri_base (Some uri_base)) ;;
  (* TCP connect *)
  k <- create_connection ;;
  modify_self (set_sock (Some k)) ;;
  (* 1) DESCRIBE (unauthenticated) *)
  resp1 <- _send {| rq_method := py "DESCRIBE"; rq_uri := uri_base;
                    rq_cseq := 1; rq_headers := describe_headers |} ;;
  (* 2) Digest challenge *)
  match Re.search Patterns.WWW_AUTHENTICATE resp1 with
  | None => raise RTSPAuthError
  | Some m =>
      modify_self
        (set_challenge (Some (Re.group 1 m)) (Some (Re.group 2 m))) ;;
      (* 3) Authenticated DESCRIBE *)
      o <- get_self ;;
      auth_header <- lift (_build_authorization o (py "DESCRIBE") uri_base) ;;
      resp2 <- _send {| rq_method := py "DESCRIBE"; rq_uri := uri_base;
                        rq_cseq := 2;
                        rq_headers :=
                          describe_headers
                            ++ [(py "Authorization", auth_header)] |} ;;
      (* 4) Content-Base, 5) sendonly track *)
      talk_url <- lift (resolve_talk_url resp2) ;;
      (* 6) SETUP *)
      o <- get_self ;;
      auth_setup <- lift (_build_authorization o (py "SETUP") talk_url) ;;
      setup_resp <-
        _send {| rq_method := py "SETUP"; rq_uri := talk_url; rq_cseq := 3;
                 rq_headers :=
                   [(py "Transport",
                     py "RTP/AVP;unicast;client_port="
                        ++ PyStr.of_int (_client_port o) ++ py "-"
                        ++ PyStr.of_int (_client_port o + 1));
                    (py "Authorization", auth_setup)] |} ;;
      match Re.search Patterns.SESSION setup_resp with
      | None => raise RTSPHandshakeError
      | Some sess =>
          modify_self (set_session_id (Some (Re.group 1 sess))) ;;
          match Re.search (Patterns.SERVER_PORT isdecimal) setup_resp with
          | None => raise RTSPHandshakeError
          | Some sp =>
              match py_int (Re.group 1 sp) with
              | None => raise ValueError
              | Some server_port =>
                  modify_self (set_back_channel_port (Some server_port)) ;;
                  (* 7) PLAY *)
                  modify_self (set_cseq 4) ;;
                  o <- get_self ;;
                  ok <- _send_simple (py "PLAY") uri_base (_cseq o)
                                     (_session_id o) true ;;
                  if ok then ret tt else raise RTSPHandshakeError
              end
          end
      end
  end.

(** [start]: the handshake; on any exception, [terminate] and re-raise. *)
Definition start : M (str * option Z) :=
  fun s =>
    match _do_rtsp_handshake s with
    | (Return _, s1) =>
        (Return (host (_url (self s1)), _back_channel_port (self s1)), s1)
    | (Raise e, s1) =>
        match terminate s1 with
        | (Return _, s2) => (Raise e, s2)
        | (Raise e', s2) => (Raise e', s2)
        end
    end.

(** What a caller does after [start]. *)
Inductive op := KeepAlive | Terminate.

(** One call; an exception it raises reaches the caller, who goes on
    with the instance as the call left it. *)
Definition call (s : state) (o : op) : state :=
  match o with
  | KeepAlive => snd (keep_alive s)
  | Terminate => snd (terminate s)
  end.

(** [start], then the calls of [ops] in order. *)
Definition session (ops : list op) (s : state) : state :=
  fold_left call ops (snd (start s)).

End Handshake.

(** A fresh network: nothing sent, nothing open. *)
Definition fresh_network (conns sends : list bool)
           (recvs : list (option str)) : network :=
  {| conn_results := conns; send_results := sends; incoming := recvs;
     wire := []; next_sock := 0; open_socks := [] |}.

(** The CSeq values on the wire, oldest first. *)
Definition wire_cseqs (n : network) : list Z :=
  map (fun e => rq_cseq (snd e)) (wire n).

(** ASCII digits, the digits a camera sends. *)
Module Ascii10.
Definition isdecimal (c : N) : bool := ((48 <=? c) && (c <=? 57))%N.
Definition int (s : str) : option Z :=
  Some (fold_left (fun acc c => 10 * acc + (Z.of_N c - 48))%Z s 0%Z).
End Ascii10.

(** ** The digest of RFC 2617 without qop, as section 4.2 of the
    specification words it

    [HA1 = hex(MD5(username:realm:password))],
    [HA2 = hex(MD5(method:request-uri))],
    [response = hex(MD5(HA1:nonce:HA2))]. *)

Definition md5_hex (s : str) : option str :=
  option_map MD5.hexdigest (Utf8.encode s).

Definition rfc2617_response (user pass realm nonce method uri : str)
  : option str :=
  match md5_hex (user ++ py ":" ++ realm ++ py ":" ++ pass) with
  | Some HA1 =>
      match md5_hex (method ++ py ":" ++ uri) with
      | Some HA2 => md5_hex (HA1 ++ py ":" ++ nonce ++ py ":" ++ HA2)
      | None => None
      end
  | None => None
  end.

(** The five fields of the header value, and nothing else. *)
Definition digest_header (user realm nonce uri response : str) : str :=
  py "Digest username=" ++ DQ ++ user ++ DQ
  ++ py ", realm=" ++ DQ ++ realm ++ DQ
  ++ py ", nonce=" ++ DQ ++ nonce ++ DQ
  ++ py ", uri=" ++ DQ ++ uri ++ DQ
  ++ py ", response=" ++ DQ ++ response ++ DQ.

(** ** A camera to run the code against *)

Module Scenario.

(** The lines of a message, each closed by CR LF. *)
Definition lines (l : list str) : str := flat_map (fun x => x ++ CRLF) l.

Definition url : RTSPUrlParts :=
  {| username := Some (py "admin"); password := Some (py "1234");
     host := py "h"; port := 554; path := py "p" |}.

(** A new instance. *)
Definition fresh : TalkBackInitiator := __init__ url None.

(** The same with the challenge [realm=X], [nonce=Y] captured. *)
Definition challenged : TalkBackInitiator :=
  set_challenge (Some (py "X")) (Some (py "Y")) fresh.

Definition challenge_line : str :=
  py "WWW-Authenticate: Digest realm=" ++ DQ ++ py "X" ++ DQ
     ++ py ", nonce=" ++ DQ ++ py "Y" ++ DQ.

(** Step 1: the 401 with the digest challenge. *)
Definition resp_401 : str :=
  lines [py "RTSP/1.0 401 Unauthorized"; py "CSeq: 1"; challenge_line; []].

(** The same 401 as two reads deliver it when it is cut after the
    second line. *)
Definition resp_401_head : str :=
  lines [py "RTSP/1.0 401 Unauthorized"; py "CSeq: 1"].
Definition resp_401_tail : str := lines [challenge_line; []].

(** A step-1 answer without a challenge. *)
Definition resp_no_challenge : str :=
  lines [py "RTSP/1.0 200 OK"; py "CSeq: 1"; []].

Definition sdp_two_tracks : str :=
  lines [py "v=0";
         py "m=video 0 RTP/AVP 96"; py "a=control:track1"; py "a=recvonly";
         py "m=audio 0 RTP/AVP 0"; py "a=control:track2"; py "a=sendonly"].

Definition sdp_no_sendonly : str :=
  lines [py "v=0";
         py "m=video 0 RTP/AVP 96"; py "a=control:track1"; py "a=recvonly"].

(** Step 2: the description, with the given body. *)
Definition resp_describe (sdp : str) : str :=
  lines [py "RTSP/1.0 200 OK"; py "CSeq: 2";
         py "Content-Base: rtsp://cam/live/"; []] ++ sdp.

(** Step 2 answered without a [Content-Base] header. *)
Definition resp_no_content_base : str :=
  lines [py "RTSP/1.0 200 OK"; py "CSeq: 2"; []] ++ sdp_two_tracks.

Definition resp_setup : str :=
  lines [py "RTSP/1.0 200 OK"; py "CSeq: 3";
         py "Session: abc123;timeout=60";
         py "Transport: RTP/AVP;unicast;client_port=5000-5001;server_port=6000-6001";
         []].

Definition resp_ok : str := lines [py "RTSP/1.0 200 OK"; []].

Definition resp_454 : str :=
  lines [py "RTSP/1.0 454 Session Not Found"; []].

(** A fresh instance facing a network that never fails to connect or
    send and answers with [recvs]. *)
Definition facing (recvs : list (option str)) : state :=
  {| self := fresh; net := fresh_network [] [] recvs |}.

(** The same instance with socket 0 open. *)
Definition connected (recvs : list (option str)) : state :=
  {| self := set_sock (Some 0%nat) fresh;
     net := {| conn_results := []; send_results := []; incoming := recvs;
               wire := []; next_sock := 1; open_socks := [0%nat] |} |}.

(** The first request of the handshake. *)
Definition describe_1 : request :=
  {| rq_method := py "DESCRIBE"; rq_uri := py "rtsp://h:554/p";
     rq_cseq := 1; rq_headers := describe_headers |}.

Definition handshake_answers : list (option str) :=
  [Some resp_401; Some (resp_describe sdp_two_tracks);
   Some resp_setup; Some resp_ok].

(** The state once [start] has returned against that camera, which then
    answers with [more]. *)
Definition playing (more : list (option str)) : state :=
  snd (start Ascii10.isdecimal Ascii10.int
             (facing (handshake_answers ++ more))).

End Scenario.

(** ** Notions the properties are stated with *)

Arguments py : simpl never.
Arguments render : simpl never.
Arguments Utf8.encode : simpl never.
Arguments PyStr.startswith : simpl never.
Arguments PyStr.truthy_opt : simpl never.
Arguments Re.search : simpl never.
Arguments _build_authorization : simpl never.
Arguments _send : simpl never.
Arguments _send_simple : simpl never.
Arguments resolve_talk_url : simpl never.
Arguments has_header : simpl never.

(** The calls after [create_connection] leave the instance's attributes,
    the pending connection outcomes and the set of open sockets alone. *)
Record io_frame (s s' : state) : Prop := {
  io_self : self s' = self s;
  io_conn : conn_results (net s') = conn_results (net s);
  io_next : next_sock (net s') = next_sock (net s);
  io_open : open_socks (net s') = open_socks (net s)
}.

(** The wire is as it was, or one request longer. *)
Definition wire_step (s s' : state) (sent : option request) : Prop :=
  match sent with
  | None => wire (net s') = wire (net s)
  | Some rq =>
      exists k, _sock (self s) = Some k
                /\ wire (net s') = wire (net s) ++ [(k, rq)]
  end.

(** [keep_alive] and [terminate] without a socket or without a base URI:
    nothing happens. *)
Definition idle (o : TalkBackInitiator) : bool :=
  match _sock o with
  | Some _ => negb (PyStr.truthy_opt (_uri_base o))
  | None => true
  end.

(** The network after a successful connection attempt. *)
Definition after_connect (s : state) : state :=
  with_net (fun n =>
    {| conn_results := tl (conn_results n); send_results := send_results n;
       incoming := incoming n; wire := wire n;
       next_sock := S (next_sock n);
       open_socks := next_sock n :: open_socks n |}) s.

(** The network after [rq] went out on [k] and one read was done. *)
Definition after_exchange (k : socket) (rq : request) (s : state) : state :=
  with_net (fun n =>
    {| conn_results := conn_results n; send_results := tl (send_results n);
       incoming := tl (incoming n); wire := wire n ++ [(k, rq)];
       next_sock := next_sock n; open_socks := open_socks n |}) s.

(** How far a handshake that answered [r] got: the numbers [cs] it put
    on the wire, and the counter. *)
Definition stage (r : result unit) (cs : list Z) (o o1 : TalkBackInitiator)
  : Prop :=
  match r with
  | Return _ => cs = [1; 2; 3; 4]%Z /\ _cseq o1 = 4%Z
  | Raise _ =>
      cs = [] /\ _cseq o1 = _cseq o
      /\ _realm o1 = _realm o /\ _nonce o1 = _nonce o
      \/ (cs = [1]%Z \/ cs = [1; 2]%Z \/ cs = [1; 2; 3]%Z)
         /\ _cseq o1 = _cseq o
      \/ (cs = [1; 2; 3]%Z \/ cs = [1; 2; 3; 4]%Z) /\ _cseq o1 = 4%Z
  end.

(** [c], [c + 1], ..., [n] numbers in all. *)
Fixpoint count_up (c : Z) (n : nat) : list Z :=
  match n with
  | O => []
  | S n' => c :: count_up (c + 1) n'
  end.

(** What the wire can read after a [start] that raised: the requests of
    the handshake up to some point, then at most a teardown, numbered 6
    when the failure came before PLAY and 5 after. *)
Definition failed_wires : list (list Z) :=
  [[]; [1]; [1; 6]; [1; 2]; [1; 2; 6]; [1; 2; 3]; [1; 2; 3; 6];
   [1; 2; 3; 5]; [1; 2; 3; 4]; [1; 2; 3; 4; 5]]%Z.

(** The next [k] calls of [keep_alive] all return. *)
Fixpoint all_alive (k : nat) (s : state) : bool :=
  match k with
  | O => true
  | S k' =>
      negb (raised (fst (keep_alive s))) && all_alive k' (snd (keep_alive s))
  end.

(** What holds of the wire after [start] and through the calls that
    follow: the numbers go up, the first is 1, and while the socket is
    held they are not empty and none exceeds the counter. *)
Definition numbered (s : state) : Prop :=
  StronglySorted Z.lt (wire_cseqs (net s))
  /\ hd 1%Z (wire_cseqs (net s)) = 1%Z
  /\ (idle (self s) = true
      \/ wire_cseqs (net s) <> []
         /\ Forall (fun c => (c <= _cseq (self s))%Z) (wire_cseqs (net s))).

(** A piece of [sdp.split("m=")] the loop of step 5 stops at: it holds
    [a=sendonly] and an [a=control:] attribute. *)
Definition talk_section (x : str) : bool :=
  PyStr.contains (py "a=sendonly") x
  && match Re.search Patterns.A_CONTROL x with
     | Some _ => true
     | None => false
     end.

(** ** More of the repository: [utils.py] and the demo driver *)

(** *** [utils.parse_rtsp_url]

    [urllib.parse.urlparse], [urllib.parse.unquote] and [str.lower] belong
    to the interpreter and are taken as given.  [ParseResult] holds what
    [parse_rtsp_url] reads of the value [urlparse] returns; reading
    [port] can raise. *)

Record ParseResult := {
  pr_scheme : str;
  pr_username : option str;
  pr_password : option str;
  pr_hostname : option str;
  pr_port : result (option Z);
  pr_path : str
}.

(** [x or d] for an [x] that is [None] or a [str]. *)
Definition str_or (x : option str) (d : str) : str :=
  match x with
  | Some s => if PyStr.truthy s then s else d
  | None => d
  end.

(** [x or d] for an [x] that is [None] or an [int]. *)
Definition int_or (x : option Z) (d : Z) : Z :=
  match x with
  | Some z => if (z =? 0)%Z then d else z
  | None => d
  end.

Section UrlParsing.

Variable urlparse : str -> result ParseResult.
Variable unquote : str -> str.
Variable lower : str -> str.

(** [unquote(x) if x else None] *)
Definition unquoted (x : option str) : option str :=
  if PyStr.truthy_opt x then Some (unquote (fmt x)) else None.

Definition parse_rtsp_url (url : str) : result RTSPUrlParts :=
  match urlparse url with
  | Raise e => Raise e
  | Return parsed =>
      if negb (PyStr.eqb (lower (pr_scheme parsed)) (py "rtsp"))
      then Raise ValueError
      else
        let user := unquoted (pr_username parsed) in
        let pass := unquoted (pr_password parsed) in
        let host_ := str_or (pr_hostname parsed) [] in
        match pr_port parsed with
        | Raise e => Raise e
        | Return p =>
            let port_ := int_or p 554 in
            if negb (PyStr.truthy host_) then Raise ValueError
            else
              Return {| username := user; password := pass; host := host_;
                        port := port_;
                        path := PyStr.lstrip_by (N.eqb 47)
                                                (pr_path parsed) |}
        end
  end.

(** [TalkBackInitiator(rtsp_url, client_port=...)]: parse, then the
    attributes; the logger is taken to be there. *)
Definition new_initiator (rtsp_url : str) (client_port : option Z)
  : result TalkBackInitiator :=
  match parse_rtsp_url rtsp_url with
  | Return parts => Return (__init__ parts client_port)
  | Raise e => Raise e
  end.

End UrlParsing.

(** The base URI [_do_rtsp_handshake] builds from the parts. *)
Definition uri_base_of (u : RTSPUrlParts) : str :=
  py "rtsp://" ++ host u ++ py ":" ++ PyStr.of_int (port u) ++ py "/"
     ++ path u.

(** *** [utils.get_logger]

    The [logging] module is the interpreter's.  [logging_attr] is
    [getattr(logging, NAME)] where there is such an attribute: a number
    ([PyInt]), or something [setLevel] rejects and [<] cannot compare
    with a number ([PyOther]: the format string, the style table);
    [upper] is [str.upper].  [getLogger] is [logging.getLogger]: the
    logger the module keeps for a name, which is the root logger (named
    [root], at WARNING) for the empty name and for [root], and may be
    one that other code has set up already.  Of a logger the name, the
    level, the number of handlers and the [propagate] flag are kept. *)

Inductive pyval := PyInt (z : Z) | PyOther.

Record Logger := {
  lg_name : str;
  lg_level : Z;
  lg_handlers : nat;
  lg_propagate : bool
}.

Section Logging.

Variable upper : str -> str.
Variable logging_attr : str -> option pyval.
Variable getLogger : str -> Logger.

(** [settings.log_level]: INFO, unless the environment sets another. *)
Variable log_level : str.

(** [getattr(logging, name.upper(), logging.INFO)] *)
Definition _level_num (name : str) : pyval :=
  match logging_attr (upper name) with
  | Some v => v
  | None => PyInt 20
  end.

Definition _DEFAULT_LEVEL : pyval := _level_num log_level.

Definition set_level (z : Z) (lg : Logger) : Logger :=
  {| lg_name := lg_name lg; lg_level := z; lg_handlers := lg_handlers lg;
     lg_propagate := lg_propagate lg |}.

(** [get_logger(name, level=level)] on the module's [_LOGGER], [g].  The
    first component is the logger returned, [None] when the call raises
    (a level that is no number); the second is [_LOGGER] afterwards,
    which is assigned before [setLevel] can raise. *)
Definition get_logger (name : str) (level : option str) (g : option Logger)
  : option Logger * option Logger :=
  let created :=
    match g with
    | Some lg => (true, lg)
    | None =>
        let lg := getLogger name in
        match _DEFAULT_LEVEL with
        | PyInt z =>
            (true, {| lg_name := lg_name lg; lg_level := z;
                      lg_handlers := S (lg_handlers lg);
                      lg_propagate := false |})
        | PyOther => (false, lg)
        end
    end in
  let '(ok, lg) := created in
  if ok then
    if PyStr.truthy_opt level then
      match _level_num (fmt level) with
      | PyInt z =>
          if (z <? lg_level lg)%Z
          then (Some (set_level z lg), Some (set_level z lg))
          else (Some lg, Some lg)
      | PyOther => (None, Some lg)
      end
    else (Some lg, Some lg)
  else (None, Some lg).

(** A run of calls, each with its name and level. *)
Definition get_logger_calls (calls : list (str * option str))
           (g : option Logger) : option Logger :=
  fold_left (fun g c => snd (get_logger (fst c) (snd c) g)) calls g.

End Logging.

(** The classes of exception [start] lets out. *)
Definition start_errors : list exn :=
  [OSError; UnicodeEncodeError; RTSPAuthError; RTSPHandshakeError;
   ValueError; IndexError].

(** *** The demo driver, [tests/test_initiator.py] *)

Module Demo.

Definition CLIENT_PORT : Z := 5000.
Definition TOTAL_PINGS : nat := 10.

(** What [main] prints, line by line; the text of an exception is left
    out. *)
Inductive printed :=
| Started (host_ : str) (port_ : option Z)   (* [+] Talk-back started on *)
| Pinged (i : nat) (ok : bool)               (* [i/10] Keep-alive: OK, FAIL *)
| Failed (e : exn)                           (* [!] Error during talk-back *)
| Terminated.                                (* [*] Talk-back terminated. *)

(** The [for] loop from [i] on, [n] rounds to go; [time.sleep] passes. *)
Fixpoint pings (i n : nat) (s : state) (out : list printed)
  : result unit * state * list printed :=
  match n with
  | O => (Return tt, s, out)
  | S n' =>
      match keep_alive s with
      | (Return ok, s') => pings (S i) n' s' (out ++ [Pinged i ok])
      | (Raise e, s') => (Raise e, s', out)
      end
  end.

Section Main.

Variable isdecimal : N -> bool.
Variable py_int : str -> option Z.

(** [main()] once the instance is built from the parts of [RTSP_URL]:
    [try] start and ping, [except Exception] print, [finally]
    terminate. *)
Definition main (url : RTSPUrlParts) (n : network)
  : result unit * state * list printed :=
  let s := {| self := __init__ url (Some CLIENT_PORT); net := n |} in
  let '(r, s1, out1) :=
    match start isdecimal py_int s with
    | (Return (host_, port_), s1) =>
        pings 1 TOTAL_PINGS s1 [Started host_ port_]
    | (Raise e, s1) => (Raise e, s1, [])
    end in
  let out2 :=
    match r with
    | Return _ => out1
    | Raise e => out1 ++ [Failed e]
    end in
  match terminate s1 with
  | (Return _, s2) => (Return tt, s2, out2 ++ [Terminated])
  | (Raise e, s2) => (Raise e, s2, out2)
  end.

End Main.

(** The lines of [m] keep-alives that went well. *)
Definition pinged (i m : nat) : list printed :=
  map (fun j => Pinged j true) (seq i m).

(** What a run may print. *)
Definition transcript (out : list printed) : Prop :=
  (exists e, In e start_errors /\ out = [Failed e; Terminated])
  \/ (exists host_ port_,
         out = Started host_ port_ :: pinged 1 TOTAL_PINGS ++ [Terminated])
  \/ (exists host_ port_ m e,
         (m < TOTAL_PINGS)%nat /\ In e start_errors
         /\ out = Started host_ port_ :: pinged 1 m
                    ++ [Failed e; Terminated]).

End Demo.

(** *** Notions for the further properties *)

(** The request [_send_simple] builds. *)
Definition simple_request (method uri : str) (cseq : Z)
           (session : option str) (auth : str) : request :=
  {| rq_method := method; rq_uri := uri; rq_cseq := cseq;
     rq_headers :=
       (py "Authorization", auth)
       :: (if PyStr.truthy_opt session
           then [(py "Session", fmt session)] else []) |}.

(** A request as the protocol table sees it: its method, and whether it
    is authorized. *)
Definition shape (rq : request) : str * bool :=
  (rq_method rq, has_header (py "Authorization") rq).

Definition handshake_shapes : list (str * bool) :=
  [(py "DESCRIBE", false); (py "DESCRIBE", true); (py "SETUP", true);
   (py "PLAY", true)].

Definition wire_shapes (n : network) : list (str * bool) :=
  map (fun e => shape (snd e)) (wire n).

(** The network after a connection attempt failed. *)
Definition connect_failed (s : state) : state :=
  with_net (fun n =>
    {| conn_results := tl (conn_results n); send_results := send_results n;
       incoming := incoming n; wire := wire n;
       next_sock := next_sock n; open_socks := open_socks n |}) s.

(** What a match holds, all of it made of code points with [P]: its
    groups and the text it leaves. *)
Definition held (P : N -> Prop) (r : list str * str) : Prop :=
  Forall (Forall P) (fst r) /\ Forall P (snd r).

(** A digit of lower-case hexadecimal. *)
Definition is_lower_hex (c : N) : bool :=
  ((48 <=? c) && (c <=? 57) || (97 <=? c) && (c <=? 102))%N.

(** The classes of exception [start] lets out when the URL lacks a
    credential. *)
Definition no_credentials_errors : list exn :=
  [OSError; ValueError; UnicodeEncodeError; RTSPAuthError].

(** * Properties *)

(** ** MD5 against the test vectors of RFC 1321, appendix A.5 *)

Example md5_empty :
  MD5.hexdigest [] = py "d41d8cd98f00b204e9800998ecf8427e".
Proof. vm_compute. reflexivity. Qed.

Example md5_abc :
  option_map MD5.hexdigest (Utf8.encode (py "abc"))
  = Some (py "900150983cd24fb0d6963f7d28e17f72").
Proof. vm_compute. reflexivity. Qed.

Example md5_message_digest :
  option_map MD5.hexdigest (Utf8.encode (py "message digest"))
  = Some (py "f96b697d7cb7938d525a2f31aaf161d0").
Proof. vm_compute. reflexivity. Qed.

Example md5_80_digits :
  option_map MD5.hexdigest
    (Utf8.encode
       (py "12345678901234567890123456789012345678901234567890123456789012345678901234567890"))
  = Some (py "57edf4a22be3c955ac49da2e2107b67a").
Proof. vm_compute. reflexivity. Qed.

(** ** Digest authorization *)

Lemma truthy_nonempty (s : str) : s <> [] -> PyStr.truthy s = true.
Proof. destruct s; [congruence | reflexivity]. Qed.

(** C2. With [admin], [1234], realm [X], nonce [Y], [DESCRIBE] and
    [rtsp://h/p] the header carries the response
    [6e3513990323b0ff56813658f057bc19], which is the MD5 chain of RFC 2617
    without qop; and whenever credentials and a challenge are there the
    header is the five-field value around that chain (no qop, no cnonce,
    no other hash). *)
Theorem build_authorization_rfc2617 :
  rfc2617_response (py "admin") (py "1234") (py "X") (py "Y")
                   (py "DESCRIBE") (py "rtsp://h/p")
  = Some (py "6e3513990323b0ff56813658f057bc19")
  /\ _build_authorization Scenario.challenged (py "DESCRIBE") (py "rtsp://h/p")
     = Return (digest_header (py "admin") (py "X") (py "Y") (py "rtsp://h/p")
                             (py "6e3513990323b0ff56813658f057bc19"))
  /\ forall o user pass realm nonce method uri response,
      username (_url o) = Some user ->
      password (_url o) = Some pass ->
      _realm o = Some realm -> realm <> [] ->
      _nonce o = Some nonce -> nonce <> [] ->
      rfc2617_response user pass realm nonce method uri = Some response ->
      _build_authorization o method uri
      = Return (digest_header user realm nonce uri response).
Proof.
  split; [vm_compute; reflexivity|].
  split; [vm_compute; reflexivity|].
  intros o user pass realm nonce method uri response Hu Hp Hr Hr0 Hn Hn0.
  unfold rfc2617_response, md5_hex, _build_authorization, digest_header.
  rewrite Hu, Hp, Hr, Hn. unfold PyStr.truthy_opt. cbn [fmt].
  rewrite (truthy_nonempty Hr0), (truthy_nonempty Hn0). cbn [andb].
  destruct (Utf8.encode (user ++ py ":" ++ realm ++ py ":" ++ pass));
    cbn [option_map]; [|discriminate].
  destruct (Utf8.encode (method ++ py ":" ++ uri));
    cbn [option_map]; [|discriminate].
  destruct (Utf8.encode _); cbn [option_map]; [|discriminate].
  intros H. injection H as <-. reflexivity.
Qed.

Lemma build_authorization_rfc2617_witness :
  _build_authorization Scenario.challenged (py "SETUP")
                       (py "rtsp://cam/live/track2")
  = Return (digest_header (py "admin") (py "X") (py "Y")
                          (py "rtsp://cam/live/track2")
                          (py "9ec5d0d2ae76443e5caa1f80a86367f8")).
Proof.
  apply (proj2 (proj2 build_authorization_rfc2617)) with (pass := py "1234");
    first [reflexivity | discriminate | (vm_compute; reflexivity)].
Defined.

(** ** What one exchange does to the state *)

Lemma _send_spec (rq : request) (s : state) (r : result str) (s' : state) :
  _send rq s = (r, s') ->
  io_frame s s'
  /\ (wire_step s s' (Some rq) \/ wire_step s s' None /\ raised r = true).
Proof.
  unfold _send, bind, get_self, raise, ret, sendall, recv, wire_step.
  cbn beta iota.
  destruct (_sock (self s)) as [k|] eqn:Hk.
  2:{ intros [= <- <-].
      split; [constructor; reflexivity | right; split; reflexivity]. }
  destruct (Utf8.encode (render rq)).
  2:{ intros [= <- <-].
      split; [constructor; reflexivity | right; split; reflexivity]. }
  destruct (send_results (net s)) as [|[|] sends]; cbn;
    try (intros [= <- <-];
         split; [constructor; reflexivity | right; split; reflexivity]);
    destruct (incoming (net s)) as [|[data|] recvs]; cbn;
    intros [= <- <-];
    (split; [constructor; reflexivity | left; exists k; split; reflexivity]).
Qed.

(** When [_send] returns, the request is on the wire. *)
Lemma _send_returns (rq : request) (s : state) (resp : str) (s' : state) :
  _send rq s = (Return resp, s') -> wire_step s s' (Some rq).
Proof.
  intros H. destruct (_send_spec _ _ H) as [_ [Hw|[_ Hr]]];
    [exact Hw | discriminate].
Qed.

Lemma _send_simple_spec (method uri : str) (cseq : Z) (session : option str)
      (roe : bool) (s : state) (r : result bool) (s' : state) :
  _send_simple method uri cseq session roe s = (r, s') ->
  io_frame s s'
  /\ ((exists rq, rq_cseq rq = cseq
                  /\ has_header (py "Authorization") rq = true
                  /\ wire_step s s' (Some rq)
                  /\ raised (_build_authorization (self s) method uri) = false)
      \/ wire_step s s' None /\ raised r = true).
Proof.
  unfold _send_simple, bind, get_self, lift. cbn beta iota.
  destruct (_build_authorization (self s) method uri) as [auth|e] eqn:Hauth.
  2:{ intros [= <- <-].
      split; [constructor; reflexivity | right; split; reflexivity]. }
  match goal with
  | |- context [_send ?r s] => set (rq := r)
  end.
  assert (Hrq : rq_cseq rq = cseq
                /\ has_header (py "Authorization") rq = true)
    by (split; reflexivity).
  destruct (_send rq s) as [[resp|e] s1] eqn:Hs;
    destruct (_send_spec _ _ Hs) as [Hf Hw].
  - assert (Hsent : wire_step s s1 (Some rq)) by (eapply _send_returns; eauto).
    destruct (negb (PyStr.startswith (py "RTSP/1.0 200") resp) && roe);
      [destruct resp|]; intros [= <- <-];
      (split; [exact Hf | left; exists rq; tauto]).
  - intros [= <- <-]. split; [exact Hf|].
    destruct Hw as [Hw|[Hw _]].
    + left. exists rq. tauto.
    + right. split; [exact Hw | reflexivity].
Qed.

Lemma keep_alive_idle (s : state) :
  idle (self s) = true -> keep_alive s = (Return false, s).
Proof.
  unfold idle, keep_alive, bind, get_self, ret. cbn beta iota.
  destruct (_sock (self s)); [|reflexivity].
  destruct (PyStr.truthy_opt (_uri_base (self s))); [discriminate|reflexivity].
Qed.

Lemma terminate_idle (s : state) :
  idle (self s) = true -> terminate s = (Return tt, s).
Proof.
  unfold idle, terminate, bind, get_self, ret. cbn beta iota.
  destruct (_sock (self s)); [|reflexivity].
  destruct (PyStr.truthy_opt (_uri_base (self s))); [discriminate|reflexivity].
Qed.

(** [terminate] with a socket and a base URI: it returns, the socket is
    closed and forgotten, and at most a TEARDOWN numbered [_cseq + 1] has
    gone out, which takes a challenge and credentials. *)
Lemma terminate_active (s : state) (k : socket) :
  _sock (self s) = Some k ->
  PyStr.truthy_opt (_uri_base (self s)) = true ->
  exists s',
    terminate s = (Return tt, s')
    /\ self s' = set_sock None (self s)
    /\ conn_results (net s') = conn_results (net s)
    /\ next_sock (net s') = next_sock (net s)
    /\ open_socks (net s') = List.remove Nat.eq_dec k (open_socks (net s))
    /\ ((exists rq, rq_cseq rq = (_cseq (self s) + 1)%Z
                    /\ has_header (py "Authorization") rq = true
                    /\ wire (net s') = wire (net s) ++ [(k, rq)]
                    /\ raised (_build_authorization
                                 (self s) (py "TEARDOWN")
                                 (fmt (_uri_base (self s)))) = false)
        \/ wire (net s') = wire (net s)).
Proof.
  intros Hk Hu.
  unfold terminate, bind at 1, get_self. cbn beta iota. rewrite Hk, Hu.
  unfold try_finally, try_except, bind, ret, close, modify_self.
  destruct (_send_simple _ _ _ _ _ s) as [[ok|e] s1] eqn:Hs;
    destruct (_send_simple_spec _ _ _ _ _ _ Hs)
      as [[Hself Hconn Hnext Hopen] Hw];
    (eexists; split; [reflexivity|]; cbn;
     rewrite Hself, Hconn, Hnext, Hopen;
     repeat (split; [reflexivity|]);
     destruct Hw as [(rq & Hc & Ha & (k' & Hk' & Hwire) & Hb)|[Hwire _]];
     [ left; exists rq; rewrite Hk in Hk'; injection Hk' as <-; auto
     | right; exact Hwire ]).
Qed.

(** [keep_alive] with a socket and a base URI: the counter moves on by
    one whatever happens next, and at most an OPTIONS carrying the new
    value has gone out. *)
Lemma keep_alive_active (s : state) (k : socket) (r : result bool)
      (s' : state) :
  _sock (self s) = Some k ->
  PyStr.truthy_opt (_uri_base (self s)) = true ->
  keep_alive s = (r, s') ->
  self s' = set_cseq (_cseq (self s) + 1) (self s)
  /\ conn_results (net s') = conn_results (net s)
  /\ next_sock (net s') = next_sock (net s)
  /\ open_socks (net s') = open_socks (net s)
  /\ ((exists rq, rq_cseq rq = (_cseq (self s) + 1)%Z
                  /\ wire (net s') = wire (net s) ++ [(k, rq)])
      \/ wire (net s') = wire (net s) /\ raised r = true).
Proof.
  intros Hk Hu.
  unfold keep_alive, bind at 1, get_self. cbn beta iota. rewrite Hk, Hu.
  unfold bind, modify_self, get_self, ret. cbn beta iota.
  destruct (_send_simple _ _ _ _ _ _) as [[ok|e] s2] eqn:Hs;
    destruct (_send_simple_spec _ _ _ _ _ _ Hs)
      as [[Hself Hconn Hnext Hopen] Hw];
    intros [= <- <-]; cbn in *;
    rewrite Hself, Hconn, Hnext, Hopen;
    repeat (split; [reflexivity|]);
    (destruct Hw as [(rq & Hc & _ & (k' & Hk' & Hwire) & _)|[Hwire Hr]];
     [ left; exists rq; rewrite Hk in Hk'; injection Hk' as <-;
       split; [exact Hc | exact Hwire]
     | right; split; [exact Hwire | first [exact Hr | reflexivity]] ]).
Qed.

(** With [raise_on_error] set, [_send_simple] never returns [False]. *)
Lemma _send_simple_raising_returns_true (method uri : str) (cseq : Z)
      (session : option str) (s : state) (b : bool) (s' : state) :
  _send_simple method uri cseq session true s = (Return b, s') -> b = true.
Proof.
  unfold _send_simple, bind, get_self, lift, raise, ret. cbn beta iota.
  destruct (_build_authorization (self s) method uri); [|discriminate].
  destruct (_send _ s) as [[resp|e] s1]; [|discriminate].
  destruct (PyStr.startswith (py "RTSP/1.0 200") resp); cbn.
  - intros [= <- _]. reflexivity.
  - destruct resp; discriminate.
Qed.

(** So the [else] branch of [keep_alive] (the warning, and [False]
    returned) is never taken once the guard is passed. *)
Lemma keep_alive_active_never_false (s s' : state) :
  idle (self s) = false -> keep_alive s <> (Return false, s').
Proof.
  unfold idle, keep_alive, bind at 1, get_self. cbn beta iota.
  destruct (_sock (self s)); [|discriminate].
  destruct (PyStr.truthy_opt (_uri_base (self s))); [|discriminate].
  intros _. unfold bind, modify_self, get_self, ret. cbn beta iota.
  destruct (_send_simple _ _ _ _ _ _) as [[ok|e] s2] eqn:Hs; [|discriminate].
  apply _send_simple_raising_returns_true in Hs. subst ok. discriminate.
Qed.

(** [terminate] returns in every state, and leaves an instance on which
    nothing more will be sent. *)
Lemma terminate_returns (s : state) :
  exists s', terminate s = (Return tt, s') /\ idle (self s') = true.
Proof.
  destruct (idle (self s)) eqn:Hidle.
  - exists s. auto using terminate_idle.
  - unfold idle in Hidle.
    destruct (_sock (self s)) as [k|] eqn:Hk; [|discriminate].
    destruct (PyStr.truthy_opt (_uri_base (self s))) eqn:Hu; [|discriminate].
    destruct (terminate_active s Hk Hu) as (s' & Ht & Hself & _).
    exists s'. split; [exact Ht|]. rewrite Hself. reflexivity.
Qed.

(** Whatever is called next, every request it sends is numbered above the
    counter as it stands. *)
Lemma calls_beyond (ops : list op) (s : state) :
  exists later,
    wire_cseqs (net (fold_left call ops s)) = wire_cseqs (net s) ++ later
    /\ Forall (fun c => (_cseq (self s) < c)%Z) later.
Proof.
  revert s. induction ops as [|o ops IH]; intros s; cbn [fold_left].
  - exists []. rewrite app_nil_r. auto.
  - destruct (idle (self s)) eqn:Hidle.
    { assert (Hs : call s o = s)
        by (destruct o; cbn [call];
            rewrite ?keep_alive_idle, ?terminate_idle by exact Hidle;
            reflexivity).
      rewrite Hs. apply IH. }
    unfold idle in Hidle.
    destruct (_sock (self s)) as [k|] eqn:Hk; [|discriminate].
    destruct (PyStr.truthy_opt (_uri_base (self s))) eqn:Hu; [|discriminate].
    destruct (IH (call s o)) as (later & Hl & Hgt). rewrite Hl.
    assert (Hstep :
              exists sent,
                wire_cseqs (net (call s o)) = wire_cseqs (net s) ++ sent
                /\ Forall (fun c => (_cseq (self s) < c)%Z) sent
                /\ (_cseq (self s) <= _cseq (self (call s o)))%Z).
    { destruct o; cbn [call].
      - destruct (keep_alive s) as [r s'] eqn:Hka. cbn [snd].
        destruct (keep_alive_active s Hk Hu Hka) as (Hself & _ & _ & _ & Hw).
        rewrite Hself. cbn [_cseq set_cseq].
        destruct Hw as [(rq & Hc & Hw)|[Hw _]].
        + exists [rq_cseq rq]. unfold wire_cseqs. rewrite Hw, map_app.
          cbn [map snd]. rewrite Hc.
          split; [reflexivity | split; [repeat constructor; lia | lia]].
        + exists []. unfold wire_cseqs. rewrite Hw, app_nil_r.
          split; [reflexivity | split; [constructor | lia]].
      - destruct (terminate_active s Hk Hu)
          as (s' & -> & Hself & _ & _ & _ & Hw).
        cbn [snd]. rewrite Hself. cbn [_cseq set_sock].
        destruct Hw as [(rq & Hc & _ & Hw & _)|Hw].
        + exists [rq_cseq rq]. unfold wire_cseqs. rewrite Hw, map_app.
          cbn [map snd]. rewrite Hc.
          split; [reflexivity | split; [repeat constructor; lia | lia]].
        + exists []. unfold wire_cseqs. rewrite Hw, app_nil_r.
          split; [reflexivity | split; [constructor | lia]]. }
    destruct Hstep as (sent & -> & Hsent & Hle).
    exists (sent ++ later). rewrite app_assoc. split; [reflexivity|].
    apply Forall_app. split; [exact Hsent|].
    eapply Forall_impl; [|exact Hgt]. cbn. intros. lia.
Qed.

(** ** Session operations *)

(** C1 (the code departs from it). A session is up and the camera answers
    the OPTIONS request with [454 Session Not Found]: [keep_alive] raises
    [RTSPHandshakeError] instead of returning [False]; when no answer
    comes at all it raises the socket's error. *)
Theorem keep_alive_raises_on_failure :
  idle (self (Scenario.playing [Some Scenario.resp_454])) = false
  /\ fst (keep_alive (Scenario.playing [Some Scenario.resp_454]))
     = Raise RTSPHandshakeError
  /\ fst (keep_alive (Scenario.playing [])) = Raise OSError.
Proof. vm_compute. repeat split; reflexivity. Qed.

(** C8. [terminate] returns in every state; called again it returns
    again and changes nothing; after it [keep_alive] returns [False].  On
    an instance that never ran [start] it changes nothing either. *)
Theorem terminate_total_idempotent :
  (forall s : state,
      exists s',
        terminate s = (Return tt, s')
        /\ terminate s' = (Return tt, s')
        /\ keep_alive s' = (Return false, s'))
  /\ (forall (url : RTSPUrlParts) (client_port : option Z) (n : network),
         let s := {| self := __init__ url client_port; net := n |} in
         terminate s = (Return tt, s)
         /\ keep_alive s = (Return false, s)).
Proof.
  split.
  - intros s. destruct (terminate_returns s) as (s' & Ht & Hidle).
    exists s'. auto using terminate_idle, keep_alive_idle.
  - intros url client_port n s.
    split; [apply terminate_idle | apply keep_alive_idle]; reflexivity.
Qed.

(** C10. With a socket and a base URI, [keep_alive] moves the counter on
    by one before anything is sent, so the number is spent whether the
    call returns or raises; its request, if one goes out, carries the new
    value, the request of the next call ([keep_alive] or [terminate])
    carries the value after that, and every request of every later call
    carries a larger one. *)
Theorem keep_alive_consumes_cseq :
  forall (s : state) (k : socket) (r : result bool) (s1 : state),
    _sock (self s) = Some k ->
    PyStr.truthy_opt (_uri_base (self s)) = true ->
    keep_alive s = (r, s1) ->
    _cseq (self s1) = (_cseq (self s) + 1)%Z
    /\ (wire (net s1) = wire (net s)
        \/ exists rq, rq_cseq rq = (_cseq (self s) + 1)%Z
                      /\ wire (net s1) = wire (net s) ++ [(k, rq)])
    /\ (forall o : op,
           wire (net (call s1 o)) = wire (net s1)
           \/ exists rq, rq_cseq rq = (_cseq (self s) + 2)%Z
                         /\ wire (net (call s1 o)) = wire (net s1) ++ [(k, rq)])
    /\ (forall ops : list op,
           exists later,
             wire_cseqs (net (fold_left call ops s1))
             = wire_cseqs (net s1) ++ later
             /\ Forall (fun c => (_cseq (self s) + 1 < c)%Z) later).
Proof.
  intros s k r s1 Hk Hu Hka.
  destruct (keep_alive_active s Hk Hu Hka) as (Hself & _ & _ & _ & Hw).
  split; [rewrite Hself; reflexivity|].
  split; [destruct Hw as [(rq & ? & ?)|[? _]]; eauto|].
  split.
  2:{ intros ops. destruct (calls_beyond ops s1) as (later & Hl & Hgt).
      exists later. split; [exact Hl|].
      rewrite Hself in Hgt. exact Hgt. }
  assert (Hk1 : _sock (self s1) = Some k) by (rewrite Hself; exact Hk).
  assert (Hu1 : PyStr.truthy_opt (_uri_base (self s1)) = true)
    by (rewrite Hself; exact Hu).
  assert (Hc1 : (_cseq (self s1) + 1 = _cseq (self s) + 2)%Z)
    by (rewrite Hself; cbn; lia).
  intros [|]; cbn [call].
  - destruct (keep_alive s1) as [r2 s2] eqn:H2.
    destruct (keep_alive_active s1 Hk1 Hu1 H2) as (_ & _ & _ & _ & Hw2).
    rewrite Hc1 in Hw2. cbn [snd].
    destruct Hw2 as [(rq & ? & ?)|[? _]]; eauto.
  - destruct (terminate_active s1 Hk1 Hu1) as (s2 & Ht & _ & _ & _ & _ & Hw2).
    rewrite Ht, Hc1 in *. cbn [snd].
    destruct Hw2 as [(rq & ? & _ & ? & _)|?]; eauto.
Qed.

Lemma keep_alive_consumes_cseq_witness :
  _cseq (self (snd (keep_alive (Scenario.playing [Some Scenario.resp_454]))))
  = (_cseq (self (Scenario.playing [Some Scenario.resp_454])) + 1)%Z.
Proof.
  refine (proj1 (@keep_alive_consumes_cseq
                   (Scenario.playing [Some Scenario.resp_454]) 0%nat
                   (fst (keep_alive
                           (Scenario.playing [Some Scenario.resp_454])))
                   _ _ _ _)).
  - vm_compute. reflexivity.
  - vm_compute. reflexivity.
  - apply surjective_pairing.
Defined.

(** C7, as the code has it. Without a user name or without a password
    [_build_authorization] raises [RTSPAuthError]; with both but without
    a captured realm or nonce it fails on its assertion. *)
Theorem build_authorization_failures :
  forall (o : TalkBackInitiator) (method uri : str),
    (username (_url o) = None \/ password (_url o) = None ->
     _build_authorization o method uri = Raise RTSPAuthError)
    /\ (username (_url o) <> None -> password (_url o) <> None ->
        PyStr.truthy_opt (_realm o) && PyStr.truthy_opt (_nonce o) = false ->
        _build_authorization o method uri = Raise AssertionError).
Proof.
  intros o method uri. unfold _build_authorization.
  destruct (username (_url o)), (password (_url o)); split;
    try reflexivity; try (intros [?|?]; discriminate);
    try (intros; congruence).
  intros _ _ H. rewrite H. reflexivity.
Qed.

Lemma build_authorization_failures_witness :
  _build_authorization Scenario.fresh (py "TEARDOWN") (py "rtsp://h:554/p")
  = Raise AssertionError.
Proof.
  apply (proj2 (build_authorization_failures
                  Scenario.fresh (py "TEARDOWN") (py "rtsp://h:554/p")));
    [discriminate | discriminate | reflexivity].
Defined.

(** C7 as stated fails: credentials are there, no challenge has been
    captured, and the failure is an [AssertionError], not the
    authentication error. *)
Lemma build_authorization_without_challenge_asserts :
  username (_url Scenario.fresh) <> None
  /\ password (_url Scenario.fresh) <> None
  /\ _realm Scenario.fresh = None
  /\ _nonce Scenario.fresh = None
  /\ _build_authorization Scenario.fresh (py "DESCRIBE") (py "rtsp://h/p")
     = Raise AssertionError
  /\ _build_authorization Scenario.fresh (py "DESCRIBE") (py "rtsp://h/p")
     <> Raise RTSPAuthError.
Proof. vm_compute. repeat split; discriminate. Qed.

(** ** Receiving *)

(** C6, as the code has it. [_send] reads once: with an open socket, a
    request that encodes and a [sendall] that succeeds, it returns what
    the first read delivers and leaves whatever else is arriving for the
    next call. *)
Theorem send_is_one_read :
  forall (rq : request) (s : state) (k : socket) (data : str)
         (rest : list (option str)),
    _sock (self s) = Some k ->
    Utf8.encodable (render rq) = true ->
    hd true (send_results (net s)) = true ->
    incoming (net s) = Some data :: rest ->
    exists s',
      _send rq s = (Return data, s')
      /\ incoming (net s') = rest
      /\ wire (net s') = wire (net s) ++ [(k, rq)].
Proof.
  intros rq s k data rest Hk Henc Hsend Hin.
  unfold _send, bind, get_self, ret, sendall, recv, Utf8.encode.
  cbn beta iota. rewrite Hk, Henc.
  destruct (send_results (net s)) as [|[|] sends]; try discriminate;
    cbn; rewrite Hin; eexists; repeat split; cbn; try rewrite Hin;
    reflexivity.
Qed.

Lemma send_is_one_read_witness :
  exists s',
    _send Scenario.describe_1
          (Scenario.connected [Some Scenario.resp_401_head;
                               Some Scenario.resp_401_tail])
    = (Return Scenario.resp_401_head, s')
    /\ incoming (net s') = [Some Scenario.resp_401_tail]
    /\ wire (net s') = [(0%nat, Scenario.describe_1)].
Proof.
  apply (@send_is_one_read Scenario.describe_1
           (Scenario.connected [Some Scenario.resp_401_head;
                                Some Scenario.resp_401_tail]) 0%nat);
    vm_compute; reflexivity.
Defined.

(** C6 as stated fails. The 401 arrives whole in two reads; [_send]
    returns the first piece alone, and [start] reports a missing challenge
    although the answer carries one and the very same answers, each read
    whole, make [start] succeed. *)
Lemma send_returns_first_fragment_only :
  Scenario.resp_401_head ++ Scenario.resp_401_tail = Scenario.resp_401
  /\ PyStr.contains (CRLF ++ CRLF) Scenario.resp_401 = true
  /\ fst (_send Scenario.describe_1
                (Scenario.connected [Some Scenario.resp_401_head;
                                     Some Scenario.resp_401_tail]))
     = Return Scenario.resp_401_head
  /\ Scenario.resp_401_head <> Scenario.resp_401
  /\ fst (start Ascii10.isdecimal Ascii10.int
                (Scenario.facing
                   (Some Scenario.resp_401_head
                    :: Some Scenario.resp_401_tail
                    :: tl Scenario.handshake_answers)))
     = Raise RTSPAuthError
  /\ fst (start Ascii10.isdecimal Ascii10.int
                (Scenario.facing Scenario.handshake_answers))
     = Return (py "h", Some 6000%Z).
Proof. vm_compute. repeat split; discriminate. Qed.

(** ** The talk-back URL *)

Lemma rstrip_by_spec (p : N -> bool) (s : str) :
  exists t,
    s = PyStr.rstrip_by p s ++ t
    /\ forallb p t = true
    /\ (PyStr.rstrip_by p s = []
        \/ p (last (PyStr.rstrip_by p s) 0%N) = false).
Proof.
  induction s as [|c s IH]; cbn [PyStr.rstrip_by].
  - exists []. auto.
  - destruct IH as (t & Hs & Ht & Hlast).
    destruct (PyStr.rstrip_by p s) as [|x r] eqn:Hr.
    + destruct (p c) eqn:Hc.
      * exists (c :: t). cbn in *. rewrite Hc, Ht, <- Hs.
        repeat split. left. reflexivity.
      * exists t. cbn in *. subst t. rewrite Hc.
        repeat split; [exact Ht | right; reflexivity].
    + exists t. rewrite Hs at 1. split; [reflexivity|].
      split; [exact Ht|]. right.
      destruct Hlast as [Hnil|Hlast]; [discriminate | exact Hlast].
Qed.

Lemma forallb_eqb_repeat (c : N) (t : str) :
  forallb (N.eqb c) t = true -> t = repeat c (List.length t).
Proof.
  induction t as [|x t IH]; cbn; [reflexivity|].
  intros H. apply andb_prop in H as [Hx Ht].
  apply N.eqb_eq in Hx. subst x. f_equal. auto.
Qed.

(** [s.rstrip("/")] takes away the trailing slashes, all of them and
    nothing else. *)
Lemma rstrip_slash_spec (s : str) :
  exists k,
    s = PyStr.rstrip_slash s ++ repeat 47%N k
    /\ forall r, PyStr.rstrip_slash s <> r ++ [47%N].
Proof.
  unfold PyStr.rstrip_slash.
  destruct (rstrip_by_spec (N.eqb 47) s) as (t & Hs & Ht & Hlast).
  exists (List.length t). split.
  - rewrite <- (forallb_eqb_repeat _ _ Ht). exact Hs.
  - intros r Hr. destruct Hlast as [Hnil|Hlast].
    + rewrite Hnil in Hr. destruct r; discriminate.
    + rewrite Hr, last_last in Hlast. discriminate.
Qed.

(** A marked section without an [a=control:] line is passed over. *)
Lemma find_talk_control_passes_over (sec : str) (rest : list str) :
  PyStr.contains (py "a=sendonly") sec = true ->
  Re.search Patterns.A_CONTROL sec = None ->
  find_talk_control (sec :: rest) = find_talk_control rest.
Proof. intros Hs Hc. cbn [find_talk_control]. rewrite Hs, Hc. reflexivity. Qed.

(** Without a section marked [a=sendonly] the loop finds nothing. *)
Lemma find_talk_control_none (sections : list str) :
  Forall (fun x => PyStr.contains (py "a=sendonly") x = false) sections ->
  find_talk_control sections = None.
Proof.
  induction 1 as [|x l Hx _ IH]; cbn [find_talk_control];
    [reflexivity | rewrite Hx; exact IH].
Qed.



(** What the loop found is the stripped capture of the first piece that
    has both marks. *)
Lemma find_talk_control_found (sections : list str) (c : str) :
  find_talk_control sections = Some c ->
  exists pre sec post m,
    sections = pre ++ sec :: post
    /\ Forall (fun x => talk_section x = false) pre
    /\ PyStr.contains (py "a=sendonly") sec = true
    /\ Re.search Patterns.A_CONTROL sec = Some m
    /\ c = PyStr.strip (Re.group 1 m).
Proof.
  induction sections as [|x l IH]; cbn [find_talk_control]; [discriminate|].
  assert (Hnext : talk_section x = false ->
                  find_talk_control l = Some c ->
                  exists pre sec post m,
                    x :: l = pre ++ sec :: post
                    /\ Forall (fun x => talk_section x = false) pre
                    /\ PyStr.contains (py "a=sendonly") sec = true
                    /\ Re.search Patterns.A_CONTROL sec = Some m
                    /\ c = PyStr.strip (Re.group 1 m)).
  { intros Hx H. destruct (IH H) as (pre & sec & post & m & -> & Hpre & Hr).
    exists (x :: pre), sec, post, m.
    split; [reflexivity|]. split; [constructor; assumption | exact Hr]. }
  unfold talk_section in Hnext.
  destruct (PyStr.contains (py "a=sendonly") x) eqn:Hs;
    [|apply Hnext; reflexivity].
  destruct (Re.search Patterns.A_CONTROL x) as [m|] eqn:Hm;
    [|apply Hnext; reflexivity].
  intros [= <-]. exists [], x, l, m. repeat split; auto.
Qed.




(** ** Encodable text *)

Lemma encodable_app (a b : str) :
  Utf8.encodable (a ++ b) = Utf8.encodable a && Utf8.encodable b.
Proof. apply forallb_app. Qed.

Lemma encodable_py (s : string) : Utf8.encodable (py s) = true.
Proof.
  unfold py, Utf8.encodable.
  induction (list_ascii_of_string s) as [|a l IH]; cbn [map forallb];
    [reflexivity|].
  rewrite IH, andb_true_r. unfold Utf8.is_scalar.
  pose proof (N_ascii_bounded a) as Ha.
  apply orb_true_iff. left. apply N.ltb_lt. lia.
Qed.

Lemma encodable_of_uint (d : Decimal.uint) :
  Utf8.encodable (PyStr.of_uint d) = true.
Proof. induction d; cbn; auto. Qed.

Lemma encodable_of_int (z : Z) : Utf8.encodable (PyStr.of_int z) = true.
Proof.
  unfold PyStr.of_int. destruct (Z.to_int z); cbn;
    apply encodable_of_uint.
Qed.

Lemma hexchar_scalar (n : N) :
  (n < 16)%N -> Utf8.is_scalar (MD5.hexchar n) = true.
Proof.
  intros Hn. unfold MD5.hexchar, Utf8.is_scalar.
  apply orb_true_iff. left. apply N.ltb_lt.
  destruct (n <? 10)%N; lia.
Qed.

Lemma le_bytes_bounded (k : nat) (w : N) :
  Forall (fun b => (b < 256)%N) (MD5.le_bytes k w).
Proof.
  revert w. induction k as [|k IH]; intros w; cbn [MD5.le_bytes];
    constructor; [apply N.mod_lt; discriminate | apply IH].
Qed.

Lemma encodable_hex (bs : list N) :
  Forall (fun b => (b < 256)%N) bs -> Utf8.encodable (MD5.hex bs) = true.
Proof.
  unfold MD5.hex, Utf8.encodable.
  induction 1 as [|b bs Hb _ IH]; cbn [flat_map app forallb];
    [reflexivity|].
  rewrite IH, !hexchar_scalar; [reflexivity | | ].
  - apply N.mod_lt. discriminate.
  - apply N.Div0.div_lt_upper_bound. exact Hb.
Qed.

Lemma encodable_hexdigest (msg : list N) :
  Utf8.encodable (MD5.hexdigest msg) = true.
Proof.
  unfold MD5.hexdigest, MD5.digest. apply encodable_hex.
  repeat (apply Forall_app; split); apply le_bytes_bounded.
Qed.

Lemma encode_encodable (s : str) :
  Utf8.encodable s = true ->
  Utf8.encode s = Some (flat_map Utf8.encode_cp s).
Proof. intros H. unfold Utf8.encode. rewrite H. reflexivity. Qed.

Create Rewrite HintDb enc.
#[local] Hint Rewrite encodable_app encodable_py encodable_of_int
  encodable_hexdigest andb_true_r andb_true_l : enc.

(** ** The handshake, step by step *)

Lemma create_connection_ok (s : state) :
  hd true (conn_results (net s)) = true ->
  create_connection s = (Return (next_sock (net s)), after_connect s).
Proof.
  unfold create_connection.
  destruct (conn_results (net s)) as [|[|] l]; cbn; intros H;
    (reflexivity || discriminate).
Qed.

Lemma _send_reads_once (rq : request) (s : state) (k : socket) (data : str)
      (rest : list (option str)) :
  _sock (self s) = Some k ->
  Utf8.encodable (render rq) = true ->
  hd true (send_results (net s)) = true ->
  incoming (net s) = Some data :: rest ->
  _send rq s = (Return data, after_exchange k rq s).
Proof.
  intros Hk Henc Hsend Hin.
  unfold _send, bind, get_self, ret, sendall, recv, Utf8.encode.
  cbn beta iota. rewrite Hk, Henc.
  destruct (send_results (net s)) as [|[|] sends] eqn:Hs; try discriminate;
    cbn; rewrite Hin; unfold after_exchange, with_net; cbn;
    rewrite ?Hs, ?Hin; reflexivity.
Qed.

Lemma no_failure_hd (l : list bool) : ~ In false l -> hd true l = true.
Proof. destruct l as [|[|] l]; cbn; intros H; [auto | auto | tauto]. Qed.

Lemma no_failure_tl (l : list bool) : ~ In false l -> ~ In false (tl l).
Proof. destruct l as [|b l]; cbn; intros H; tauto. Qed.

Lemma uri_base_truthy (h p q : str) :
  PyStr.truthy_opt (Some (py "rtsp://" ++ h ++ py ":" ++ p ++ py "/" ++ q))
  = true.
Proof. reflexivity. Qed.

(** No header without credentials and a challenge. *)
Lemma build_authorization_needs_challenge (o : TalkBackInitiator)
      (method uri : str) :
  raised (_build_authorization o method uri) = false ->
  PyStr.truthy_opt (_realm o) = true /\ PyStr.truthy_opt (_nonce o) = true.
Proof.
  unfold _build_authorization.
  destruct (username (_url o)), (password (_url o)); try discriminate.
  destruct (PyStr.truthy_opt (_realm o)), (PyStr.truthy_opt (_nonce o));
    cbn; (discriminate || auto).
Qed.

Lemma describe_1_encodable (uri : str) :
  Utf8.encodable uri = true ->
  Utf8.encodable
    (render {| rq_method := py "DESCRIBE"; rq_uri := uri; rq_cseq := 1;
               rq_headers := describe_headers |}) = true.
Proof.
  intros H. unfold render. cbn [rq_method rq_uri rq_cseq rq_headers].
  autorewrite with enc. rewrite H. reflexivity.
Qed.

Section StartOutcomes.

Variable isdecimal : N -> bool.
Variable py_int : str -> option Z.

(** The exception of a failed handshake is the exception of [start]. *)
Lemma start_reraises (s s1 : state) (e : exn) :
  _do_rtsp_handshake isdecimal py_int s = (Raise e, s1) ->
  fst (start isdecimal py_int s) = Raise e.
Proof.
  intros H. unfold start. rewrite H.
  destruct (terminate_returns s1) as (s2 & -> & _). reflexivity.
Qed.

(** C9. An instance that holds no challenge (a new one, for instance)
    connects, sends the first DESCRIBE and reads an answer in which the
    challenge pattern finds nothing: [start] raises [RTSPAuthError], the
    socket is closed, and the one request that went out has no
    [Authorization] header. *)
Theorem start_without_challenge :
  forall (s : state) (resp1 : str) (rest : list (option str)),
    PyStr.truthy_opt (_realm (self s)) = false ->
    hd true (conn_results (net s)) = true ->
    hd true (send_results (net s)) = true ->
    Utf8.encodable (host (_url (self s))) = true ->
    Utf8.encodable (path (_url (self s))) = true ->
    incoming (net s) = Some resp1 :: rest ->
    Re.search Patterns.WWW_AUTHENTICATE resp1 = None ->
    exists (s' : state) (rq : request),
      start isdecimal py_int s = (Raise RTSPAuthError, s')
      /\ wire (net s') = wire (net s) ++ [(next_sock (net s), rq)]
      /\ rq_cseq rq = 1%Z
      /\ has_header (py "Authorization") rq = false
      /\ _sock (self s') = None
      /\ open_socks (net s')
         = List.remove Nat.eq_dec (next_sock (net s))
                       (next_sock (net s) :: open_socks (net s)).
Proof.
  intros s resp1 rest Hrealm Hconn Hsend Hhost Hpath Hin Hre.
  eassert (Hh : _do_rtsp_handshake isdecimal py_int s
                = (Raise RTSPAuthError, _)).
  { unfold _do_rtsp_handshake, bind, get_self, modify_self.
    cbn beta iota.
    rewrite create_connection_ok by exact Hconn. cbn beta iota.
    erewrite _send_reads_once;
      [ | reflexivity
        | apply describe_1_encodable; autorewrite with enc;
          rewrite Hhost, Hpath; reflexivity
        | exact Hsend | exact Hin ].
    cbn beta iota. rewrite Hre. reflexivity. }
  unfold start. rewrite Hh.
  match goal with |- context [terminate ?s1] =>
    destruct (@terminate_active s1 (next_sock (net s)) eq_refl
                (uri_base_truthy _ _ _))
      as (s2 & Ht & Hself & _ & _ & Hopen & Hw)
  end.
  rewrite Ht. exists s2. eexists. split; [reflexivity|].
  destruct Hw as [(rq & _ & _ & _ & Hb)|Hw].
  { apply build_authorization_needs_challenge in Hb as [Hb _].
    cbn in Hb. rewrite Hrealm in Hb. discriminate Hb. }
  rewrite Hw, Hself, Hopen. cbn. repeat split.
Qed.

End StartOutcomes.

Lemma start_without_challenge_witness :
  exists (s' : state) (rq : request),
    start Ascii10.isdecimal Ascii10.int
          (Scenario.facing [Some Scenario.resp_no_challenge])
    = (Raise RTSPAuthError, s')
    /\ wire (net s') = [] ++ [(0%nat, rq)]
    /\ rq_cseq rq = 1%Z
    /\ has_header (py "Authorization") rq = false
    /\ _sock (self s') = None
    /\ open_socks (net s') = List.remove Nat.eq_dec 0%nat [0%nat].
Proof.
  apply (@start_without_challenge Ascii10.isdecimal Ascii10.int
           (Scenario.facing [Some Scenario.resp_no_challenge])
           Scenario.resp_no_challenge []);
    vm_compute; reflexivity.
Defined.

(** ** The handshake along every path *)

Lemma wire_cseqs_app (n : network) (k : socket) (rq : request)
      (l : list (socket * request)) :
  wire n = l ++ [(k, rq)] ->
  wire_cseqs n = map (fun e => rq_cseq (snd e)) l ++ [rq_cseq rq].
Proof. intros H. unfold wire_cseqs. rewrite H, map_app. reflexivity. Qed.

Lemma create_connection_spec (s : state) (r : result socket) (s' : state) :
  create_connection s = (r, s') ->
  self s' = self s
  /\ wire (net s') = wire (net s)
  /\ (r = Return (next_sock (net s))
      /\ open_socks (net s') = next_sock (net s) :: open_socks (net s)
      /\ next_sock (net s') = S (next_sock (net s))
      \/ r = Raise OSError
         /\ open_socks (net s') = open_socks (net s)
         /\ next_sock (net s') = next_sock (net s)).
Proof.
  unfold create_connection.
  destruct (conn_results (net s)) as [|[|] l]; intros [= <- <-]; cbn; auto 8.
Qed.

(** [_send]: the attributes and the sockets stay; the wire gains the
    number of the request, or the call raised. *)
Lemma _send_frame (rq : request) (s : state) (r : result str) (s' : state) :
  _send rq s = (r, s') ->
  self s' = self s
  /\ next_sock (net s') = next_sock (net s)
  /\ open_socks (net s') = open_socks (net s)
  /\ (wire_cseqs (net s') = wire_cseqs (net s) ++ [rq_cseq rq]
      \/ wire_cseqs (net s') = wire_cseqs (net s) /\ raised r = true).
Proof.
  intros H. destruct (_send_spec _ _ H) as [[Hself _ Hnext Hopen] Hw].
  repeat (split; [assumption|]).
  destruct Hw as [(k & _ & Hw)|[Hw Hr]].
  - left. exact (@wire_cseqs_app _ _ _ _ Hw).
  - right. unfold wire_cseqs. cbn in Hw. rewrite Hw. auto.
Qed.

Lemma _send_simple_frame (method uri : str) (cseq : Z) (session : option str)
      (roe : bool) (s : state) (r : result bool) (s' : state) :
  _send_simple method uri cseq session roe s = (r, s') ->
  self s' = self s
  /\ next_sock (net s') = next_sock (net s)
  /\ open_socks (net s') = open_socks (net s)
  /\ (wire_cseqs (net s') = wire_cseqs (net s) ++ [cseq]
      \/ wire_cseqs (net s') = wire_cseqs (net s) /\ raised r = true).
Proof.
  intros H. destruct (_send_simple_spec _ _ _ _ _ _ H)
    as [[Hself _ Hnext Hopen] Hw].
  repeat (split; [assumption|]).
  destruct Hw as [(rq & Hc & _ & (k & _ & Hw) & _)|[Hw Hr]].
  - left. rewrite (@wire_cseqs_app _ _ _ _ Hw), Hc. reflexivity.
  - right. unfold wire_cseqs. cbn in Hw. rewrite Hw. auto.
Qed.

Section HandshakePaths.

Variable isdecimal : N -> bool.
Variable py_int : str -> option Z.

Ltac frame E :=
  let Hself := fresh "Hself" in
  let Hnext := fresh "Hnext" in
  let Hopen := fresh "Hopen" in
  let Hw := fresh "Hw" in
  first [ apply _send_frame in E | apply _send_simple_frame in E ];
  destruct E as (Hself & Hnext & Hopen & Hw); cbn in Hself, Hnext, Hopen, Hw.

Ltac chain :=
  repeat match goal with
         | H : self _ = _ |- _ => rewrite H
         | H : next_sock _ = _ |- _ => rewrite H
         | H : open_socks _ = _ |- _ => rewrite H
         | H : wire_cseqs _ = _ |- _ => rewrite H
         end.

Ltac fin :=
  intros [= <- <-]; cbn; chain; cbn;
  split; [reflexivity|]; right;
  repeat (split; [reflexivity|]);
  first [ exists []; split; [rewrite app_nil_r; reflexivity|]
        | eexists; split; [rewrite <- ?app_assoc; reflexivity|] ];
  cbn; auto 8.

Lemma handshake_spec (s : state) (r : result unit) (s1 : state) :
  _do_rtsp_handshake isdecimal py_int s = (r, s1) ->
  PyStr.truthy_opt (_uri_base (self s1)) = true
  /\ (r = Raise OSError
      /\ self s1 = set_uri_base (_uri_base (self s1)) (self s)
      /\ open_socks (net s1) = open_socks (net s)
      /\ next_sock (net s1) = next_sock (net s)
      /\ wire (net s1) = wire (net s)
      \/ _sock (self s1) = Some (next_sock (net s))
         /\ open_socks (net s1) = next_sock (net s) :: open_socks (net s)
         /\ next_sock (net s1) = S (next_sock (net s))
         /\ exists cs,
             wire_cseqs (net s1) = wire_cseqs (net s) ++ cs
             /\ stage r cs (self s) (self s1)).
Proof.
  unfold _do_rtsp_handshake, bind, get_self, modify_self, lift, raise, ret.
  cbn beta iota.
  destruct (create_connection _) as [[k|e] sa] eqn:Ec;
    apply create_connection_spec in Ec;
    destruct Ec as (Hsa & Hwa & [(Hr & Hoa & Hna)|(Hr & Hoa & Hna)]);
    try discriminate; cbn in Hsa, Hwa, Hoa, Hna.
  2:{ intros [= <- <-]. rewrite Hsa, Hwa, Hoa, Hna. cbn.
      split; [reflexivity|]. left. injection Hr as ->. auto. }
  injection Hr as ->.
  assert (Hca : wire_cseqs (net sa) = wire_cseqs (net s))
    by (unfold wire_cseqs; rewrite Hwa; reflexivity).
  destruct (_send _ _) as [[resp1|e] sb] eqn:E1; frame E1.
  2:{ destruct Hw as [Hw|[Hw _]]; fin. }
  destruct Hw as [Hw|[_ Hr]]; [|discriminate Hr].
  destruct (Re.search Patterns.WWW_AUTHENTICATE resp1) as [m|]; [|fin].
  cbn beta iota.
  destruct (_build_authorization _ _ _) as [auth|e]; [|fin].
  destruct (_send _ _) as [[resp2|e] sc] eqn:E2; frame E2.
  2:{ destruct Hw0 as [Hw0|[Hw0 _]]; fin. }
  destruct Hw0 as [Hw0|[_ Hr]]; [|discriminate Hr].
  destruct (resolve_talk_url resp2) as [talk_url|e]; [|fin].
  destruct (_build_authorization _ _ _) as [auth3|e]; [|fin].
  destruct (_send _ _) as [[resp3|e] sd] eqn:E3; frame E3.
  2:{ destruct Hw1 as [Hw1|[Hw1 _]]; fin. }
  destruct Hw1 as [Hw1|[_ Hr]]; [|discriminate Hr].
  destruct (Re.search Patterns.SESSION resp3) as [sess|]; [|fin].
  destruct (Re.search (Patterns.SERVER_PORT isdecimal) resp3) as [sp|];
    [|fin].
  destruct (py_int (Re.group 1 sp)) as [server_port|]; [|fin].
  cbn beta iota.
  destruct (_send_simple _ _ _ _ _ _) as [[ok|e] se] eqn:E4; frame E4.
  2:{ destruct Hw2 as [Hw2|[Hw2 _]]; fin. }
  destruct Hw2 as [Hw2|[_ Hr]]; [|discriminate Hr].
  destruct ok; fin.
Qed.

End HandshakePaths.

(** ** What a match tells *)

Lemma match_here_lit (l : str) (p : Re.pattern) (s : str)
      (r : list str * str) :
  Re.match_here (Re.Lit l :: p) s = Some r ->
  exists s', Re.match_here p s' = Some r.
Proof.
  cbn [Re.match_here]. destruct (PyStr.startswith l s); [|discriminate].
  eauto.
Qed.

Lemma match_here_star (cls : N -> bool) (cap : bool) (p : Re.pattern)
      (s : str) :
  Re.match_here (Re.Star cls cap :: p) s
  = Re.greedy cls cap false (Re.match_here p) s [].
Proof. reflexivity. Qed.

Lemma match_here_plus (cls : N -> bool) (cap : bool) (p : Re.pattern)
      (s : str) :
  Re.match_here (Re.Plus cls cap :: p) s
  = Re.greedy cls cap true (Re.match_here p) s [].
Proof. reflexivity. Qed.

Lemma greedy_uncaptured (cls : N -> bool) (least_one : bool)
      (k : str -> option (list str * str)) (s taken : str)
      (r : list str * str) :
  Re.greedy cls false least_one k s taken = Some r ->
  exists s', k s' = Some r.
Proof.
  revert taken. induction s as [|c s IH]; intros taken; cbn [Re.greedy].
  - destruct least_one, taken; try discriminate;
      destruct (k []) as [[caps rest]|] eqn:Hk; cbn; try discriminate;
      intros [= <-]; eauto.
  - assert (Hstop :
              match least_one, taken with
              | true, [] => None
              | _, _ => Re.with_capture false taken (k (c :: s))
              end = Some r -> exists s', k s' = Some r).
    { destruct least_one, taken; try discriminate;
        destruct (k (c :: s)) as [[caps rest]|] eqn:Hk; cbn;
        try discriminate; intros [= <-]; eauto. }
    destruct (cls c); [|exact Hstop].
    destruct (Re.greedy cls false least_one k s (c :: taken)) eqn:Hg;
      [|exact Hstop].
    intros [= <-]. eauto.
Qed.

(** A captured [cls+] yields a group that is not empty. *)
Lemma greedy_captured (cls : N -> bool)
      (k : str -> option (list str * str)) (s taken : str)
      (caps : list str) (rest : str) :
  Re.greedy cls true true k s taken = Some (caps, rest) ->
  exists t caps' s',
    caps = t :: caps' /\ t <> [] /\ k s' = Some (caps', rest).
Proof.
  revert taken. induction s as [|c s IH]; intros taken; cbn [Re.greedy].
  - destruct taken as [|x taken]; [discriminate|].
    destruct (k []) as [[caps' rest']|] eqn:Hk; cbn; [|discriminate].
    intros [= <- <-]. exists (rev (x :: taken)), caps', [].
    repeat split; [|exact Hk].
    cbn. intros H. apply app_eq_nil in H as [_ H]. discriminate.
  - assert (Hstop :
              match taken with
              | [] => None
              | _ :: _ => Re.with_capture true taken (k (c :: s))
              end = Some (caps, rest) ->
              exists t caps' s',
                caps = t :: caps' /\ t <> [] /\ k s' = Some (caps', rest)).
    { destruct taken as [|x taken]; [discriminate|].
      destruct (k (c :: s)) as [[caps' rest']|] eqn:Hk; cbn; [|discriminate].
      intros [= <- <-]. exists (rev (x :: taken)), caps', (c :: s).
      repeat split; [|exact Hk].
      cbn. intros H. apply app_eq_nil in H as [_ H]. discriminate. }
    destruct (cls c); [|exact Hstop].
    destruct (Re.greedy cls true true k s (c :: taken)) as [r|] eqn:Hg;
      [|exact Hstop].
    intros [= ->]. eauto.
Qed.

Lemma search_unfold (p : Re.pattern) (s : str) :
  Re.search p s
  = match Re.match_here p s with
    | Some (caps, _) => Some caps
    | None => match s with [] => None | _ :: s' => Re.search p s' end
    end.
Proof. destruct s; reflexivity. Qed.

Lemma search_match (p : Re.pattern) (s : str) (caps : list str) :
  Re.search p s = Some caps ->
  exists s' rest, Re.match_here p s' = Some (caps, rest).
Proof.
  induction s as [|c s IH]; rewrite search_unfold.
  - destruct (Re.match_here p []) as [[caps' rest]|] eqn:Hm;
      [intros [= <-]; eauto | discriminate].
  - destruct (Re.match_here p (c :: s)) as [[caps' rest]|] eqn:Hm;
      [intros [= <-]; eauto | exact IH].
Qed.

(** The realm and the nonce of a challenge that was found have at least
    one character each. *)
Lemma challenge_groups_nonempty (resp : str) (m : list str) :
  Re.search Patterns.WWW_AUTHENTICATE resp = Some m ->
  Re.group 1 m <> [] /\ Re.group 2 m <> [].
Proof.
  intros H. apply search_match in H as (s & rest & H).
  unfold Patterns.WWW_AUTHENTICATE in H.
  apply match_here_lit in H as (s1 & H). rewrite match_here_star in H.
  apply greedy_uncaptured in H as (s2 & H).
  apply match_here_lit in H as (s3 & H). rewrite match_here_plus in H.
  apply greedy_captured in H as (t1 & caps1 & s4 & -> & Ht1 & H).
  apply match_here_lit in H as (s5 & H). rewrite match_here_star in H.
  apply greedy_uncaptured in H as (s6 & H).
  apply match_here_lit in H as (s7 & H). rewrite match_here_plus in H.
  apply greedy_captured in H as (t2 & caps2 & s8 & -> & Ht2 & H).
  split; assumption.
Qed.

Lemma encodable_DQ : Utf8.encodable DQ = true.
Proof. reflexivity. Qed.

Lemma encodable_CRLF : Utf8.encodable CRLF = true.
Proof. reflexivity. Qed.

#[local] Hint Rewrite encodable_DQ encodable_CRLF : enc.

Lemma digest_header_encodable (user realm nonce uri response : str) :
  Utf8.encodable user = true -> Utf8.encodable realm = true ->
  Utf8.encodable nonce = true -> Utf8.encodable uri = true ->
  Utf8.encodable response = true ->
  Utf8.encodable (digest_header user realm nonce uri response) = true.
Proof.
  intros Hu Hr Hn Huri Hresp. unfold digest_header.
  autorewrite with enc. rewrite Hu, Hr, Hn, Huri, Hresp. reflexivity.
Qed.

(** With credentials, a challenge and text that encodes, the header is
    built. *)
Lemma build_authorization_ok (o : TalkBackInitiator)
      (method uri user pass realm nonce : str) :
  username (_url o) = Some user -> password (_url o) = Some pass ->
  _realm o = Some realm -> realm <> [] ->
  _nonce o = Some nonce -> nonce <> [] ->
  Utf8.encodable user = true -> Utf8.encodable pass = true ->
  Utf8.encodable realm = true -> Utf8.encodable nonce = true ->
  Utf8.encodable method = true -> Utf8.encodable uri = true ->
  exists response,
    _build_authorization o method uri
    = Return (digest_header user realm nonce uri response)
    /\ Utf8.encodable response = true.
Proof.
  intros Hu Hp Hr Hr0 Hn Hn0 Eu Ep Er En Em Euri.
  unfold _build_authorization, digest_header.
  rewrite Hu, Hp, Hr, Hn. cbn [fmt]. unfold PyStr.truthy_opt.
  rewrite (truthy_nonempty Hr0), (truthy_nonempty Hn0). cbn [andb].
  rewrite !encode_encodable;
    [ eexists; split; [reflexivity | apply encodable_hexdigest] | | | ];
    autorewrite with enc; rewrite ?Eu, ?Ep, ?Er, ?En, ?Em, ?Euri; reflexivity.
Qed.

(** A description without a section marked [a=sendonly] gives no URL. *)
Lemma resolve_no_sendonly (resp2 : str) :
  Forall (fun x => PyStr.contains (py "a=sendonly") x = false)
         (PyStr.split (py "m=") (sdp_of resp2)) ->
  resolve_talk_url resp2 = Raise RTSPHandshakeError.
Proof.
  intros H. unfold resolve_talk_url, talk_url_of.
  destruct (Re.search Patterns.CONTENT_BASE resp2); [|reflexivity].
  rewrite (@find_talk_control_none _ H). reflexivity.
Qed.

Lemma incl_remove_cons (k : socket) (l : list socket) :
  incl (List.remove Nat.eq_dec k (k :: l)) l.
Proof.
  intros x Hx. apply in_remove in Hx as [Hx Hne].
  destruct Hx as [Hx|Hx]; [congruence | exact Hx].
Qed.

Lemma incl_remove (k : socket) (l : list socket) :
  incl (List.remove Nat.eq_dec k l) l.
Proof. intros x Hx. apply in_remove in Hx as [Hx _]. exact Hx. Qed.

Section StartFailure.

Variable isdecimal : N -> bool.
Variable py_int : str -> option Z.

(** Whenever [start] raises, the instance holds no socket and no
    connection made by the call is left open. *)
Lemma start_raises_closed (s : state) :
  raised (fst (start isdecimal py_int s)) = true ->
  _sock (self (snd (start isdecimal py_int s))) = None
  /\ incl (open_socks (net (snd (start isdecimal py_int s))))
          (open_socks (net s)).
Proof.
  unfold start.
  destruct (_do_rtsp_handshake isdecimal py_int s) as [[u|e] s1] eqn:Hh;
    [discriminate|].
  intros _. apply handshake_spec in Hh as [Huri Hh].
  destruct (_sock (self s1)) as [k|] eqn:Hk.
  - destruct (terminate_active s1 Hk Huri)
      as (s2 & -> & Hself & _ & _ & Hopen & _).
    cbn [fst snd]. rewrite Hself, Hopen. split; [reflexivity|].
    destruct Hh as [(_ & _ & -> & _)|(Hk' & -> & _)].
    + apply incl_remove.
    + injection Hk' as ->. apply incl_remove_cons.
  - rewrite terminate_idle by (unfold idle; rewrite Hk; reflexivity).
    cbn [fst snd]. split; [exact Hk|].
    destruct Hh as [(_ & _ & -> & _)|(Hk' & _)];
      [apply incl_refl | congruence].
Qed.

(** C5. The two challenges are answered and the description that comes
    back has no section marked [a=sendonly]: [start] raises
    [RTSPHandshakeError].  And whenever [start] raises, whatever the
    reason, the instance holds no socket any more and every connection
    open afterwards was open before the call. *)
Theorem start_failure_closes_channel :
  (forall (s : state) (user pass resp1 resp2 : str)
          (rest : list (option str)) (m : list str),
      hd true (conn_results (net s)) = true ->
      ~ In false (send_results (net s)) ->
      incoming (net s) = Some resp1 :: Some resp2 :: rest ->
      username (_url (self s)) = Some user ->
      password (_url (self s)) = Some pass ->
      Re.search Patterns.WWW_AUTHENTICATE resp1 = Some m ->
      forallb Utf8.encodable
              [host (_url (self s)); path (_url (self s)); user; pass;
               Re.group 1 m; Re.group 2 m] = true ->
      Forall (fun x => PyStr.contains (py "a=sendonly") x = false)
             (PyStr.split (py "m=") (sdp_of resp2)) ->
      fst (start isdecimal py_int s) = Raise RTSPHandshakeError
      /\ _sock (self (snd (start isdecimal py_int s))) = None
      /\ incl (open_socks (net (snd (start isdecimal py_int s))))
              (open_socks (net s)))
  /\ (forall s : state,
         raised (fst (start isdecimal py_int s)) = true ->
         _sock (self (snd (start isdecimal py_int s))) = None
         /\ incl (open_socks (net (snd (start isdecimal py_int s))))
                 (open_socks (net s))).
Proof.
  split; [|exact start_raises_closed].
  intros s user pass resp1 resp2 rest m Hconn Hsend Hin Hu Hp Hre Henc Hsdp.
  cbn [forallb] in Henc.
  repeat (apply andb_prop in Henc as [?Henc Henc]).
  destruct (challenge_groups_nonempty _ Hre) as [Hrealm Hnonce].
  assert (Hfail : exists s1, _do_rtsp_handshake isdecimal py_int s
                             = (Raise RTSPHandshakeError, s1)).
  { unfold _do_rtsp_handshake, bind, get_self, modify_self, lift.
    cbn beta iota.
    rewrite create_connection_ok by exact Hconn. cbn beta iota.
    set (uri := py "rtsp://" ++ _ ++ _ ++ _ ++ _ ++ _).
    assert (Huri : Utf8.encodable uri = true).
    { subst uri. autorewrite with enc. rewrite Henc0, Henc1. reflexivity. }
    erewrite _send_reads_once;
      [ | reflexivity | apply describe_1_encodable; exact Huri
        | cbn; apply no_failure_hd; exact Hsend | cbn; exact Hin ].
    cbn beta iota. rewrite Hre. cbn beta iota.
    edestruct (@build_authorization_ok) as (response & -> & Hresp);
      [ cbn; exact Hu | cbn; exact Hp | reflexivity | exact Hrealm
        | reflexivity | exact Hnonce | eassumption .. | ].
    cbn beta iota.
    erewrite _send_reads_once;
      [ | reflexivity | | cbn; apply no_failure_hd, no_failure_tl;
                          exact Hsend
        | cbn; rewrite Hin; reflexivity ].
    - rewrite (@resolve_no_sendonly _ Hsdp). eexists. reflexivity.
    - unfold render. cbn [rq_method rq_uri rq_cseq rq_headers].
      cbn [flat_map describe_headers app]. unfold render_header.
      cbn [fst snd]. autorewrite with enc.
      rewrite Huri, digest_header_encodable by assumption. reflexivity. }
  destruct Hfail as (s1 & Hfail).
  pose proof (start_reraises _ _ _ Hfail) as Hr.
  split; [exact Hr|]. apply start_raises_closed. rewrite Hr. reflexivity.
Qed.

End StartFailure.

Lemma start_failure_closes_channel_witness :
  fst (start Ascii10.isdecimal Ascii10.int
             (Scenario.facing
                [Some Scenario.resp_401;
                 Some (Scenario.resp_describe Scenario.sdp_no_sendonly)]))
  = Raise RTSPHandshakeError
  /\ _sock (self (snd (start Ascii10.isdecimal Ascii10.int
             (Scenario.facing
                [Some Scenario.resp_401;
                 Some (Scenario.resp_describe Scenario.sdp_no_sendonly)]))))
     = None
  /\ incl (open_socks (net (snd (start Ascii10.isdecimal Ascii10.int
             (Scenario.facing
                [Some Scenario.resp_401;
                 Some (Scenario.resp_describe Scenario.sdp_no_sendonly)])))))
          [].
Proof.
  refine (proj1 (start_failure_closes_channel
                   Ascii10.isdecimal Ascii10.int)
            (Scenario.facing
               [Some Scenario.resp_401;
                Some (Scenario.resp_describe Scenario.sdp_no_sendonly)])
            (py "admin") (py "1234") Scenario.resp_401
            (Scenario.resp_describe Scenario.sdp_no_sendonly) []
            [py "X"; py "Y"] _ _ _ _ _ _ _ _).
  - reflexivity.
  - intros H. exact H.
  - reflexivity.
  - reflexivity.
  - reflexivity.
  - vm_compute. reflexivity.
  - vm_compute. reflexivity.
  - vm_compute. repeat constructor.
Defined.

(** ** Sequence numbers *)

Lemma count_up_snoc (c : Z) (n : nat) :
  count_up c n ++ [(c + Z.of_nat n)%Z] = count_up c (S n).
Proof.
  revert c. induction n as [|n IH]; intros c.
  - cbn. rewrite Z.add_0_r. reflexivity.
  - change (c :: (count_up (c + 1) n ++ [(c + Z.of_nat (S n))%Z])
            = c :: count_up (c + 1) (S n)).
    rewrite <- IH. do 3 f_equal. lia.
Qed.

Lemma sorted_snoc (l : list Z) (x : Z) :
  StronglySorted Z.lt l -> Forall (fun c => (c < x)%Z) l ->
  StronglySorted Z.lt (l ++ [x]).
Proof.
  induction 1 as [|a l Hl IH Ha]; intros Hx; cbn.
  - repeat constructor.
  - inversion Hx as [|? ? Hax Hlx]; subst. constructor; [auto|].
    apply Forall_app. split; [exact Ha|].
    constructor; [exact Hax | constructor].
Qed.

Lemma sorted_NoDup (l : list Z) : StronglySorted Z.lt l -> NoDup l.
Proof.
  induction 1 as [|a l Hl IH Ha]; constructor; [|exact IH].
  intros Hin. rewrite Forall_forall in Ha. specialize (Ha a Hin). lia.
Qed.

Lemma hd_app_nonempty (d : Z) (l t : list Z) :
  l <> [] -> hd d (l ++ t) = hd d l.
Proof. destruct l; [congruence | reflexivity]. Qed.

Lemma numbered_append (s s' : state) (c : Z) :
  numbered s -> idle (self s) = false ->
  wire_cseqs (net s') = wire_cseqs (net s) ++ [c] ->
  (_cseq (self s) < c)%Z ->
  StronglySorted Z.lt (wire_cseqs (net s'))
  /\ hd 1%Z (wire_cseqs (net s')) = 1%Z
  /\ wire_cseqs (net s') <> []
  /\ Forall (fun x => (x <= c)%Z) (wire_cseqs (net s')).
Proof.
  intros (Hs & Hhd & [Hidle|[Hne Hle]]) Hact Hw Hc; [congruence|].
  rewrite Hw. split; [|split; [|split]].
  - apply sorted_snoc; [exact Hs|].
    eapply Forall_impl; [|exact Hle]. cbn. intros. lia.
  - rewrite hd_app_nonempty by exact Hne. exact Hhd.
  - intros H. apply app_eq_nil in H as [_ H]. discriminate.
  - apply Forall_app. split.
    + eapply Forall_impl; [|exact Hle]. cbn. intros. lia.
    + repeat constructor. lia.
Qed.

Lemma idle_false (o : TalkBackInitiator) :
  idle o = false ->
  exists k, _sock o = Some k /\ PyStr.truthy_opt (_uri_base o) = true.
Proof.
  unfold idle. destruct (_sock o) as [k|]; [|discriminate].
  destruct (PyStr.truthy_opt (_uri_base o)); [eauto | discriminate].
Qed.

Lemma call_numbered (s : state) (o : op) :
  numbered s ->
  numbered (call s o) /\ next_sock (net (call s o)) = next_sock (net s)
  /\ exists tail, wire_cseqs (net (call s o)) = wire_cseqs (net s) ++ tail.
Proof.
  intros Hn. destruct (idle (self s)) eqn:Hidle.
  { destruct o; cbn [call];
      rewrite ?keep_alive_idle, ?terminate_idle by exact Hidle; cbn [snd];
      (split; [exact Hn | split; [reflexivity|]]);
      exists []; rewrite app_nil_r; reflexivity. }
  destruct (idle_false _ Hidle) as (k & Hk & Hu).
  destruct o; cbn [call].
  - destruct (keep_alive s) as [r s'] eqn:Hka. cbn [snd].
    destruct (keep_alive_active s Hk Hu Hka)
      as (Hself & _ & Hnext & _ & Hw).
    split; [|split; [exact Hnext|]].
    + destruct Hw as [(rq & Hc & Hw)|[Hw _]].
      * apply wire_cseqs_app in Hw. rewrite Hc in Hw.
        destruct (@numbered_append s s' _ Hn Hidle Hw)
          as (? & ? & ? & ?); [lia|].
        unfold numbered. rewrite Hself. cbn [_cseq set_cseq]. auto.
      * assert (Hw' : wire_cseqs (net s') = wire_cseqs (net s))
          by (unfold wire_cseqs; rewrite Hw; reflexivity).
        destruct Hn as (Hs & Hhd & [Hi|[Hne Hle]]); [congruence|].
        unfold numbered. rewrite Hw', Hself. cbn [_cseq set_cseq].
        repeat split; auto. right. split; [exact Hne|].
        eapply Forall_impl; [|exact Hle]. cbn. intros. lia.
    + destruct Hw as [(rq & Hc & Hw)|[Hw _]].
      * apply wire_cseqs_app in Hw. eauto.
      * exists []. unfold wire_cseqs. rewrite Hw, app_nil_r. reflexivity.
  - destruct (terminate_active s Hk Hu)
      as (s' & -> & Hself & _ & Hnext & _ & Hw).
    cbn [snd]. split; [|split; [exact Hnext|]].
    + destruct Hw as [(rq & Hc & _ & Hw & _)|Hw].
      * apply wire_cseqs_app in Hw. rewrite Hc in Hw.
        destruct (@numbered_append s s' _ Hn Hidle Hw)
          as (? & ? & ? & ?); [lia|].
        unfold numbered. rewrite Hself. auto.
      * assert (Hw' : wire_cseqs (net s') = wire_cseqs (net s))
          by (unfold wire_cseqs; rewrite Hw; reflexivity).
        destruct Hn as (Hs & Hhd & _).
        unfold numbered. rewrite Hw', Hself. auto.
    + destruct Hw as [(rq & Hc & _ & Hw & _)|Hw].
      * apply wire_cseqs_app in Hw. eauto.
      * exists []. unfold wire_cseqs. rewrite Hw, app_nil_r. reflexivity.
Qed.

Lemma calls_numbered (ops : list op) (s : state) :
  numbered s ->
  numbered (fold_left call ops s)
  /\ next_sock (net (fold_left call ops s)) = next_sock (net s)
  /\ exists tail,
      wire_cseqs (net (fold_left call ops s)) = wire_cseqs (net s) ++ tail.
Proof.
  revert s. induction ops as [|o ops IH]; intros s Hn; cbn [fold_left].
  - split; [exact Hn | split; [reflexivity|]].
    exists []. rewrite app_nil_r. reflexivity.
  - destruct (call_numbered o Hn) as (Hn1 & Hnext1 & t1 & Hw1).
    destruct (IH _ Hn1) as (Hn2 & Hnext2 & t2 & Hw2).
    split; [exact Hn2 | split; [congruence|]].
    exists (t1 ++ t2). rewrite Hw2, Hw1, app_assoc. reflexivity.
Qed.

Lemma failed_wires_numbered (l : list Z) :
  In l failed_wires -> StronglySorted Z.lt l /\ hd 1%Z l = 1%Z.
Proof.
  unfold failed_wires. cbn [In].
  intros H; repeat (destruct H as [<-|H]); try contradiction;
    (split; [repeat constructor; lia | reflexivity]).
Qed.

(** Once nothing more can be sent, no call changes anything. *)
Lemma calls_idle (ops : list op) (s : state) :
  idle (self s) = true -> fold_left call ops s = s.
Proof.
  intros Hidle. induction ops as [|o ops IH]; cbn [fold_left];
    [reflexivity|].
  assert (Hs : call s o = s)
    by (destruct o; cbn [call];
        rewrite ?keep_alive_idle, ?terminate_idle by exact Hidle;
        reflexivity).
  rewrite Hs. exact IH.
Qed.

Section SessionNumbers.

Variable isdecimal : N -> bool.
Variable py_int : str -> option Z.

(** [start] on a new instance over a fresh network. *)
Lemma start_fresh_numbered (url : RTSPUrlParts) (client_port : option Z)
      (conns sends : list bool) (recvs : list (option str)) :
  let s0 := {| self := __init__ url client_port;
               net := fresh_network conns sends recvs |} in
  let out := start isdecimal py_int s0 in
  numbered (snd out)
  /\ (next_sock (net (snd out)) <= 1)%nat
  /\ match fst out with
     | Return _ =>
         wire_cseqs (net (snd out)) = [1; 2; 3; 4]%Z
         /\ idle (self (snd out)) = false
         /\ _cseq (self (snd out)) = 4%Z
     | Raise _ =>
         idle (self (snd out)) = true
         /\ In (wire_cseqs (net (snd out))) failed_wires
     end.
Proof.
  intros s0 out. subst out. unfold start.
  destruct (_do_rtsp_handshake isdecimal py_int s0) as [[u|e] s1] eqn:Hh;
    apply handshake_spec in Hh as [Huri Hh]; cbn [fst snd raised].
  - (* the handshake went through *)
    destruct Hh as [(Hr & _)|(Hk & _ & Hnext & cs & Hw & Hstage)];
      [discriminate|].
    cbn in Hw, Hnext. cbn [stage] in Hstage. destruct Hstage as [-> Hc].
    assert (Hact : idle (self s1) = false)
      by (unfold idle; rewrite Hk, Huri; reflexivity).
    unfold numbered. rewrite Hw, Hc, Hnext.
    repeat split; auto; try lia.
    + repeat constructor; lia.
    + right. split; [discriminate | repeat constructor; lia].
  - (* it raised, and [terminate] ran *)
    assert (Hend :
              forall s2, idle (self s2) = true ->
                         In (wire_cseqs (net s2)) failed_wires ->
                         numbered s2
                         /\ idle (self s2) = true
                            /\ In (wire_cseqs (net s2)) failed_wires).
    { intros s2 Hidle Hin. split; [|auto].
      destruct (@failed_wires_numbered _ Hin) as [Hs Hhd].
      unfold numbered. auto. }
    destruct Hh as
        [(_ & Hself & _ & Hnext & Hw)
        |(Hk & _ & Hnext & cs & Hw & Hstage)].
    + rewrite terminate_idle by (unfold idle; rewrite Hself; reflexivity).
      cbn [fst snd]. rewrite Hnext.
      cut (numbered s1
           /\ idle (self s1) = true
              /\ In (wire_cseqs (net s1)) failed_wires);
        [cbn; intuition lia|].
      apply Hend; [unfold idle; rewrite Hself; reflexivity|].
      unfold wire_cseqs. rewrite Hw. cbn. auto.
    + cbn in Hw, Hnext.
      destruct (terminate_active s1 Hk Huri)
        as (s2 & -> & Hself2 & _ & Hnext2 & _ & Hw2).
      cbn [fst snd]. rewrite Hnext2, Hnext.
      cut (numbered s2
           /\ idle (self s2) = true
              /\ In (wire_cseqs (net s2)) failed_wires);
        [intuition lia|].
      apply Hend; [rewrite Hself2; reflexivity|].
      destruct Hw2 as [(rq & Hc & _ & Hw2 & Hb)|Hw2].
      * apply wire_cseqs_app in Hw2.
        change (map (fun e => rq_cseq (snd e)) (wire (net s1)))
          with (wire_cseqs (net s1)) in Hw2.
        apply build_authorization_needs_challenge in Hb as [Hb _].
        rewrite Hw2, Hw, Hc.
        cbn [stage] in Hstage.
        destruct Hstage
          as [(-> & _ & Hrealm & _)
             |[([-> | [-> | ->]] & ->)|([-> | ->] & ->)]];
          try (rewrite Hrealm in Hb; discriminate Hb);
          cbn; auto 12.
      * assert (Hw' : wire_cseqs (net s2) = wire_cseqs (net s1))
          by (unfold wire_cseqs; rewrite Hw2; reflexivity).
        rewrite Hw', Hw. cbn [stage] in Hstage.
        destruct Hstage
          as [(-> & _)|[([-> | [-> | ->]] & _)|([-> | ->] & _)]];
          cbn; auto 12.
Qed.

(** After a [start] that returned, [k] calls of [keep_alive] that all
    return leave exactly 1, 2, ..., 4 + k on the wire. *)
Lemma keep_alives_count_up (k n : nat) (s : state) :
  idle (self s) = false ->
  _cseq (self s) = Z.of_nat n ->
  wire_cseqs (net s) = count_up 1 n ->
  all_alive k s = true ->
  wire_cseqs (net (fold_left call (repeat KeepAlive k) s))
  = count_up 1 (n + k).
Proof.
  revert n s. induction k as [|k IH]; intros n s Hact Hc Hw Hall.
  - cbn. rewrite Nat.add_0_r. exact Hw.
  - cbn [repeat fold_left call]. cbn [all_alive] in Hall.
    apply andb_prop in Hall as [Hret Hall].
    destruct (idle_false _ Hact) as (sock & Hk & Hu).
    destruct (keep_alive s) as [r s'] eqn:Hka. cbn [fst snd] in *.
    destruct (keep_alive_active s Hk Hu Hka) as (Hself & _ & _ & _ & Hsent).
    destruct Hsent as [(rq & Hrq & Hwire)|[_ Hr]];
      [|rewrite Hr in Hret; discriminate].
    apply wire_cseqs_app in Hwire.
    change (map (fun e => rq_cseq (snd e)) (wire (net s)))
      with (wire_cseqs (net s)) in Hwire.
    rewrite <- Nat.add_succ_comm. apply IH.
    + rewrite Hself. exact Hact.
    + rewrite Hself. cbn [_cseq set_cseq]. lia.
    + rewrite Hwire, Hw, Hrq, Hc, <- count_up_snoc.
      do 2 f_equal. lia.
    + exact Hall.
Qed.

(** C3, as the code has it. On a new instance, [start] and then any
    calls of [keep_alive] and [terminate]: one connection at most is
    made; the CSeq values on the wire begin with 1, go strictly up and
    never repeat, a teardown after a failed handshake included.  When
    [start] returns the first four are 1, 2, 3, 4, and [k] keep-alives
    that all return leave exactly 1, ..., 4 + k.  When [start] raises
    the wire reads one of [failed_wires]: the handshake's requests so
    far and at most a teardown, numbered 6 before PLAY and 5 after. *)
Theorem wire_cseqs_increase :
  forall (url : RTSPUrlParts) (client_port : option Z)
         (conns sends : list bool) (recvs : list (option str))
         (ops : list op),
    let s0 := {| self := __init__ url client_port;
                 net := fresh_network conns sends recvs |} in
    let final := session isdecimal py_int ops s0 in
    StronglySorted Z.lt (wire_cseqs (net final))
    /\ NoDup (wire_cseqs (net final))
    /\ hd 1%Z (wire_cseqs (net final)) = 1%Z
    /\ (next_sock (net final) <= 1)%nat
    /\ (raised (fst (start isdecimal py_int s0)) = false ->
        firstn 4 (wire_cseqs (net final)) = [1; 2; 3; 4]%Z
        /\ forall k,
            all_alive k (snd (start isdecimal py_int s0)) = true ->
            wire_cseqs
              (net (session isdecimal py_int (repeat KeepAlive k) s0))
            = count_up 1 (4 + k))
    /\ (raised (fst (start isdecimal py_int s0)) = true ->
        In (wire_cseqs (net final)) failed_wires).
Proof.
  intros url client_port conns sends recvs ops s0 final.
  destruct (start_fresh_numbered url client_port conns sends recvs)
    as (Hn & Hnext & Hout).
  fold s0 in Hn, Hnext, Hout. cbn zeta in Hn, Hnext, Hout.
  destruct (calls_numbered ops Hn) as ((Hs & Hhd & _) & Hnext' & tail & Hw).
  fold (session isdecimal py_int ops s0) in Hs, Hhd, Hnext', Hw.
  fold final in Hs, Hhd, Hnext', Hw.
  split; [exact Hs|]. split; [apply sorted_NoDup; exact Hs|].
  split; [exact Hhd|]. split; [lia|].
  destruct (fst (start isdecimal py_int s0)) as [u|e]; cbn [raised].
  - destruct Hout as (Hw4 & Hact & Hc).
    split; [|discriminate]. intros _.
    split; [rewrite Hw, Hw4; reflexivity|].
    intros k Hall. unfold session.
    apply (@keep_alives_count_up k 4 _ Hact Hc Hw4 Hall).
  - destruct Hout as (Hidle & Hin).
    split; [discriminate|]. intros _.
    subst final. unfold session. rewrite (@calls_idle ops _ Hidle).
    exact Hin.
Qed.

End SessionNumbers.

Lemma wire_cseqs_increase_witness :
  wire_cseqs
    (net (session Ascii10.isdecimal Ascii10.int (repeat KeepAlive 2)
                  (Scenario.facing
                     (Scenario.handshake_answers
                        ++ [Some Scenario.resp_ok; Some Scenario.resp_ok]))))
  = count_up 1 (4 + 2)
  /\ In (wire_cseqs
           (net (session Ascii10.isdecimal Ascii10.int [KeepAlive; Terminate]
                         (Scenario.facing
                            [Some Scenario.resp_401;
                             Some Scenario.resp_no_content_base]))))
        failed_wires.
Proof.
  split.
  - refine (proj2 (proj1 (proj2 (proj2 (proj2 (proj2
              (@wire_cseqs_increase Ascii10.isdecimal Ascii10.int
                 Scenario.url None [] []
                 (Scenario.handshake_answers
                    ++ [Some Scenario.resp_ok; Some Scenario.resp_ok])
                 [])))))
              _) 2%nat _);
      vm_compute; reflexivity.
  - refine (proj2 (proj2 (proj2 (proj2 (proj2
              (@wire_cseqs_increase Ascii10.isdecimal Ascii10.int
                 Scenario.url None [] []
                 [Some Scenario.resp_401; Some Scenario.resp_no_content_base]
                 [KeepAlive; Terminate])))))
              _).
    vm_compute. reflexivity.
Defined.

(** C3 as stated fails. The description comes back without
    [Content-Base]; [start] gives up after two requests and the teardown
    that [terminate] sends carries 6: the wire reads 1, 2, 6. *)
Lemma teardown_after_failed_handshake_skips :
  fst (start Ascii10.isdecimal Ascii10.int
             (Scenario.facing [Some Scenario.resp_401;
                               Some Scenario.resp_no_content_base]))
  = Raise RTSPHandshakeError
  /\ wire_cseqs
       (net (session Ascii10.isdecimal Ascii10.int []
                     (Scenario.facing [Some Scenario.resp_401;
                                       Some Scenario.resp_no_content_base])))
     = [1; 2; 6]%Z
  /\ ~ exists n, [1; 2; 6]%Z = count_up 1 n.
Proof.
  split; [vm_compute; reflexivity|]. split; [vm_compute; reflexivity|].
  intros [[|[|[|[|n]]]] H]; discriminate H.
Qed.

(** * Further properties *)

(** ** Every call, case by case *)

Lemma _send_raises (rq : request) (s : state) (e : exn) (s' : state) :
  _send rq s = (Raise e, s') ->
  In e [RTSPHandshakeError; UnicodeEncodeError; OSError].
Proof.
  unfold _send, bind, get_self, raise, ret, sendall, recv. cbn beta iota.
  destruct (_sock (self s)); [|intros [= <- _]; cbn; auto].
  destruct (Utf8.encode (render rq)); [|intros [= <- _]; cbn; auto].
  destruct (send_results (net s)) as [|[|] sends]; cbn;
    try (intros [= <- _]; cbn; auto);
    destruct (incoming (net s)) as [|[data|] recvs]; cbn;
    intros [= <- _]; cbn; auto.
Qed.

(** The assertion of [_build_authorization] fails only when the realm or
    the nonce is missing. *)
Lemma build_authorization_raises (o : TalkBackInitiator) (method uri : str)
      (e : exn) :
  _build_authorization o method uri = Raise e ->
  e = RTSPAuthError
  \/ e = UnicodeEncodeError
  \/ e = AssertionError
     /\ PyStr.truthy_opt (_realm o) && PyStr.truthy_opt (_nonce o) = false.
Proof.
  unfold _build_authorization.
  destruct (username (_url o)), (password (_url o));
    try (intros [= <-]; auto).
  destruct (PyStr.truthy_opt (_realm o) && PyStr.truthy_opt (_nonce o));
    [|intros [= <-]; auto].
  repeat (destruct (Utf8.encode _); [|intros [= <-]; auto]).
  discriminate.
Qed.

(** [_send_simple], written out. *)
Lemma _send_simple_unfold (method uri : str) (cseq : Z)
      (session : option str) (roe : bool) (s : state) :
  _send_simple method uri cseq session roe s
  = match _build_authorization (self s) method uri with
    | Raise e => (Raise e, s)
    | Return auth =>
        match _send (simple_request method uri cseq session auth) s with
        | (Return resp, s') =>
            if negb (PyStr.startswith (py "RTSP/1.0 200") resp) && roe
            then (match resp with
                  | [] => Raise IndexError
                  | _ :: _ => Raise RTSPHandshakeError
                  end, s')
            else (Return (PyStr.startswith (py "RTSP/1.0 200") resp), s')
        | (Raise e, s') => (Raise e, s')
        end
    end.
Proof.
  unfold _send_simple, bind, get_self, lift, simple_request.
  cbn beta iota.
  destruct (_build_authorization (self s) method uri); [|reflexivity].
  destruct (_send _ s) as [[resp|e] s']; [|reflexivity].
  destruct (negb (PyStr.startswith (py "RTSP/1.0 200") resp) && roe);
    [destruct resp|]; reflexivity.
Qed.

(** What [_send_simple] puts on the wire is the request of
    [simple_request], with the header built for its own method and URI. *)
Lemma _send_simple_sends (method uri : str) (cseq : Z) (session : option str)
      (roe : bool) (s : state) (r : result bool) (s' : state) :
  _send_simple method uri cseq session roe s = (r, s') ->
  io_frame s s'
  /\ (wire (net s') = wire (net s) /\ raised r = true
      \/ exists k auth,
          _sock (self s) = Some k
          /\ _build_authorization (self s) method uri = Return auth
          /\ wire (net s')
             = wire (net s)
                 ++ [(k, simple_request method uri cseq session auth)]).
Proof.
  rewrite _send_simple_unfold.
  destruct (_build_authorization (self s) method uri) as [auth|e].
  2:{ intros [= <- <-]. split; [constructor; reflexivity | auto]. }
  destruct (_send _ s) as [[resp|e] s1] eqn:Hs;
    destruct (_send_spec _ _ Hs) as [Hf Hw].
  - apply _send_returns in Hs as (k & Hk & Hwire).
    destruct (negb _ && roe); intros [= <- <-];
      (split; [exact Hf | right; exists k, auth; auto]).
  - intros [= <- <-]. split; [exact Hf|].
    destruct Hw as [(k & Hk & Hwire)|[Hwire _]].
    + right. exists k, auth. auto.
    + left. auto.
Qed.

Lemma _send_simple_raises (method uri : str) (cseq : Z)
      (session : option str) (roe : bool) (s : state) (e : exn)
      (s' : state) :
  _send_simple method uri cseq session roe s = (Raise e, s') ->
  PyStr.truthy_opt (_realm (self s)) && PyStr.truthy_opt (_nonce (self s))
  = true ->
  In e start_errors.
Proof.
  rewrite _send_simple_unfold. intros H Hch.
  destruct (_build_authorization (self s) method uri) as [auth|e0] eqn:Hb.
  - destruct (_send _ s) as [[resp|e1] s1] eqn:Hs.
    + destruct (negb _ && roe); [|discriminate].
      destruct resp; injection H as <- _; cbn; auto 8.
    + injection H as <- _. apply _send_raises in Hs.
      cbn in Hs |- *. intuition auto.
  - injection H as <- _.
    apply build_authorization_raises in Hb as [->|[->|[_ Hb]]];
      [cbn; auto | cbn; auto | congruence].
Qed.

(** A captured [cls+] holds code points of [cls] only, and at least
    one. *)
Lemma greedy_captured_class (cls : N -> bool)
      (k : str -> option (list str * str)) (s taken : str)
      (caps : list str) (rest : str) :
  Forall (fun c => cls c = true) taken ->
  Re.greedy cls true true k s taken = Some (caps, rest) ->
  exists t caps' s',
    caps = t :: caps' /\ t <> [] /\ Forall (fun c => cls c = true) t
    /\ k s' = Some (caps', rest).
Proof.
  revert taken. induction s as [|c s IH]; intros taken Htaken;
    cbn [Re.greedy].
  - destruct taken as [|x taken]; [discriminate|].
    destruct (k []) as [[caps' rest']|] eqn:Hk; cbn; [|discriminate].
    intros [= <- <-]. exists (rev (x :: taken)), caps', [].
    repeat split; [| |exact Hk].
    + cbn. intros H. apply app_eq_nil in H as [_ H]. discriminate.
    + apply Forall_rev. exact Htaken.
  - assert (Hstop :
              match taken with
              | [] => None
              | _ :: _ => Re.with_capture true taken (k (c :: s))
              end = Some (caps, rest) ->
              exists t caps' s',
                caps = t :: caps' /\ t <> []
                /\ Forall (fun c => cls c = true) t
                /\ k s' = Some (caps', rest)).
    { destruct taken as [|x taken]; [discriminate|].
      destruct (k (c :: s)) as [[caps' rest']|] eqn:Hk; cbn; [|discriminate].
      intros [= <- <-]. exists (rev (x :: taken)), caps', (c :: s).
      repeat split; [| |exact Hk].
      - cbn. intros H. apply app_eq_nil in H as [_ H]. discriminate.
      - apply Forall_rev. exact Htaken. }
    destruct (cls c) eqn:Hc; [|exact Hstop].
    destruct (Re.greedy cls true true k s (c :: taken)) as [r|] eqn:Hg;
      [|exact Hstop].
    intros [= ->]. apply (IH (c :: taken)); [|exact Hg].
    constructor; assumption.
Qed.

(** The session id of a SETUP answer that has one: not empty, and free of
    [;] and white space. *)
Lemma session_group (resp : str) (m : list str) :
  Re.search Patterns.SESSION resp = Some m ->
  Re.group 1 m <> []
  /\ Forall (fun c => Re.session_char c = true) (Re.group 1 m).
Proof.
  intros H. apply search_match in H as (s & rest & H).
  unfold Patterns.SESSION in H.
  apply match_here_lit in H as (s1 & H). rewrite match_here_star in H.
  apply greedy_uncaptured in H as (s2 & H). rewrite match_here_plus in H.
  apply greedy_captured_class in H as (t & caps & s3 & -> & Ht & Hcls & _);
    [|constructor].
  split; assumption.
Qed.

Lemma resolve_talk_url_raises (resp2 : str) (e : exn) :
  resolve_talk_url resp2 = Raise e -> e = RTSPHandshakeError.
Proof.
  unfold resolve_talk_url, talk_url_of.
  destruct (Re.search Patterns.CONTENT_BASE resp2); [|congruence].
  destruct (find_talk_control _) as [c|]; [|congruence].
  destruct (PyStr.truthy c); congruence.
Qed.

Lemma send_errors_start_errors (e : exn) :
  In e [RTSPHandshakeError; UnicodeEncodeError; OSError] ->
  In e start_errors.
Proof. cbn. intuition auto. Qed.

Lemma truthy_groups (a b : str) :
  a <> [] -> b <> [] ->
  PyStr.truthy_opt (Some a) && PyStr.truthy_opt (Some b) = true.
Proof.
  intros Ha Hb. unfold PyStr.truthy_opt.
  rewrite (truthy_nonempty Ha), (truthy_nonempty Hb). reflexivity.
Qed.

Lemma _send_full (rq : request) (s : state) (r : result str) (s' : state) :
  _send rq s = (r, s') ->
  io_frame s s'
  /\ (wire_step s s' (Some rq) \/ wire_step s s' None /\ raised r = true)
  /\ match r with
     | Raise e => In e start_errors
     | Return _ => True
     end.
Proof.
  intros H. destruct (_send_spec _ _ H) as [Hf Hw].
  split; [exact Hf|]. split; [exact Hw|].
  destruct r as [resp|e]; [exact I|].
  apply _send_raises, send_errors_start_errors in H. exact H.
Qed.

Section Traces.

Variable isdecimal : N -> bool.
Variable py_int : str -> option Z.

(** Without a connection the handshake stops at once. *)
Lemma handshake_no_connection (s : state) :
  hd true (conn_results (net s)) = false ->
  _do_rtsp_handshake isdecimal py_int s
  = (Raise OSError,
     connect_failed
       (with_self (set_uri_base (Some (uri_base_of (_url (self s))))) s)).
Proof.
  intros H.
  unfold _do_rtsp_handshake, bind, get_self, modify_self, create_connection.
  cbn beta iota. cbn [net with_self].
  destruct (conn_results (net s)) as [|[|] l] eqn:Hc; try discriminate.
  unfold connect_failed, with_net, with_self. cbn. rewrite Hc. reflexivity.
Qed.

Ltac sent E :=
  let Hw := fresh "Hw" in
  let Hself := fresh "Hself" in
  let Hnext := fresh "Hnext" in
  let Hopen := fresh "Hopen" in
  apply _send_full in E;
  destruct E as ([Hself _ Hnext Hopen] & Hw & E);
  cbn in Hself, Hnext, Hopen, Hw.

Ltac chain :=
  repeat match goal with
         | H : self _ = _ |- _ => rewrite H
         | H : next_sock _ = _ |- _ => rewrite H
         | H : open_socks _ = _ |- _ => rewrite H
         | H : wire _ = _ |- _ => rewrite H
         end.

Ltac shapes :=
  first [ exists 0%nat; reflexivity | exists 1%nat; reflexivity
        | exists 2%nat; reflexivity | exists 3%nat; reflexivity
        | exists 4%nat; reflexivity ].

(** The common part of every outcome: the instance and the sockets. *)
Ltac settle :=
  intros [= <- <-]; cbn; chain; cbn;
  repeat (split; [reflexivity|]);
  first [ exists []; split; [rewrite app_nil_r; reflexivity|]
        | eexists; split; [rewrite <- ?app_assoc; reflexivity|] ];
  split; [repeat constructor|]; split; [shapes|].

Lemma handshake_trace (s : state) (r : result unit) (s1 : state) :
  hd true (conn_results (net s)) = true ->
  _do_rtsp_handshake isdecimal py_int s = (r, s1) ->
  _sock (self s1) = Some (next_sock (net s))
  /\ open_socks (net s1) = next_sock (net s) :: open_socks (net s)
  /\ next_sock (net s1) = S (next_sock (net s))
  /\ _url (self s1) = _url (self s)
  /\ _uri_base (self s1) = Some (uri_base_of (_url (self s)))
  /\ exists sent,
      wire (net s1) = wire (net s) ++ sent
      /\ Forall (fun e => fst e = next_sock (net s)) sent
      /\ (exists j,
             map (fun e => shape (snd e)) sent = firstn j handshake_shapes)
      /\ match r with
         | Return _ =>
             map (fun e => shape (snd e)) sent = handshake_shapes
             /\ _cseq (self s1) = 4%Z
             /\ PyStr.truthy_opt (_realm (self s1))
                && PyStr.truthy_opt (_nonce (self s1)) = true
             /\ exists sid,
                 _session_id (self s1) = Some sid
                 /\ sid <> []
                 /\ Forall (fun c => Re.session_char c = true) sid
         | Raise e => In e start_errors
         end.
Proof.
  intros Hconn.
  unfold _do_rtsp_handshake, bind, get_self, modify_self, lift, raise, ret.
  cbn beta iota. rewrite create_connection_ok by exact Hconn.
  cbn beta iota. fold (uri_base_of (_url (self s))).
  destruct (_send _ _) as [[resp1|e] sb] eqn:E1; sent E1.
  2:{ destruct Hw as [(k & Hk & Hw)|[Hw _]]; [injection Hk as <-|];
        settle; exact E1. }
  destruct Hw as [(k & Hk & Hw)|[_ Hr]]; [|discriminate Hr].
  injection Hk as <-.
  destruct (Re.search Patterns.WWW_AUTHENTICATE resp1) as [m|] eqn:Hre;
    [|settle; cbn; auto].
  destruct (challenge_groups_nonempty _ Hre) as [Hg1 Hg2].
  pose proof (truthy_groups Hg1 Hg2) as Hch.
  cbn beta iota.
  destruct (_build_authorization _ _ _) as [auth|e] eqn:Hb.
  2:{ apply build_authorization_raises in Hb as [->|[->|[_ Hb]]];
        [settle; cbn; auto | settle; cbn; auto |].
      cbn in Hb. congruence. }
  clear Hb.
  destruct (_send _ _) as [[resp2|e] sc] eqn:E2; sent E2.
  2:{ destruct Hw0 as [(k & Hk & Hw0)|[Hw0 _]];
        [rewrite Hself in Hk; injection Hk as <-|]; settle; exact E2. }
  destruct Hw0 as [(k & Hk & Hw0)|[_ Hr]]; [|discriminate Hr].
  rewrite Hself in Hk. injection Hk as <-.
  destruct (resolve_talk_url resp2) as [talk_url|e] eqn:Hres.
  2:{ apply resolve_talk_url_raises in Hres as ->. settle. cbn. auto. }
  destruct (_build_authorization _ _ _) as [auth3|e] eqn:Hb3.
  2:{ apply build_authorization_raises in Hb3 as [->|[->|[_ Hb3]]];
        [settle; cbn; auto | settle; cbn; auto |].
      rewrite Hself0 in Hb3. cbn in Hb3. congruence. }
  clear Hb3.
  destruct (_send _ _) as [[resp3|e] sd] eqn:E3; sent E3.
  2:{ destruct Hw1 as [(k & Hk & Hw1)|[Hw1 _]];
        [rewrite Hself0 in Hk; cbn in Hk; rewrite Hself in Hk;
         injection Hk as <-|]; settle; exact E3. }
  destruct Hw1 as [(k & Hk & Hw1)|[_ Hr]]; [|discriminate Hr].
  rewrite Hself0 in Hk. cbn in Hk. rewrite Hself in Hk. injection Hk as <-.
  destruct (Re.search Patterns.SESSION resp3) as [sess|] eqn:Hsess;
    [|settle; cbn; auto].
  destruct (session_group _ Hsess) as [Hsid Hsidc].
  destruct (Re.search (Patterns.SERVER_PORT isdecimal) resp3) as [sp|];
    [|settle; cbn; auto].
  destruct (py_int (Re.group 1 sp)) as [server_port|];
    [|settle; cbn; auto 8].
  cbn beta iota.
  destruct (_send_simple _ _ _ _ _ _) as [[ok|e] se] eqn:E4.
  2:{ pose proof (_send_simple_sends _ _ _ _ _ _ E4)
        as [[Hself2 _ Hnext2 Hopen2] Hw2].
      cbn in Hself2, Hnext2, Hopen2, Hw2.
      apply _send_simple_raises in E4;
        [|cbn; rewrite Hself1, Hself0; exact Hch].
      destruct Hw2 as [[Hw2 _]|(k & auth4 & Hk & _ & Hw2)];
        [|rewrite Hself1, Hself0 in Hk; cbn in Hk; rewrite Hself in Hk;
          injection Hk as <-]; settle; exact E4. }
  pose proof (_send_simple_sends _ _ _ _ _ _ E4)
    as [[Hself2 _ Hnext2 Hopen2] Hw2].
  cbn in Hself2, Hnext2, Hopen2, Hw2.
  destruct Hw2 as [[_ Hr]|(k & auth4 & Hk & _ & Hw2)]; [discriminate Hr|].
  rewrite Hself1, Hself0 in Hk. cbn in Hk. rewrite Hself in Hk.
  injection Hk as <-.
  destruct ok.
  - settle. split; [reflexivity|]. split; [reflexivity|].
    split; [exact Hch|]. eauto.
  - settle. cbn. auto.
Qed.

End Traces.

(** ** [keep_alive] and [terminate], request by request *)

Lemma keep_alive_sends (s : state) (k : socket) (r : result bool)
      (s' : state) :
  _sock (self s) = Some k ->
  PyStr.truthy_opt (_uri_base (self s)) = true ->
  keep_alive s = (r, s') ->
  self s' = set_cseq (_cseq (self s) + 1) (self s)
  /\ next_sock (net s') = next_sock (net s)
  /\ open_socks (net s') = open_socks (net s)
  /\ (wire (net s') = wire (net s) /\ raised r = true
      \/ exists auth,
          _build_authorization (self s) (py "OPTIONS")
                               (fmt (_uri_base (self s))) = Return auth
          /\ wire (net s')
             = wire (net s)
                 ++ [(k, simple_request (py "OPTIONS")
                                        (fmt (_uri_base (self s)))
                                        (_cseq (self s) + 1)
                                        (_session_id (self s)) auth)]).
Proof.
  intros Hk Hu.
  unfold keep_alive, bind at 1, get_self. cbn beta iota. rewrite Hk, Hu.
  unfold bind, modify_self, get_self, ret. cbn beta iota.
  destruct (_send_simple _ _ _ _ _ _) as [[ok|e] s2] eqn:Hs;
    destruct (_send_simple_sends _ _ _ _ _ _ Hs)
      as [[Hself _ Hnext Hopen] Hw];
    intros [= <- <-]; cbn in *;
    rewrite Hself, Hnext, Hopen;
    repeat (split; [reflexivity|]);
    (destruct Hw as [[Hw Hr]|(k' & auth & Hk' & Hb & Hw)];
     [ left; split; [exact Hw | first [exact Hr | reflexivity]]
     | right; exists auth; rewrite Hk in Hk'; injection Hk' as <-;
       split; [exact Hb | exact Hw] ]).
Qed.

Lemma terminate_sends (s : state) (k : socket) :
  _sock (self s) = Some k ->
  PyStr.truthy_opt (_uri_base (self s)) = true ->
  exists s',
    terminate s = (Return tt, s')
    /\ self s' = set_sock None (self s)
    /\ next_sock (net s') = next_sock (net s)
    /\ open_socks (net s') = List.remove Nat.eq_dec k (open_socks (net s))
    /\ (wire (net s') = wire (net s)
        \/ exists auth,
            _build_authorization (self s) (py "TEARDOWN")
                                 (fmt (_uri_base (self s))) = Return auth
            /\ wire (net s')
               = wire (net s)
                   ++ [(k, simple_request (py "TEARDOWN")
                                          (fmt (_uri_base (self s)))
                                          (_cseq (self s) + 1)
                                          (_session_id (self s)) auth)]).
Proof.
  intros Hk Hu.
  unfold terminate, bind at 1, get_self. cbn beta iota. rewrite Hk, Hu.
  unfold try_finally, try_except, bind, ret, close, modify_self.
  destruct (_send_simple _ _ _ _ _ s) as [[ok|e] s1] eqn:Hs;
    destruct (_send_simple_sends _ _ _ _ _ _ Hs)
      as [[Hself _ Hnext Hopen] Hw];
    (eexists; split; [reflexivity|]; cbn;
     rewrite Hself, Hnext, Hopen;
     repeat (split; [reflexivity|]);
     destruct Hw as [[Hw _]|(k' & auth & Hk' & Hb & Hw)];
     [ left; exact Hw
     | right; exists auth; rewrite Hk in Hk'; injection Hk' as <-; auto ]).
Qed.

(** X1: what [terminate] does.  With a socket and a base URI it returns,
    having sent nothing or exactly one TEARDOWN for the base URI,
    numbered one above the counter, authorized for that method and URI
    and carrying the session id when one is held; it closes that socket
    and no other, forgets it, and leaves every other attribute, the
    counter included, as it was. *)
Theorem terminate_effect :
  forall (s : state) (k : socket),
    _sock (self s) = Some k ->
    PyStr.truthy_opt (_uri_base (self s)) = true ->
    exists s',
      terminate s = (Return tt, s')
      /\ self s' = set_sock None (self s)
      /\ (forall k', k' <> k ->
                     (In k' (open_socks (net s'))
                      <-> In k' (open_socks (net s))))
      /\ ~ In k (open_socks (net s'))
      /\ (wire (net s') = wire (net s)
          \/ exists auth,
              _build_authorization (self s) (py "TEARDOWN")
                                   (fmt (_uri_base (self s))) = Return auth
              /\ wire (net s')
                 = wire (net s)
                     ++ [(k, simple_request (py "TEARDOWN")
                                            (fmt (_uri_base (self s)))
                                            (_cseq (self s) + 1)
                                            (_session_id (self s)) auth)]).
Proof.
  intros s k Hk Hu.
  destruct (terminate_sends s Hk Hu) as (s' & Ht & Hself & _ & Hopen & Hw).
  exists s'. split; [exact Ht|]. split; [exact Hself|].
  rewrite Hopen. split; [|split; [apply remove_In | exact Hw]].
  intros k' Hne. split.
  - intros H. apply in_remove in H as [H _]. exact H.
  - intros H. apply in_in_remove; assumption.
Qed.

Lemma terminate_effect_witness :
  exists s',
    terminate (Scenario.playing []) = (Return tt, s')
    /\ self s' = set_sock None (self (Scenario.playing []))
    /\ ~ In 0%nat (open_socks (net s')).
Proof.
  destruct (@terminate_effect (Scenario.playing []) 0%nat)
    as (s' & Ht & Hself & _ & Hclosed & _);
    [vm_compute; reflexivity | vm_compute; reflexivity |].
  exists s'. auto.
Defined.

(** [keep_alive] when the exchange takes place. *)
Lemma keep_alive_exchange (s : state) (k : socket) (auth resp : str)
      (rest : list (option str)) :
  _sock (self s) = Some k ->
  PyStr.truthy_opt (_uri_base (self s)) = true ->
  _build_authorization (self s) (py "OPTIONS") (fmt (_uri_base (self s)))
  = Return auth ->
  Utf8.encodable
    (render (simple_request (py "OPTIONS") (fmt (_uri_base (self s)))
                            (_cseq (self s) + 1) (_session_id (self s))
                            auth)) = true ->
  hd true (send_results (net s)) = true ->
  incoming (net s) = Some resp :: rest ->
  keep_alive s
  = (if PyStr.startswith (py "RTSP/1.0 200") resp then Return true
     else match resp with
          | [] => Raise IndexError
          | _ :: _ => Raise RTSPHandshakeError
          end,
     after_exchange k
       (simple_request (py "OPTIONS") (fmt (_uri_base (self s)))
                       (_cseq (self s) + 1) (_session_id (self s)) auth)
       (with_self (set_cseq (_cseq (self s) + 1)) s)).
Proof.
  intros Hk Hu Hb Henc Hsend Hin.
  unfold keep_alive, bind at 1, get_self. cbn beta iota. rewrite Hk, Hu.
  unfold bind, modify_self, get_self, ret. cbn beta iota.
  rewrite _send_simple_unfold.
  change (_build_authorization (self (with_self _ s)))
    with (_build_authorization (self s)).
  cbn [self with_self _uri_base _cseq _session_id set_cseq].
  rewrite Hb.
  erewrite _send_reads_once;
    [ | cbn; exact Hk | exact Henc | exact Hsend | exact Hin ].
  destruct (PyStr.startswith (py "RTSP/1.0 200") resp);
    [|destruct resp]; reflexivity.
Qed.

(** X2: what [keep_alive] answers.  The request goes out and one read
    brings [resp]: the call returns [True] exactly when [resp] begins
    with [RTSP/1.0 200], raises [IndexError] when [resp] is empty (the
    peer closed the connection) and [RTSPHandshakeError] otherwise; it
    does not return [False]. *)
Theorem keep_alive_outcome :
  forall (s : state) (k : socket) (auth resp : str)
         (rest : list (option str)),
    _sock (self s) = Some k ->
    PyStr.truthy_opt (_uri_base (self s)) = true ->
    _build_authorization (self s) (py "OPTIONS") (fmt (_uri_base (self s)))
    = Return auth ->
    Utf8.encodable
      (render (simple_request (py "OPTIONS") (fmt (_uri_base (self s)))
                              (_cseq (self s) + 1) (_session_id (self s))
                              auth)) = true ->
    hd true (send_results (net s)) = true ->
    incoming (net s) = Some resp :: rest ->
    fst (keep_alive s)
    = (if PyStr.startswith (py "RTSP/1.0 200") resp then Return true
       else match resp with
            | [] => Raise IndexError
            | _ :: _ => Raise RTSPHandshakeError
            end)
    /\ _cseq (self (snd (keep_alive s))) = (_cseq (self s) + 1)%Z
    /\ incoming (net (snd (keep_alive s))) = rest.
Proof.
  intros s k auth resp rest Hk Hu Hb Henc Hsend Hin.
  rewrite (keep_alive_exchange s Hk Hu Hb Henc Hsend Hin).
  cbn. rewrite Hin. auto.
Qed.

Lemma keep_alive_outcome_witness :
  fst (keep_alive (Scenario.playing [Some []])) = Raise IndexError.
Proof.
  refine (proj1 (@keep_alive_outcome (Scenario.playing [Some []]) 0%nat
                   (digest_header (py "admin") (py "X") (py "Y")
                                  (py "rtsp://h:554/p")
                                  (py "8624491e44f2b9123e7a56efdcfff11d"))
                   [] [] _ _ _ _ _ _)); vm_compute; reflexivity.
Defined.

(** ** [start], whatever state it is called in *)

Lemma idle_after_close (o : TalkBackInitiator) : idle (set_sock None o) = true.
Proof. reflexivity. Qed.

Section StartAnywhere.

Variable isdecimal : N -> bool.
Variable py_int : str -> option Z.

(** A [start] that returns has made its connection. *)
Lemma start_returns_connected (s : state) (v : str * option Z)
      (s1 : state) :
  start isdecimal py_int s = (Return v, s1) ->
  hd true (conn_results (net s)) = true
  /\ _do_rtsp_handshake isdecimal py_int s = (Return tt, s1).
Proof.
  unfold start.
  destruct (hd true (conn_results (net s))) eqn:Hc.
  - destruct (_do_rtsp_handshake isdecimal py_int s) as [[[]|e] s'] eqn:Hh.
    + intros [= _ <-]. auto.
    + destruct (terminate s') as [[u|e'] s2]; discriminate.
  - rewrite (handshake_no_connection isdecimal py_int s Hc).
    destruct (terminate _) as [[u|e'] s2]; discriminate.
Qed.

Lemma start_raises_class (s : state) (e : exn) (s' : state) :
  start isdecimal py_int s = (Raise e, s') -> In e start_errors.
Proof.
  intros H. unfold start in H.
  destruct (hd true (conn_results (net s))) eqn:Hc.
  - destruct (_do_rtsp_handshake isdecimal py_int s) as [[u|e0] s1] eqn:Hh;
      [discriminate|].
    destruct (handshake_trace _ _ _ Hc Hh)
      as (_ & _ & _ & _ & _ & sent & _ & _ & _ & He).
    destruct (terminate_returns s1) as (s2 & Ht & _).
    rewrite Ht in H. injection H as <- _. exact He.
  - rewrite (handshake_no_connection isdecimal py_int s Hc) in H.
    destruct (terminate_returns
                (connect_failed
                   (with_self
                      (set_uri_base (Some (uri_base_of (_url (self s)))))
                      s))) as (s2 & Ht & _).
    rewrite Ht in H. injection H as <- _. cbn. auto.
Qed.

(** X3: the exceptions of [start].  From any state, what [start] raises
    is a socket error, an encoding error, [RTSPAuthError],
    [RTSPHandshakeError], the [ValueError] of [int] or the [IndexError]
    of an empty PLAY answer: the assertion on realm and nonce cannot
    fail inside the handshake, and what fails inside [terminate] stays
    there. *)
Theorem start_error_classes :
  forall (s : state) (e : exn) (s' : state),
    start isdecimal py_int s = (Raise e, s') ->
    In e start_errors /\ e <> AssertionError.
Proof.
  intros s e s' H. apply start_raises_class in H.
  split; [exact H|].
  intros ->. cbn in H. intuition discriminate.
Qed.

(** X4: after a [start] that raised.  The instance is left without a
    socket, so [keep_alive] returns [False] and [terminate] returns, and
    neither touches the instance or the network. *)
Theorem failed_start_leaves_idle :
  forall (s : state) (e : exn) (s' : state),
    start isdecimal py_int s = (Raise e, s') ->
    _sock (self s') = None
    /\ keep_alive s' = (Return false, s')
    /\ terminate s' = (Return tt, s').
Proof.
  intros s e s' H.
  destruct (start_raises_closed isdecimal py_int s) as [Hsock _].
  { rewrite H. reflexivity. }
  rewrite H in Hsock. cbn in Hsock.
  assert (Hidle : idle (self s') = true)
    by (unfold idle; rewrite Hsock; reflexivity).
  auto using keep_alive_idle, terminate_idle.
Qed.

(** X5: a second [start] that cannot connect.  The instance holds an open
    socket and the new connection attempt fails: [start] raises the
    socket's error and its [terminate] tears the old session down, with
    at most a TEARDOWN on the old socket, which it closes. *)
Theorem failed_reconnect_drops_session :
  forall (s : state) (k0 : socket),
    _sock (self s) = Some k0 ->
    hd true (conn_results (net s)) = false ->
    exists s',
      start isdecimal py_int s = (Raise OSError, s')
      /\ _sock (self s') = None
      /\ open_socks (net s')
         = List.remove Nat.eq_dec k0 (open_socks (net s))
      /\ (wire (net s') = wire (net s)
          \/ exists rq,
              rq_method rq = py "TEARDOWN"
              /\ rq_cseq rq = (_cseq (self s) + 1)%Z
              /\ wire (net s') = wire (net s) ++ [(k0, rq)]).
Proof.
  intros s k0 Hk Hc. unfold start.
  rewrite (handshake_no_connection isdecimal py_int s Hc).
  match goal with |- context [terminate ?s1] =>
    destruct (@terminate_sends s1 k0 Hk (uri_base_truthy _ _ _))
      as (s2 & Ht & Hself & _ & Hopen & Hw)
  end.
  rewrite Ht. exists s2. split; [reflexivity|].
  rewrite Hself, Hopen. cbn. repeat split.
  destruct Hw as [Hw|(auth & _ & Hw)]; [left; exact Hw|].
  right. eexists. split; [|split; [|exact Hw]]; reflexivity.
Qed.



End StartAnywhere.

Lemma start_error_classes_witness :
  In OSError start_errors /\ OSError <> AssertionError.
Proof.
  refine (@start_error_classes Ascii10.isdecimal Ascii10.int
            (Scenario.facing [Some Scenario.resp_401]) OSError
            (snd (start Ascii10.isdecimal Ascii10.int
                        (Scenario.facing [Some Scenario.resp_401]))) _).
  vm_compute. reflexivity.
Defined.

Lemma failed_start_leaves_idle_witness :
  _sock (self (snd (start Ascii10.isdecimal Ascii10.int
                          (Scenario.facing [Some Scenario.resp_401]))))
  = None.
Proof.
  refine (proj1 (@failed_start_leaves_idle Ascii10.isdecimal Ascii10.int
                   (Scenario.facing [Some Scenario.resp_401]) OSError _ _)).
  vm_compute. reflexivity.
Defined.

Lemma failed_reconnect_drops_session_witness :
  exists s',
    start Ascii10.isdecimal Ascii10.int
          (with_net (fun n =>
             {| conn_results := [false]; send_results := send_results n;
                incoming := incoming n; wire := wire n;
                next_sock := next_sock n; open_socks := open_socks n |})
             (Scenario.playing []))
    = (Raise OSError, s')
    /\ _sock (self s') = None.
Proof.
  destruct (@failed_reconnect_drops_session Ascii10.isdecimal Ascii10.int
              (with_net (fun n =>
                 {| conn_results := [false]; send_results := send_results n;
                    incoming := incoming n; wire := wire n;
                    next_sock := next_sock n; open_socks := open_socks n |})
                 (Scenario.playing [])) 0%nat)
    as (s' & Hs & Hsock & _);
    [vm_compute; reflexivity | reflexivity |].
  exists s'. auto.
Defined.


(** ** The order of the requests *)

Lemma shape_simple_request (method uri : str) (cseq : Z)
      (session : option str) (auth : str) :
  shape (simple_request method uri cseq session auth) = (method, true).
Proof. reflexivity. Qed.

Lemma wire_shapes_same (s s' : state) :
  wire (net s') = wire (net s) ->
  wire_shapes (net s') = wire_shapes (net s) ++ [].
Proof. unfold wire_shapes. intros ->. rewrite app_nil_r. reflexivity. Qed.

Lemma wire_shapes_snoc (s s' : state) (k : socket) (rq : request) :
  wire (net s') = wire (net s) ++ [(k, rq)] ->
  wire_shapes (net s') = wire_shapes (net s) ++ [shape rq].
Proof. unfold wire_shapes. intros ->. rewrite map_app. reflexivity. Qed.

(** What [terminate] adds to the wire, as shapes. *)
Lemma terminate_shapes (s : state) :
  _sock (self s) = None \/ PyStr.truthy_opt (_uri_base (self s)) = true ->
  exists t,
    wire_shapes (net (snd (terminate s))) = wire_shapes (net s) ++ t
    /\ (t = [] \/ t = [(py "TEARDOWN", true)])
    /\ idle (self (snd (terminate s))) = true.
Proof.
  intros H. destruct (_sock (self s)) as [k|] eqn:Hk.
  - destruct H as [H|Hu]; [discriminate|].
    destruct (terminate_sends s Hk Hu) as (s' & -> & Hself & _ & _ & Hw).
    cbn [snd]. rewrite Hself.
    destruct Hw as [Hw|(auth & _ & Hw)].
    + exists []. split; [apply wire_shapes_same; exact Hw | auto].
    + exists [(py "TEARDOWN", true)].
      split; [apply wire_shapes_snoc in Hw; exact Hw | auto].
  - assert (Hidle : idle (self s) = true)
      by (unfold idle; rewrite Hk; reflexivity).
    rewrite (terminate_idle s Hidle). cbn [snd]. exists [].
    rewrite app_nil_r. auto.
Qed.

(** After the handshake: keep-alives, and then at most one teardown. *)
Lemma calls_shapes (ops : list op) (s : state) :
  exists n t,
    wire_shapes (net (fold_left call ops s))
    = wire_shapes (net s) ++ repeat (py "OPTIONS", true) n ++ t
    /\ (t = [] \/ t = [(py "TEARDOWN", true)])
    /\ (n <= List.length ops)%nat.
Proof.
  revert s. induction ops as [|o ops IH]; intros s; cbn [fold_left].
  { exists 0%nat, []. cbn. rewrite app_nil_r. auto. }
  destruct (idle (self s)) eqn:Hidle.
  { assert (Hs : call s o = s)
      by (destruct o; cbn [call];
          rewrite ?keep_alive_idle, ?terminate_idle by exact Hidle;
          reflexivity).
    rewrite Hs. destruct (IH s) as (n & t & Hw & Ht & Hn).
    exists n, t. cbn [List.length]. auto with arith. }
  destruct (idle_false _ Hidle) as (k & Hk & Hu).
  destruct o; cbn [call].
  - destruct (keep_alive s) as [r s'] eqn:Hka. cbn [snd].
    destruct (keep_alive_sends s Hk Hu Hka) as (_ & _ & _ & Hw).
    destruct (IH s') as (n & t & Hw' & Ht & Hn).
    destruct Hw as [[Hw _]|(auth & _ & Hw)].
    + exists n, t. rewrite Hw', (@wire_shapes_same _ _ Hw), app_nil_r.
      cbn [List.length]. auto with arith.
    + exists (S n), t. rewrite Hw'.
      rewrite (@wire_shapes_snoc _ _ _ _ Hw), shape_simple_request.
      rewrite <- app_assoc. cbn [List.length repeat app].
      auto with arith.
  - destruct (terminate_shapes s (or_intror Hu)) as (t & Hw & Ht & Hi).
    rewrite (@calls_idle ops _ Hi).
    exists 0%nat, t. cbn. auto with arith.
Qed.

(** Every request after a successful handshake is for the session. *)
Lemma calls_carry_session (ops : list op) (s : state) (k : socket)
      (u sid : str) :
  _sock (self s) = Some k \/ _sock (self s) = None ->
  _uri_base (self s) = Some u ->
  _session_id (self s) = Some sid ->
  sid <> [] ->
  exists later,
    wire (net (fold_left call ops s)) = wire (net s) ++ later
    /\ Forall (fun e => fst e = k
                        /\ rq_uri (snd e) = u
                        /\ In (py "Session", sid) (rq_headers (snd e)))
              later.
Proof.
  revert s. induction ops as [|o ops IH]; intros s Hk Hu Hsid Hne;
    cbn [fold_left].
  { exists []. rewrite app_nil_r. auto. }
  destruct (idle (self s)) eqn:Hidle.
  { assert (Hs : call s o = s)
      by (destruct o; cbn [call];
          rewrite ?keep_alive_idle, ?terminate_idle by exact Hidle;
          reflexivity).
    rewrite Hs. auto. }
  destruct (idle_false _ Hidle) as (k' & Hk' & Htr).
  destruct Hk as [Hk|Hk]; [|congruence].
  assert (k' = k) by congruence. subst k'.
  assert (Hrq : forall method cseq auth,
             (fun e => fst e = k /\ rq_uri (snd e) = u
                       /\ In (py "Session", sid) (rq_headers (snd e)))
               (k, simple_request method (fmt (_uri_base (self s))) cseq
                                  (_session_id (self s)) auth)).
  { intros method cseq auth. rewrite Hu, Hsid. cbn [fst snd fmt].
    unfold simple_request, PyStr.truthy_opt.
    rewrite (truthy_nonempty Hne). cbn. auto. }
  destruct o; cbn [call].
  - destruct (keep_alive s) as [r s'] eqn:Hka. cbn [snd].
    destruct (keep_alive_sends s Hk Htr Hka) as (Hself & _ & _ & Hw).
    destruct (IH s') as (later & Hw' & Hall);
      try (rewrite Hself; cbn; auto; fail); [exact Hne|].
    destruct Hw as [[Hw _]|(auth & _ & Hw)].
    + exists later. rewrite Hw', Hw. auto.
    + eexists. rewrite Hw', Hw, <- app_assoc. split; [reflexivity|].
      constructor; [apply Hrq | exact Hall].
  - destruct (terminate_sends s Hk Htr) as (s' & -> & Hself & _ & _ & Hw).
    cbn [snd].
    rewrite (@calls_idle ops s') by (rewrite Hself; reflexivity).
    destruct Hw as [Hw|(auth & _ & Hw)].
    + exists []. rewrite Hw, app_nil_r. auto.
    + eexists. split; [exact Hw|]. constructor; [apply Hrq | constructor].
Qed.

Section Protocol.

Variable isdecimal : N -> bool.
Variable py_int : str -> option Z.

(** X7: the order of the requests.  From any state, what [start] and any
    later calls of [keep_alive] and [terminate] add to the wire is a
    prefix of the handshake (DESCRIBE without authorization, DESCRIBE,
    SETUP, PLAY), then OPTIONS requests, one at most for each call made
    and none unless the handshake was sent whole, then at most one
    TEARDOWN; all but the first DESCRIBE are authorized. *)
Theorem session_protocol_order :
  forall (ops : list op) (s : state),
  exists (j n : nat) (t : list (str * bool)),
    wire_shapes (net (session isdecimal py_int ops s))
    = wire_shapes (net s) ++ firstn j handshake_shapes
        ++ repeat (py "OPTIONS", true) n ++ t
    /\ (t = [] \/ t = [(py "TEARDOWN", true)])
    /\ (n <> 0%nat -> j = 4%nat)
    /\ (n <= List.length ops)%nat.
Proof.
  intros ops s. unfold session, start.
  destruct (hd true (conn_results (net s))) eqn:Hc.
  - destruct (_do_rtsp_handshake isdecimal py_int s) as [[[]|e] s1] eqn:Hh;
      destruct (handshake_trace _ _ _ Hc Hh)
        as (Hk1 & _ & _ & _ & Hu1 & sent & Hw1 & _ & (j & Hj) & Hr).
    + cbn [snd]. destruct Hr as (Hsh & _).
      destruct (calls_shapes ops s1) as (n & t & Hw & Ht & Hn).
      exists 4%nat, n, t. rewrite Hw. unfold wire_shapes at 1.
      rewrite Hw1, map_app, Hsh, <- app_assoc. auto.
    + assert (Hu : PyStr.truthy_opt (_uri_base (self s1)) = true)
        by (rewrite Hu1; apply uri_base_truthy).
      destruct (terminate_shapes s1 (or_intror Hu)) as (t & Hw & Ht & Hi).
      destruct (terminate_returns s1) as (s2 & Hterm & _).
      rewrite Hterm in Hw, Hi |- *. cbn [snd] in Hw, Hi |- *.
      rewrite (@calls_idle ops s2 Hi).
      exists j, 0%nat, t. rewrite Hw. unfold wire_shapes at 1.
      rewrite Hw1, map_app, Hj, <- app_assoc. cbn [repeat app].
      repeat split; [exact Ht | congruence | auto with arith].
  - rewrite (handshake_no_connection isdecimal py_int s Hc).
    match goal with |- context [terminate ?s1] =>
      destruct (terminate_shapes s1) as (t & Hw & Ht & Hi);
        [right; apply uri_base_truthy|];
        destruct (terminate_returns s1) as (s2 & Hterm & _)
    end.
    rewrite Hterm in Hw, Hi |- *. cbn [snd] in Hw, Hi |- *.
    rewrite (@calls_idle ops s2 Hi).
    exists 0%nat, 0%nat, t. rewrite Hw.
    repeat split; [exact Ht | congruence | auto with arith].
Qed.

(** X8: the session id.  When [start] returns, the instance holds the id
    the SETUP answer gave: not empty, without [;] and white space.  Every
    request of every later [keep_alive] and [terminate] goes out on the
    socket of that handshake, for the base URI, with that id in a
    [Session] header. *)
Theorem later_requests_carry_session :
  forall (s : state) (v : str * option Z) (s1 : state),
    start isdecimal py_int s = (Return v, s1) ->
    exists sid,
      _session_id (self s1) = Some sid
      /\ sid <> []
      /\ Forall (fun c => Re.session_char c = true) sid
      /\ forall ops,
          exists later,
            wire (net (fold_left call ops s1)) = wire (net s1) ++ later
            /\ Forall (fun e =>
                         fst e = next_sock (net s)
                         /\ rq_uri (snd e) = uri_base_of (_url (self s))
                         /\ In (py "Session", sid) (rq_headers (snd e)))
                      later.
Proof.
  intros s v s1 H. apply start_returns_connected in H as [Hc Hh].
  destruct (handshake_trace _ _ _ Hc Hh)
    as (Hk1 & _ & _ & _ & Hu1 & sent & _ & _ & _ & _ & _ & _ & sid & Hsid
        & Hne & Hcls).
  exists sid. repeat split; try assumption.
  intros ops. apply calls_carry_session; auto.
Qed.

End Protocol.

Lemma later_requests_carry_session_witness :
  exists sid,
    _session_id
      (self (snd (start Ascii10.isdecimal Ascii10.int
                        (Scenario.facing Scenario.handshake_answers))))
    = Some sid
    /\ sid <> [].
Proof.
  destruct (@later_requests_carry_session Ascii10.isdecimal Ascii10.int
              (Scenario.facing Scenario.handshake_answers)
              (host Scenario.url,
               _back_channel_port (self (Scenario.playing [])))
              (snd (start Ascii10.isdecimal Ascii10.int
                          (Scenario.facing Scenario.handshake_answers))))
    as (sid & Hsid & Hne & _).
  - vm_compute. reflexivity.
  - exists sid. auto.
Defined.

(** ** The talk-back URL, whatever the camera sends *)

Lemma rstrip_by_all (p : N -> bool) (t : str) :
  forallb p t = true -> PyStr.rstrip_by p t = [].
Proof.
  induction t as [|c t IH]; cbn; [reflexivity|].
  intros H. apply andb_prop in H as [Hc Ht]. rewrite (IH Ht), Hc.
  reflexivity.
Qed.

Lemma rstrip_by_app_all (p : N -> bool) (s t : str) :
  forallb p t = true ->
  PyStr.rstrip_by p (s ++ t) = PyStr.rstrip_by p s.
Proof.
  intros Ht. induction s as [|c s IH]; cbn [app PyStr.rstrip_by].
  - apply rstrip_by_all. exact Ht.
  - rewrite IH. reflexivity.
Qed.

Lemma forallb_repeat (p : N -> bool) (c : N) (k : nat) :
  p c = true -> forallb p (repeat c k) = true.
Proof. intros H. induction k; cbn; [|rewrite H]; auto. Qed.

Lemma lstrip_by_hd (p : N -> bool) (s : str) (d : N) :
  PyStr.lstrip_by p s <> [] -> p (hd d (PyStr.lstrip_by p s)) = false.
Proof.
  induction s as [|c s IH]; cbn; [congruence|].
  destruct (p c) eqn:Hc; [exact IH | intros _; exact Hc].
Qed.

Lemma lstrip_by_suffix (p : N -> bool) (s : str) :
  exists t, s = t ++ PyStr.lstrip_by p s /\ forallb p t = true.
Proof.
  induction s as [|c s IH]; cbn; [exists []; auto|].
  destruct (p c) eqn:Hc.
  - destruct IH as (t & Hs & Ht). exists (c :: t). cbn.
    rewrite Hc, Ht, <- Hs. auto.
  - exists []. auto.
Qed.

Lemma rstrip_by_hd (p : N -> bool) (s : str) (d : N) :
  PyStr.rstrip_by p s <> [] -> hd d (PyStr.rstrip_by p s) = hd d s.
Proof.
  destruct s as [|c s]; cbn; [congruence|].
  destruct (PyStr.rstrip_by p s); [destruct (p c); [congruence|]|];
    reflexivity.
Qed.

Lemma rstrip_by_nonempty (p : N -> bool) (s : str) :
  PyStr.rstrip_by p s <> [] -> s <> [].
Proof. destruct s; cbn; congruence. Qed.

(** What [strip] leaves begins and ends with something other than white
    space. *)
Lemma strip_ends (s : str) :
  PyStr.strip s <> [] ->
  PyStr.isspace (hd 0%N (PyStr.strip s)) = false
  /\ PyStr.isspace (last (PyStr.strip s) 0%N) = false.
Proof.
  unfold PyStr.strip. intros H. split.
  - rewrite rstrip_by_hd by exact H. apply lstrip_by_hd.
    eapply rstrip_by_nonempty. exact H.
  - destruct (rstrip_by_spec PyStr.isspace
                             (PyStr.lstrip_by PyStr.isspace s))
      as (t & _ & _ & [Hnil|Hlast]); [congruence | exact Hlast].
Qed.

Section Within.

Variable P : N -> Prop.

Lemma lstrip_by_within (p : N -> bool) (s : str) :
  Forall P s -> Forall P (PyStr.lstrip_by p s).
Proof.
  induction 1 as [|c s Hc Hs IH]; cbn; [constructor|].
  destruct (p c); [exact IH | constructor; assumption].
Qed.

Lemma rstrip_by_within (p : N -> bool) (s : str) :
  Forall P s -> Forall P (PyStr.rstrip_by p s).
Proof.
  induction 1 as [|c s Hc Hs IH]; cbn; [constructor|].
  destruct (PyStr.rstrip_by p s);
    [destruct (p c); repeat constructor; assumption
    | constructor; assumption].
Qed.

Lemma strip_within (s : str) : Forall P s -> Forall P (PyStr.strip s).
Proof. intros H. apply rstrip_by_within, lstrip_by_within, H. Qed.

Lemma skipn_within (n : nat) (s : str) : Forall P s -> Forall P (skipn n s).
Proof.
  revert s. induction n as [|n IH]; intros s H; cbn; [exact H|].
  destruct H; [constructor | auto].
Qed.

Lemma split_aux_within (sep : str) (s : str) :
  Forall P s ->
  forall skip cur,
    Forall P cur -> Forall (Forall P) (PyStr.split_aux sep skip cur s).
Proof.
  induction 1 as [|c s Hc Hs IH]; intros skip cur Hcur;
    cbn [PyStr.split_aux].
  - repeat constructor. apply Forall_rev. exact Hcur.
  - destruct skip as [|k]; [|apply IH; exact Hcur].
    destruct (PyStr.startswith sep (c :: s)).
    + constructor; [apply Forall_rev; exact Hcur | apply IH; constructor].
    + apply IH. constructor; assumption.
Qed.

Lemma split_within (sep s : str) :
  Forall P s -> Forall (Forall P) (PyStr.split sep s).
Proof. intros H. apply split_aux_within; [exact H | constructor]. Qed.

Lemma split1_aux_within (sep : str) (s : str) :
  Forall P s ->
  forall cur, Forall P cur -> Forall (Forall P) (PyStr.split1_aux sep cur s).
Proof.
  induction 1 as [|c s Hc Hs IH]; intros cur Hcur; cbn [PyStr.split1_aux].
  - repeat constructor. apply Forall_rev. exact Hcur.
  - destruct (PyStr.startswith sep (c :: s)).
    + repeat constructor; [apply Forall_rev; exact Hcur|].
      apply skipn_within. constructor; assumption.
    + apply IH. constructor; assumption.
Qed.

Lemma nth_within (i : nat) (l : list str) :
  Forall (Forall P) l -> Forall P (nth i l []).
Proof.
  intros H. revert i. induction H as [|x l Hx Hl IH]; intros [|i]; cbn;
    auto.
Qed.

Lemma sdp_of_within (resp2 : str) : Forall P resp2 -> Forall P (sdp_of resp2).
Proof.
  intros H. unfold sdp_of. destruct (PyStr.contains _ _); [|constructor].
  apply nth_within. apply split1_aux_within; [exact H | constructor].
Qed.

Lemma greedy_within (cls : N -> bool) (cap least_one : bool)
      (k : str -> option (list str * str)) :
  (forall s r, Forall P s -> k s = Some r -> held P r) ->
  forall s, Forall P s ->
  forall taken r,
    Forall P taken ->
    Re.greedy cls cap least_one k s taken = Some r -> held P r.
Proof.
  intros Hk.
  assert (Hstop : forall s taken r,
             Forall P s -> Forall P taken ->
             match least_one, taken with
             | true, [] => None
             | _, _ => Re.with_capture cap taken (k s)
             end = Some r -> held P r).
  { intros s taken r Hs Htaken H.
    assert (H' : Re.with_capture cap taken (k s) = Some r)
      by (destruct least_one, taken; (discriminate || exact H)).
    clear H. unfold Re.with_capture in H'.
    destruct (k s) as [[caps rest]|] eqn:E; [|discriminate].
    injection H' as <-. destruct (Hk _ _ Hs E) as [H1 H2].
    split; cbn in *; [|exact H2].
    destruct cap; [constructor; [apply Forall_rev; exact Htaken|]|];
      exact H1. }
  induction 1 as [|c s Hc Hs IH]; intros taken r Htaken;
    cbn [Re.greedy].
  - apply Hstop; [constructor | exact Htaken].
  - destruct (cls c);
      [|apply Hstop; [constructor; assumption | exact Htaken]].
    destruct (Re.greedy cls cap least_one k s (c :: taken)) as [r'|] eqn:Hg.
    + intros [= <-]. apply (IH (c :: taken)); [|exact Hg].
      constructor; assumption.
    + apply Hstop; [constructor; assumption | exact Htaken].
Qed.

Lemma match_here_within (p : Re.pattern) :
  forall s r, Forall P s -> Re.match_here p s = Some r -> held P r.
Proof.
  induction p as [|a p IH]; intros s r Hs; cbn [Re.match_here].
  - intros [= <-]. split; [constructor | exact Hs].
  - destruct a as [l|cls cap|cls cap].
    + destruct (PyStr.startswith l s); [|discriminate].
      apply IH, skipn_within, Hs.
    + apply greedy_within; [exact IH | exact Hs | constructor].
    + apply greedy_within; [exact IH | exact Hs | constructor].
Qed.

Lemma search_within (p : Re.pattern) (s : str) (caps : list str) (i : nat) :
  Forall P s -> Re.search p s = Some caps -> Forall P (Re.group i caps).
Proof.
  intros Hs. induction Hs as [|c s Hc Hs IH]; rewrite search_unfold.
  - destruct (Re.match_here p []) as [[caps' rest]|] eqn:Hm; [|discriminate].
    intros [= <-]. apply match_here_within in Hm as [Hm _]; [|constructor].
    apply nth_within, Hm.
  - destruct (Re.match_here p (c :: s)) as [[caps' rest]|] eqn:Hm;
      [|exact IH].
    intros [= <-].
    apply match_here_within in Hm as [Hm _]; [|constructor; assumption].
    apply nth_within, Hm.
Qed.

Lemma find_talk_control_within (sections : list str) (c : str) :
  Forall (Forall P) sections ->
  find_talk_control sections = Some c -> Forall P c.
Proof.
  induction 1 as [|sec rest Hsec Hrest IH]; cbn [find_talk_control];
    [discriminate|].
  destruct (PyStr.contains _ sec); [|exact IH].
  destruct (Re.search Patterns.A_CONTROL sec) as [m2|] eqn:Hm; [|exact IH].
  intros [= <-]. apply strip_within.
  eapply search_within; [exact Hsec | exact Hm].
Qed.

Lemma resolve_talk_url_within (resp2 talk : str) :
  P 47%N -> Forall P resp2 ->
  resolve_talk_url resp2 = Return talk -> Forall P talk.
Proof.
  intros Hslash Hresp. unfold resolve_talk_url, talk_url_of.
  destruct (Re.search Patterns.CONTENT_BASE resp2) as [cb|] eqn:Hcb;
    [|discriminate].
  destruct (find_talk_control _) as [c|] eqn:Hc; [|discriminate].
  destruct (PyStr.truthy c); [|discriminate].
  intros [= <-]. rewrite !Forall_app. repeat split.
  - apply rstrip_by_within.
    eapply search_within; [exact Hresp | exact Hcb].
  - repeat constructor. exact Hslash.
  - eapply find_talk_control_within; [|exact Hc].
    apply split_within, sdp_of_within, Hresp.
Qed.

End Within.

Lemma startswith_skipn (l s : str) :
  PyStr.startswith l s = true -> s = l ++ skipn (List.length l) s.
Proof.
  revert s. induction l as [|x l IH]; intros s; [reflexivity|].
  destruct s as [|y s]; cbn [PyStr.startswith]; [discriminate|].
  intros H. apply andb_prop in H as [Hx Hl]. apply N.eqb_eq in Hx.
  subst y. cbn [List.length skipn app]. f_equal. exact (IH _ Hl).
Qed.

Lemma greedy_star_total (cls : N -> bool) (cap : bool) (s taken : str) :
  Re.greedy cls cap false (Re.match_here []) s taken <> None.
Proof.
  revert taken. induction s as [|c s IH]; intros taken; cbn [Re.greedy].
  - cbn. discriminate.
  - destruct (cls c); [|cbn; discriminate].
    destruct (Re.greedy cls cap false (Re.match_here []) s (c :: taken))
      eqn:Hg; [discriminate|].
    exfalso. exact (IH _ Hg).
Qed.

(** A captured [cls*] that closes the pattern takes the longest run of
    [cls] there is. *)
Lemma greedy_star_rest (cls : N -> bool) (s taken : str)
      (caps : list str) (rest : str) :
  Re.greedy cls true false (Re.match_here []) s taken = Some (caps, rest) ->
  exists g,
    caps = [rev taken ++ g]
    /\ s = g ++ rest
    /\ Forall (fun c => cls c = true) g
    /\ (rest = [] \/ cls (hd 0%N rest) = false).
Proof.
  revert taken. induction s as [|c s IH]; intros taken; cbn [Re.greedy].
  - cbn. intros [= <- <-]. exists []. rewrite app_nil_r. auto.
  - destruct (cls c) eqn:Hc.
    + destruct (Re.greedy cls true false (Re.match_here []) s (c :: taken))
        as [r|] eqn:Hg; [|exfalso; exact (greedy_star_total _ _ _ _ Hg)].
      intros [= ->]. destruct (IH _ Hg) as (g & -> & -> & Hcls & Hrest).
      exists (c :: g). cbn [rev]. rewrite <- app_assoc.
      repeat split; [constructor; assumption | exact Hrest].
    + cbn. intros [= <- <-]. exists []. rewrite app_nil_r.
      repeat split; [constructor | right; exact Hc].
Qed.

(** [re.search] of a literal and then a captured [cls*]: the leftmost
    place where the literal stands, and the longest run after it. *)
Lemma search_lit_star (l : str) (cls : N -> bool) (s : str)
      (m : list str) :
  Re.search [Re.Lit l; Re.Star cls true] s = Some m ->
  exists a g rest,
    s = a ++ l ++ g ++ rest
    /\ m = [g]
    /\ (forall a1 a2, a = a1 ++ a2 -> a2 <> [] ->
                      PyStr.startswith l (a2 ++ l ++ g ++ rest) = false)
    /\ Forall (fun c => cls c = true) g
    /\ (rest = [] \/ cls (hd 0%N rest) = false).
Proof.
  assert (Hhere : forall s caps rest,
             Re.match_here [Re.Lit l; Re.Star cls true] s
             = Some (caps, rest) ->
             exists g,
               s = l ++ g ++ rest /\ caps = [g]
               /\ Forall (fun c => cls c = true) g
               /\ (rest = [] \/ cls (hd 0%N rest) = false)).
  { intros s0 caps rest. cbn [Re.match_here].
    destruct (PyStr.startswith l s0) eqn:Hl; [|discriminate].
    intros H. apply greedy_star_rest in H as (g & -> & Hs & Hcls & Hrest).
    exists g. rewrite <- Hs. split; [apply startswith_skipn; exact Hl|].
    auto. }
  assert (Hmiss : forall s,
             Re.match_here [Re.Lit l; Re.Star cls true] s = None ->
             PyStr.startswith l s = false).
  { intros s0. cbn [Re.match_here].
    destruct (PyStr.startswith l s0); [|reflexivity].
    intros H. exfalso. exact (greedy_star_total _ _ _ _ H). }
  induction s as [|c s IH]; rewrite search_unfold.
  - destruct (Re.match_here _ []) as [[caps rest]|] eqn:Hm; [|discriminate].
    intros [= <-]. destruct (Hhere _ _ _ Hm) as (g & Hs & -> & Hcls & Hrest).
    exists [], g, rest. cbn [app]. repeat split; try assumption.
    intros a1 a2 E. symmetry in E. apply app_eq_nil in E as [_ ->].
      congruence.
  - destruct (Re.match_here _ (c :: s)) as [[caps rest]|] eqn:Hm.
    + intros [= <-].
      destruct (Hhere _ _ _ Hm) as (g & Hs & -> & Hcls & Hrest).
      exists [], g, rest. cbn [app]. repeat split; try assumption.
      intros a1 a2 E. symmetry in E. apply app_eq_nil in E as [_ ->].
      congruence.
    + intros H. apply Hmiss in Hm.
      destruct (IH H) as (a & g & rest & Hs & -> & Hleft & Hcls & Hrest).
      exists (c :: a), g, rest. cbn [app]. rewrite <- Hs.
      repeat split; try assumption.
      intros a1 a2 E Hne. destruct a1 as [|x a1]; cbn [app] in E.
      * subst a2. cbn [app]. rewrite <- Hs. exact Hm.
      * injection E as _ E. exact (Hleft _ _ E Hne).
Qed.

(** X9: the talk-back URL.  When one is found, the description cut at
    every [m=] has a first piece that holds [a=sendonly] and an
    [a=control:] attribute.  The URL is the value of [Content-Base]
    without its trailing slashes, one slash, and the text that follows
    the first [a=control:] of that piece up to the end of its line or of
    the piece, stripped of white space at both ends; that text is not
    empty once stripped.  No URL resolution takes place: the text is
    appended also when it is a full URL, and since a piece ends where
    [m=] stands, a value that holds [m=] is cut there. *)
Theorem talk_url_shape :
  forall (cb sdp u : str),
    talk_url_of cb sdp = Return u ->
    exists pre sec post a g rest k,
      PyStr.split (py "m=") sdp = pre ++ sec :: post
      /\ Forall (fun x => talk_section x = false) pre
      /\ PyStr.contains (py "a=sendonly") sec = true
      /\ sec = a ++ py "a=control:" ++ g ++ rest
      /\ (forall a1 a2,
             a = a1 ++ a2 -> a2 <> [] ->
             PyStr.startswith (py "a=control:")
                              (a2 ++ py "a=control:" ++ g ++ rest) = false)
      /\ Forall (fun c => c <> 10%N) g
      /\ (rest = [] \/ hd 0%N rest = 10%N)
      /\ u = PyStr.rstrip_slash cb ++ py "/" ++ PyStr.strip g
      /\ cb = PyStr.rstrip_slash cb ++ repeat 47%N k
      /\ (forall r, PyStr.rstrip_slash cb <> r ++ [47%N])
      /\ PyStr.strip g <> []
      /\ PyStr.isspace (hd 0%N (PyStr.strip g)) = false
      /\ PyStr.isspace (last (PyStr.strip g) 0%N) = false.
Proof.
  intros cb sdp u. unfold talk_url_of.
  destruct (find_talk_control _) as [c|] eqn:Hc; [|discriminate].
  destruct (PyStr.truthy c) eqn:Ht; [|discriminate].
  intros [= <-].
  destruct (find_talk_control_found _ Hc)
    as (pre & sec & post & m & Hsplit & Hpre & Hsec & Hm & ->).
  unfold Patterns.A_CONTROL in Hm.
  destruct (search_lit_star _ _ _ Hm)
    as (a & g & rest & Hs & -> & Hleft & Hcls & Hrest).
  change (Re.group 1 [g]) with g in *.
  destruct (rstrip_slash_spec cb) as (k & Hcb & Hbase).
  assert (Hne : PyStr.strip g <> []) by (intros E; rewrite E in Ht;
                                         discriminate).
  destruct (strip_ends _ Hne) as [Hhd Hlast].
  exists pre, sec, post, a, g, rest, k. rewrite <- app_assoc.
  repeat split; try assumption.
  - eapply Forall_impl; [|exact Hcls].
    intros c Hc'. unfold Re.dot in Hc'. intros ->. discriminate.
  - destruct Hrest as [Hrest|Hrest]; [left; exact Hrest|].
    right. unfold Re.dot in Hrest. apply negb_false_iff in Hrest.
    apply N.eqb_eq in Hrest. exact Hrest.
Qed.

Lemma talk_url_shape_witness :
  exists pre sec post a g rest k,
    PyStr.split (py "m=")
                (py "m=audio 0 RTP/AVP 0" ++ CRLF ++ py "a=sendonly" ++ CRLF
                    ++ py "a=control: trackID=4 " ++ CRLF)
    = pre ++ sec :: post
    /\ sec = a ++ py "a=control:" ++ g ++ rest
    /\ py "rtsp://h:554/p/trackID=4"
       = PyStr.rstrip_slash (py "rtsp://h:554/p//") ++ py "/"
           ++ PyStr.strip g
    /\ py "rtsp://h:554/p//"
       = PyStr.rstrip_slash (py "rtsp://h:554/p//") ++ repeat 47%N k.
Proof.
  destruct (@talk_url_shape (py "rtsp://h:554/p//")
              (py "m=audio 0 RTP/AVP 0" ++ CRLF ++ py "a=sendonly" ++ CRLF
                  ++ py "a=control: trackID=4 " ++ CRLF)
              (py "rtsp://h:554/p/trackID=4"))
    as (pre & sec & post & a & g & rest & k & Hsplit & _ & _ & Hsec & _ & _
        & _ & Hu & Hcb & _);
    [vm_compute; reflexivity|].
  exists pre, sec, post, a, g, rest, k. auto.
Defined.

(** X10: trailing slashes of [Content-Base] do not matter; the URL has
    exactly one slash between the base and the control attribute. *)
Theorem talk_url_trailing_slashes :
  forall (cb sdp : str) (k : nat),
    talk_url_of (cb ++ repeat 47%N k) sdp = talk_url_of cb sdp.
Proof.
  intros cb sdp k. unfold talk_url_of, PyStr.rstrip_slash.
  rewrite rstrip_by_app_all; [reflexivity|].
  apply forallb_repeat. reflexivity.
Qed.

Lemma encodable_Forall (s : str) :
  Utf8.encodable s = true <-> Forall (fun c => Utf8.is_scalar c = true) s.
Proof.
  unfold Utf8.encodable. rewrite forallb_forall, Forall_forall. tauto.
Qed.

Lemma encodable_group (p : Re.pattern) (s : str) (caps : list str)
      (i : nat) :
  Utf8.encodable s = true -> Re.search p s = Some caps ->
  Utf8.encodable (Re.group i caps) = true.
Proof.
  rewrite !encodable_Forall. intros Hs Hm.
  eapply search_within; [exact Hs | exact Hm].
Qed.

Lemma encodable_flat_map (hs : list (str * str)) :
  forallb (fun h => Utf8.encodable (fst h) && Utf8.encodable (snd h)) hs
  = true ->
  Utf8.encodable (flat_map render_header hs) = true.
Proof.
  induction hs as [|h hs IH]; cbn [forallb flat_map]; [reflexivity|].
  intros H. apply andb_prop in H as [Hh Hhs].
  apply andb_prop in Hh as [H1 H2].
  unfold render_header at 1. autorewrite with enc.
  rewrite H1, H2, (IH Hhs). reflexivity.
Qed.

Lemma render_encodable (rq : request) :
  Utf8.encodable (rq_method rq) = true ->
  Utf8.encodable (rq_uri rq) = true ->
  forallb (fun h => Utf8.encodable (fst h) && Utf8.encodable (snd h))
          (rq_headers rq) = true ->
  Utf8.encodable (render rq) = true.
Proof.
  intros Hm Hu Hh. unfold render. autorewrite with enc.
  rewrite Hm, Hu, (@encodable_flat_map _ Hh). reflexivity.
Qed.

Lemma sends_ok (n : nat) (l : list bool) :
  forallb (fun b => b) (firstn (S n) l) = true ->
  hd true l = true /\ forallb (fun b => b) (firstn n (tl l)) = true.
Proof.
  destruct l as [|b l]; cbn [firstn forallb hd tl].
  - destruct n; auto.
  - intros H. apply andb_prop in H. exact H.
Qed.

Lemma uri_base_encodable (u : RTSPUrlParts) :
  Utf8.encodable (host u) = true -> Utf8.encodable (path u) = true ->
  Utf8.encodable (uri_base_of u) = true.
Proof.
  intros Hh Hp. unfold uri_base_of. autorewrite with enc.
  rewrite Hh, Hp. reflexivity.
Qed.

Section StartSucceeds.

Variable isdecimal : N -> bool.
Variable py_int : str -> option Z.

Ltac authorize user pass m Hb :=
  match goal with
  | |- context [_build_authorization ?o ?mth ?u] =>
      let response := fresh "response" in
      let Eresp := fresh "Eresp" in
      destruct (@build_authorization_ok o mth u user pass
                  (Re.group 1 m) (Re.group 2 m))
        as (response & Hb & Eresp);
      [ first [ assumption | reflexivity | apply encodable_py ] .. | ];
      rewrite Hb; clear Hb
  end.

Ltac headers_encode :=
  apply render_encodable; cbn [rq_method rq_uri rq_headers];
  [ first [ apply encodable_py | assumption ]
  | assumption
  | cbn [describe_headers app forallb fst snd];
    autorewrite with enc;
    rewrite ?digest_header_encodable by assumption;
    reflexivity ].

(** The handshake against a camera that answers as the patterns
    expect. *)
Lemma handshake_succeeds (s : state)
      (user pass resp1 resp2 resp3 resp4 talk : str)
      (rest : list (option str)) (m sess sp : list str) (p : Z) :
  hd true (conn_results (net s)) = true ->
  forallb (fun b => b) (firstn 4 (send_results (net s))) = true ->
  incoming (net s)
  = Some resp1 :: Some resp2 :: Some resp3 :: Some resp4 :: rest ->
  username (_url (self s)) = Some user ->
  password (_url (self s)) = Some pass ->
  Utf8.encodable user = true -> Utf8.encodable pass = true ->
  Utf8.encodable (host (_url (self s))) = true ->
  Utf8.encodable (path (_url (self s))) = true ->
  Utf8.encodable resp1 = true -> Utf8.encodable resp2 = true ->
  Utf8.encodable resp3 = true ->
  Re.search Patterns.WWW_AUTHENTICATE resp1 = Some m ->
  resolve_talk_url resp2 = Return talk ->
  Re.search Patterns.SESSION resp3 = Some sess ->
  Re.search (Patterns.SERVER_PORT isdecimal) resp3 = Some sp ->
  py_int (Re.group 1 sp) = Some p ->
  PyStr.startswith (py "RTSP/1.0 200") resp4 = true ->
  exists s1 sent,
    _do_rtsp_handshake isdecimal py_int s = (Return tt, s1)
    /\ self s1
       = set_cseq 4
           (set_back_channel_port (Some p)
              (set_session_id (Some (Re.group 1 sess))
                 (set_challenge (Some (Re.group 1 m)) (Some (Re.group 2 m))
                    (set_sock (Some (next_sock (net s)))
                       (set_uri_base (Some (uri_base_of (_url (self s))))
                                     (self s))))))
    /\ incoming (net s1) = rest
    /\ wire (net s1) = wire (net s) ++ sent
    /\ map (fun e => (rq_method (snd e), rq_uri (snd e))) sent
       = [(py "DESCRIBE", uri_base_of (_url (self s)));
          (py "DESCRIBE", uri_base_of (_url (self s)));
          (py "SETUP", talk);
          (py "PLAY", uri_base_of (_url (self s)))].
Proof.
  intros Hconn Hsend Hin Huser Hpass Euser Epass Ehost Epath E1 E2 E3
         Hm Htalk Hsess Hsp Hp H200.
  pose proof (@uri_base_encodable _ Ehost Epath) as Euri.
  destruct (@challenge_groups_nonempty _ _ Hm) as [Hg1 Hg2].
  pose proof (@encodable_group _ _ _ 1 E1 Hm) as Er.
  pose proof (@encodable_group _ _ _ 2 E1 Hm) as En.
  pose proof (@encodable_group _ _ _ 1 E3 Hsess) as Esid.
  assert (Etalk : Utf8.encodable talk = true).
  { apply encodable_Forall. apply encodable_Forall in E2.
    eapply resolve_talk_url_within; [reflexivity | exact E2 | exact Htalk]. }
  apply sends_ok in Hsend as [Hs1 Hsend].
  apply sends_ok in Hsend as [Hs2 Hsend].
  apply sends_ok in Hsend as [Hs3 Hsend].
  apply sends_ok in Hsend as [Hs4 _].
  unfold _do_rtsp_handshake, bind, get_self, modify_self, lift, raise, ret.
  cbn beta iota. rewrite create_connection_ok by exact Hconn.
  cbn beta iota. fold (uri_base_of (_url (self s))).
  erewrite _send_reads_once;
    [ | reflexivity | apply describe_1_encodable; exact Euri
      | exact Hs1 | cbn; exact Hin ].
  rewrite Hm. cbn beta iota.
  authorize user pass m Hb.
  erewrite _send_reads_once;
    [ | reflexivity | headers_encode | exact Hs2
      | cbn; rewrite Hin; reflexivity ].
  rewrite Htalk.
  authorize user pass m Hb.
  erewrite _send_reads_once;
    [ | reflexivity | headers_encode | exact Hs3
      | cbn; rewrite Hin; reflexivity ].
  rewrite Hsess, Hsp, Hp. cbn beta iota.
  rewrite _send_simple_unfold.
  authorize user pass m Hb.
  erewrite _send_reads_once;
    [ | reflexivity | | exact Hs4 | cbn; rewrite Hin; reflexivity ].
  2:{ apply render_encodable; [apply encodable_py | exact Euri |].
      unfold simple_request. cbn [rq_headers _session_id self with_self
                                   set_cseq set_back_channel_port
                                   set_session_id].
      destruct (PyStr.truthy_opt _); cbn [forallb fst snd fmt];
        autorewrite with enc;
        rewrite ?digest_header_encodable, ?Esid by assumption;
        reflexivity. }
  rewrite H200. cbn [negb andb].
  eexists. eexists. split; [reflexivity|].
  cbn. rewrite Hin. cbn. rewrite <- !app_assoc. cbn.
  repeat split.
Qed.

(** X11: when [start] succeeds.  The connection is made, four requests go
    out, the camera's answers are text and hold: the first a digest
    challenge, the second a [Content-Base] and a track to send on, the
    third a session id and a server port, and the fourth begins with
    [RTSP/1.0 200].  Then [start] returns the host of the URL and that
    port, holding the session on the new socket with the counter at 4.
    The status lines of the first three answers play no part. *)
Theorem start_succeeds :
  forall (s : state) (user pass resp1 resp2 resp3 resp4 talk : str)
         (rest : list (option str)) (m sess sp : list str) (p : Z),
    hd true (conn_results (net s)) = true ->
    forallb (fun b => b) (firstn 4 (send_results (net s))) = true ->
    incoming (net s)
    = Some resp1 :: Some resp2 :: Some resp3 :: Some resp4 :: rest ->
    username (_url (self s)) = Some user ->
    password (_url (self s)) = Some pass ->
    Utf8.encodable user = true -> Utf8.encodable pass = true ->
    Utf8.encodable (host (_url (self s))) = true ->
    Utf8.encodable (path (_url (self s))) = true ->
    Utf8.encodable resp1 = true -> Utf8.encodable resp2 = true ->
    Utf8.encodable resp3 = true ->
    Re.search Patterns.WWW_AUTHENTICATE resp1 = Some m ->
    resolve_talk_url resp2 = Return talk ->
    Re.search Patterns.SESSION resp3 = Some sess ->
    Re.search (Patterns.SERVER_PORT isdecimal) resp3 = Some sp ->
    py_int (Re.group 1 sp) = Some p ->
    PyStr.startswith (py "RTSP/1.0 200") resp4 = true ->
    exists s1 sent,
      start isdecimal py_int s = (Return (host (_url (self s)), Some p), s1)
      /\ _sock (self s1) = Some (next_sock (net s))
      /\ _session_id (self s1) = Some (Re.group 1 sess)
      /\ _cseq (self s1) = 4%Z
      /\ incoming (net s1) = rest
      /\ wire (net s1) = wire (net s) ++ sent
      /\ map (fun e => (rq_method (snd e), rq_uri (snd e))) sent
         = [(py "DESCRIBE", uri_base_of (_url (self s)));
            (py "DESCRIBE", uri_base_of (_url (self s)));
            (py "SETUP", talk);
            (py "PLAY", uri_base_of (_url (self s)))].
Proof.
  intros s user pass resp1 resp2 resp3 resp4 talk rest m sess sp p
         Hconn Hsend Hin Huser Hpass Euser Epass Ehost Epath E1 E2 E3
         Hm Htalk Hsess Hsp Hp H200.
  destruct (@handshake_succeeds s user pass resp1 resp2 resp3 resp4 talk
              rest m sess sp p)
    as (s1 & sent & Hh & Hself & Hrest & Hw & Hsent); try assumption.
  exists s1, sent. unfold start. rewrite Hh, Hself. cbn.
  repeat split; assumption.
Qed.

End StartSucceeds.

Lemma start_succeeds_witness :
  exists s1,
    start Ascii10.isdecimal Ascii10.int
          (Scenario.facing
             [Some Scenario.resp_401;
              Some (Scenario.resp_describe Scenario.sdp_two_tracks);
              Some (Scenario.lines
                      [py "RTSP/1.0 500 Internal Server Error";
                       py "Session: abc123";
                       py "Transport: server_port=6000-6001"; []]);
              Some Scenario.resp_ok])
    = (Return (py "h", Some 6000%Z), s1).
Proof.
  destruct (@start_succeeds Ascii10.isdecimal Ascii10.int
              (Scenario.facing
                 [Some Scenario.resp_401;
                  Some (Scenario.resp_describe Scenario.sdp_two_tracks);
                  Some (Scenario.lines
                          [py "RTSP/1.0 500 Internal Server Error";
                           py "Session: abc123";
                           py "Transport: server_port=6000-6001"; []]);
                  Some Scenario.resp_ok])
              (py "admin") (py "1234")
              Scenario.resp_401
              (Scenario.resp_describe Scenario.sdp_two_tracks)
              (Scenario.lines
                 [py "RTSP/1.0 500 Internal Server Error";
                  py "Session: abc123";
                  py "Transport: server_port=6000-6001"; []])
              Scenario.resp_ok
              (py "rtsp://cam/live/track2") []
              [py "X"; py "Y"] [py "abc123"] [py "6000"; py "6001"]
              6000%Z)
    as (s1 & sent & Hs & _); try (vm_compute; reflexivity).
  exists s1. exact Hs.
Defined.

(** ** [utils.parse_rtsp_url] *)

Lemma pystr_eqb_eq (a b : str) : PyStr.eqb a b = true -> a = b.
Proof.
  revert b. induction a as [|x a IH]; intros [|y b]; cbn;
    try discriminate; [reflexivity|].
  intros H. apply andb_prop in H as [Hx Hab].
  apply N.eqb_eq in Hx. rewrite Hx, (IH _ Hab). reflexivity.
Qed.

Lemma str_or_empty (x : option str) :
  PyStr.truthy (str_or x []) = true -> x = Some (str_or x []).
Proof.
  destruct x as [h|]; cbn; [|discriminate].
  destruct (PyStr.truthy h); [reflexivity | discriminate].
Qed.

Lemma int_or_nonzero (x : option Z) (d : Z) :
  d <> 0%Z ->
  int_or x d <> 0%Z
  /\ (x = Some (int_or x d)
      \/ int_or x d = d /\ (x = None \/ x = Some 0%Z)).
Proof.
  intros Hd. destruct x as [z|]; cbn; [|auto].
  destruct (Z.eqb_spec z 0); [subst; auto|auto].
Qed.

Section UrlParts.

Variable urlparse : str -> result ParseResult.
Variable unquote : str -> str.
Variable lower : str -> str.

(** X12: the parts [parse_rtsp_url] returns.  The scheme, lowered, is
    [rtsp]; the host is the one parsed and is not empty; the port is the
    one parsed, or 554 when there is none or it is 0, and never 0; the
    path is the one parsed without its leading slashes; a user name or
    password that is missing or empty comes out as [None]. *)
Theorem parse_rtsp_url_parts :
  forall (url : str) (u : RTSPUrlParts),
    parse_rtsp_url urlparse unquote lower url = Return u ->
    exists parsed p k,
      urlparse url = Return parsed
      /\ pr_port parsed = Return p
      /\ lower (pr_scheme parsed) = py "rtsp"
      /\ pr_hostname parsed = Some (host u) /\ host u <> []
      /\ port u <> 0%Z
      /\ (p = Some (port u)
          \/ port u = 554%Z /\ (p = None \/ p = Some 0%Z))
      /\ pr_path parsed = repeat 47%N k ++ path u
      /\ (forall r, path u <> 47%N :: r)
      /\ (username u = None
          <-> PyStr.truthy_opt (pr_username parsed) = false)
      /\ (password u = None
          <-> PyStr.truthy_opt (pr_password parsed) = false).
Proof.
  intros url u. unfold parse_rtsp_url.
  destruct (urlparse url) as [parsed|e] eqn:Hparsed; [|discriminate].
  destruct (PyStr.eqb (lower (pr_scheme parsed)) (py "rtsp")) eqn:Hs;
    cbn [negb]; [|discriminate].
  destruct (pr_port parsed) as [p|e] eqn:Hport; [|discriminate].
  destruct (PyStr.truthy (str_or (pr_hostname parsed) [])) eqn:Hh;
    cbn [negb]; [|discriminate].
  intros [= <-]. cbn [host port path username password].
  destruct (lstrip_by_suffix (N.eqb 47) (pr_path parsed)) as (t & Ht & Hall).
  destruct (@int_or_nonzero p 554%Z) as [Hp0 Hp]; [discriminate|].
  exists parsed, p, (List.length t).
  split; [reflexivity|]. split; [exact Hport|].
  split; [apply pystr_eqb_eq; exact Hs|].
  split; [apply str_or_empty; exact Hh|].
  split; [intros E; rewrite E in Hh; discriminate|].
  split; [exact Hp0|]. split; [exact Hp|].
  split; [rewrite <- (@forallb_eqb_repeat _ _ Hall); exact Ht|].
  split.
  { intros r Hr.
    assert (Hne : PyStr.lstrip_by (N.eqb 47) (pr_path parsed) <> [])
      by (rewrite Hr; discriminate).
    apply (@lstrip_by_hd _ _ 0%N) in Hne. rewrite Hr in Hne.
    discriminate. }
  unfold unquoted.
  split; (split; [destruct (PyStr.truthy_opt _); [discriminate|auto]
                 | intros ->; reflexivity]).
Qed.

Lemma parse_rtsp_url_host (url : str) (u : RTSPUrlParts) :
  parse_rtsp_url urlparse unquote lower url = Return u ->
  host u <> [] /\ port u <> 0%Z.
Proof.
  unfold parse_rtsp_url.
  destruct (urlparse url) as [parsed|e]; [|discriminate].
  destruct (negb _); [discriminate|].
  destruct (pr_port parsed) as [p|e]; [|discriminate].
  destruct (PyStr.truthy (str_or (pr_hostname parsed) [])) eqn:Hh;
    cbn [negb]; [|discriminate].
  intros [= <-]. cbn [host port]. split.
  - intros E. rewrite E in Hh. discriminate.
  - apply int_or_nonzero. discriminate.
Qed.

(** X13: the constructor.  With the logger set up, it raises what
    [parse_rtsp_url] raises and nothing else.  When it returns, the instance holds the parsed parts,
    with a host that is not empty and a port that is not 0; its client
    port is the one given, or 5000 when none or 0 was given, and so never
    0; it has no socket, no session and no challenge, and the counter
    stands at 5. *)
Theorem new_initiator_attributes :
  forall (rtsp_url : str) (client_port : option Z),
    match new_initiator urlparse unquote lower rtsp_url client_port with
    | Raise e =>
        parse_rtsp_url urlparse unquote lower rtsp_url = Raise e
    | Return o =>
        parse_rtsp_url urlparse unquote lower rtsp_url = Return (_url o)
        /\ host (_url o) <> [] /\ port (_url o) <> 0%Z
        /\ _client_port o <> 0%Z
        /\ (client_port = Some (_client_port o)
            \/ _client_port o = 5000%Z
               /\ (client_port = None \/ client_port = Some 0%Z))
        /\ idle o = true
        /\ _session_id o = None /\ _realm o = None /\ _nonce o = None
        /\ _cseq o = 5%Z
    end.
Proof.
  intros rtsp_url client_port. unfold new_initiator.
  destruct (parse_rtsp_url urlparse unquote lower rtsp_url) as [parts|e]
    eqn:Hparse; [|reflexivity].
  apply parse_rtsp_url_host in Hparse as [Hh Hp].
  cbn [_url __init__ _client_port _session_id _realm _nonce _cseq].
  split; [reflexivity|]. split; [exact Hh|]. split; [exact Hp|].
  destruct (@int_or_nonzero client_port settings.default_client_port)
    as [H0 H1]; [discriminate|].
  assert (E : match client_port with
              | Some p => if (p =? 0)%Z then settings.default_client_port
                          else p
              | None => settings.default_client_port
              end = int_or client_port settings.default_client_port)
    by reflexivity.
  rewrite E. repeat split; assumption.
Qed.

End UrlParts.

Lemma parse_rtsp_url_parts_witness :
  exists parsed,
    (fun _ => Return {| pr_scheme := py "RTSP";
                        pr_username := Some (py "admin");
                        pr_password := Some [];
                        pr_hostname := Some (py "172.17.32.94");
                        pr_port := Return None;
                        pr_path := py "//Preview_01_sub" |})
      (py "RTSP://admin:@172.17.32.94//Preview_01_sub")
    = Return parsed
    /\ pr_hostname parsed = Some (py "172.17.32.94").
Proof.
  destruct (@parse_rtsp_url_parts
              (fun _ => Return {| pr_scheme := py "RTSP";
                                  pr_username := Some (py "admin");
                                  pr_password := Some [];
                                  pr_hostname := Some (py "172.17.32.94");
                                  pr_port := Return None;
                                  pr_path := py "//Preview_01_sub" |})
              (fun x => x) (fun _ => py "rtsp")
              (py "RTSP://admin:@172.17.32.94//Preview_01_sub")
              {| username := Some (py "admin"); password := None;
                 host := py "172.17.32.94"; port := 554;
                 path := py "Preview_01_sub" |})
    as (parsed & p & k & Hparsed & _ & _ & Hhost & _);
    [vm_compute; reflexivity|].
  exists parsed. auto.
Defined.

(** ** [utils.get_logger] *)

Section LoggerSingleton.

Variable upper : str -> str.
Variable logging_attr : str -> option pyval.
Variable getLogger : str -> Logger.
Variable log_level : str.

(** One call on a logger that exists. *)
Lemma get_logger_step (name : str) (level : option str) (lg : Logger) :
  exists lg',
    snd (get_logger upper logging_attr getLogger log_level name level
                    (Some lg))
    = Some lg'
    /\ lg_name lg' = lg_name lg
    /\ lg_handlers lg' = lg_handlers lg
    /\ lg_propagate lg' = lg_propagate lg
    /\ (lg_level lg' <= lg_level lg)%Z.
Proof.
  unfold get_logger.
  destruct (PyStr.truthy_opt level).
  - destruct (_level_num upper logging_attr (fmt level)) as [z|].
    + destruct (Z.ltb_spec z (lg_level lg)).
      * exists (set_level z lg). cbn. repeat split; auto. lia.
      * exists lg. cbn. repeat split; auto. lia.
    + exists lg. cbn. repeat split; auto. lia.
  - exists lg. cbn. repeat split; auto. lia.
Qed.

Lemma get_logger_calls_keep (calls : list (str * option str)) (lg : Logger) :
  exists lg',
    get_logger_calls upper logging_attr getLogger log_level calls (Some lg)
    = Some lg'
    /\ lg_name lg' = lg_name lg
    /\ lg_handlers lg' = lg_handlers lg
    /\ lg_propagate lg' = lg_propagate lg
    /\ (lg_level lg' <= lg_level lg)%Z.
Proof.
  unfold get_logger_calls. revert lg.
  induction calls as [|[name level] calls IH]; intros lg; cbn [fold_left].
  - exists lg. repeat split; auto. lia.
  - cbn [fst snd].
    destruct (get_logger_step name level lg)
      as (lg1 & -> & Hn & Hh & Hp & Hl).
    destruct (IH lg1) as (lg' & -> & Hn' & Hh' & Hp' & Hl').
    exists lg'. repeat split; try congruence. lia.
Qed.

(** X14: the project logger is a singleton.  Once [_LOGGER] is set, no
    call of [get_logger] replaces it, whatever name it is called with:
    the name, the handlers and [propagate] stay, and the level never
    goes up, so a level lowered for one caller stays lowered for all. *)
Theorem get_logger_singleton :
  forall (calls : list (str * option str)) (lg : Logger),
  exists lg',
    get_logger_calls upper logging_attr getLogger log_level calls (Some lg)
    = Some lg'
    /\ lg_name lg' = lg_name lg
    /\ lg_handlers lg' = lg_handlers lg
    /\ lg_propagate lg' = lg_propagate lg
    /\ (lg_level lg' <= lg_level lg)%Z.
Proof. exact get_logger_calls_keep. Qed.

(** The first call, on its own. *)
Lemma get_logger_first (name : str) (level : option str) :
  exists lg,
    snd (get_logger upper logging_attr getLogger log_level name level None)
    = Some lg
    /\ lg_name lg = lg_name (getLogger name)
    /\ match _DEFAULT_LEVEL upper logging_attr log_level with
       | PyInt d =>
           lg_handlers lg = S (lg_handlers (getLogger name))
           /\ lg_propagate lg = false
           /\ (lg_level lg <= d)%Z
           /\ (PyStr.truthy_opt level = false -> lg_level lg = d)
           /\ (forall z,
                  PyStr.truthy_opt level = true ->
                  _level_num upper logging_attr (fmt level) = PyInt z ->
                  lg_level lg = Z.min d z)
       | PyOther =>
           lg = getLogger name
           /\ fst (get_logger upper logging_attr getLogger log_level
                              name level None) = None
       end.
Proof.
  unfold get_logger.
  destruct (_DEFAULT_LEVEL upper logging_attr log_level) as [d|].
  - destruct (PyStr.truthy_opt level).
    + destruct (_level_num upper logging_attr (fmt level)) as [z|].
      * cbn [lg_level].
        destruct (Z.ltb_spec z d); eexists; (split; [reflexivity|]);
          cbn; repeat split; try lia; try discriminate;
          intros z' _ [= <-]; lia.
      * eexists. split; [reflexivity|]. cbn.
        repeat split; try lia; try discriminate; try (intros z' _ [=]).
    + eexists. split; [reflexivity|]. cbn.
      repeat split; try lia; try (intros z' [=]).
  - eexists. split; [reflexivity|]. cbn. auto.
Qed.

(** X15: the first call of [get_logger].  It sets [_LOGGER] to the logger
    that [logging.getLogger] keeps for the name given (the root logger
    for the empty name), even when the call raises, and no later call
    changes its name, its handlers or [propagate].  With a default level
    that is a number that logger gets one handler more, [propagate] off
    and the default level, or the requested one when that is lower; with
    another default the call raises and leaves the logger as
    [logging.getLogger] gave it, without a handler of the project. *)
Theorem get_logger_first_call :
  forall (name : str) (level : option str)
         (calls : list (str * option str)),
  exists lg lg',
    snd (get_logger upper logging_attr getLogger log_level name level None)
    = Some lg
    /\ get_logger_calls upper logging_attr getLogger log_level
                        ((name, level) :: calls) None = Some lg'
    /\ lg_name lg = lg_name (getLogger name)
    /\ lg_name lg' = lg_name lg
    /\ lg_handlers lg' = lg_handlers lg
    /\ lg_propagate lg' = lg_propagate lg
    /\ match _DEFAULT_LEVEL upper logging_attr log_level with
       | PyInt d =>
           lg_handlers lg = S (lg_handlers (getLogger name))
           /\ lg_propagate lg = false
           /\ (lg_level lg <= d)%Z
           /\ (PyStr.truthy_opt level = false -> lg_level lg = d)
           /\ (forall z,
                  PyStr.truthy_opt level = true ->
                  _level_num upper logging_attr (fmt level) = PyInt z ->
                  lg_level lg = Z.min d z)
       | PyOther =>
           lg = getLogger name
           /\ fst (get_logger upper logging_attr getLogger log_level
                              name level None) = None
       end.
Proof.
  intros name level calls.
  destruct (get_logger_first name level) as (lg & Hsnd & Hname & Hd).
  destruct (get_logger_calls_keep calls lg) as (lg' & Hc & Hn & Hh & Hp & _).
  exists lg, lg'. split; [exact Hsnd|]. split.
  { unfold get_logger_calls in Hc |- *. cbn [fold_left fst snd].
    rewrite Hsnd. exact Hc. }
  repeat split; first [congruence | exact Hd].
Qed.

End LoggerSingleton.

(** ** The demo driver *)

Lemma keep_alive_raises (s : state) (e : exn) (s' : state) :
  PyStr.truthy_opt (_realm (self s)) && PyStr.truthy_opt (_nonce (self s))
  = true ->
  keep_alive s = (Raise e, s') -> In e start_errors.
Proof.
  intros Hch. unfold keep_alive, bind at 1, get_self. cbn beta iota.
  destruct (_sock (self s)); [|discriminate].
  destruct (PyStr.truthy_opt (_uri_base (self s))); [|discriminate].
  unfold bind, modify_self, get_self, ret. cbn beta iota.
  destruct (_send_simple _ _ _ _ _ _) as [[ok|e0] s2] eqn:Hs; [discriminate|].
  intros [= <- _]. eapply _send_simple_raises; [exact Hs | exact Hch].
Qed.

(** The loop on a live session: every line it prints says OK. *)
Lemma pings_live (n : nat) :
  forall (i : nat) (s : state) (out : list Demo.printed)
         (r : result unit) (s' : state) (out' : list Demo.printed),
    idle (self s) = false ->
    PyStr.truthy_opt (_realm (self s)) && PyStr.truthy_opt (_nonce (self s))
    = true ->
    Demo.pings i n s out = (r, s', out') ->
    _sock (self s') = _sock (self s)
    /\ _uri_base (self s') = _uri_base (self s)
    /\ open_socks (net s') = open_socks (net s)
    /\ exists m,
        out' = out ++ Demo.pinged i m
        /\ match r with
           | Return _ => m = n
           | Raise e => (m < n)%nat /\ In e start_errors
           end.
Proof.
  induction n as [|n IH]; intros i s out r s' out' Hact Hch;
    cbn [Demo.pings].
  { intros [= <- <- <-]. repeat split. exists 0%nat.
    unfold Demo.pinged. cbn. rewrite app_nil_r. auto. }
  destruct (idle_false _ Hact) as (k & Hk & Hu).
  destruct (keep_alive s) as [[ok|e] s1] eqn:Hka;
    destruct (keep_alive_sends s Hk Hu Hka) as (Hself & _ & Hopen & _).
  - assert (ok = true).
    { destruct ok; [reflexivity|].
      exfalso. exact (@keep_alive_active_never_false s s1 Hact Hka). }
    subst ok. intros H.
    apply IH in H as (H1 & H2 & H3 & m & Hout & Hr);
      [ | unfold idle in *; rewrite Hself; exact Hact
        | rewrite Hself; exact Hch ].
    rewrite H1, H2, H3, Hself, Hopen. repeat split.
    exists (S m). rewrite Hout, <- app_assoc. split; [reflexivity|].
    destruct r; [congruence|]. destruct Hr. split; [lia | assumption].
  - intros [= <- <- <-]. rewrite Hself, Hopen. repeat split.
    exists 0%nat. unfold Demo.pinged. cbn. rewrite app_nil_r.
    split; [reflexivity|]. split; [lia|].
    eapply keep_alive_raises; [exact Hch | exact Hka].
Qed.

Section DemoRuns.

Variable isdecimal : N -> bool.
Variable py_int : str -> option Z.

(** X16: the demo run.  Whatever the network does, [main] returns; the
    instance ends without a socket and no connection the run made is
    left open.  It prints either the error of a failed [start], or the
    start line and the ten keep-alive lines, all of them OK, or the
    start line, fewer than ten OK lines and the error that ended the
    loop; the last line always says the session is terminated.  No line
    says FAIL. *)
Theorem main_transcript :
  forall (url : RTSPUrlParts) (n : network),
  exists s2 out,
    Demo.main isdecimal py_int url n = (Return tt, s2, out)
    /\ _sock (self s2) = None
    /\ incl (open_socks (net s2)) (open_socks n)
    /\ Demo.transcript out
    /\ (forall i, ~ In (Demo.Pinged i false) out).
Proof.
  intros url n. unfold Demo.main.
  set (s := {| self := __init__ url (Some Demo.CLIENT_PORT); net := n |}).
  assert (Hnofail : forall i m l t,
             (forall j, ~ In (Demo.Pinged j false) l) ->
             (forall j, ~ In (Demo.Pinged j false) t) ->
             ~ In (Demo.Pinged i false) (l ++ Demo.pinged 1 m ++ t)).
  { intros i m l t Hl Ht H. apply in_app_or in H as [H|H]; [exact (Hl i H)|].
    apply in_app_or in H as [H|H]; [|exact (Ht i H)].
    unfold Demo.pinged in H. apply in_map_iff in H as (j & Hj & _).
    discriminate. }
  destruct (start isdecimal py_int s) as [[[host_ port_]|e] s1] eqn:Hstart.
  - destruct (start_returns_connected _ _ _ Hstart) as [Hc Hh].
    destruct (handshake_trace _ _ _ Hc Hh)
      as (Hk1 & Hopen1 & _ & _ & Hu1 & _ & _ & _ & _ & _ & _ & Hch & _).
    assert (Hact : idle (self s1) = false)
      by (unfold idle; rewrite Hk1, Hu1; reflexivity).
    destruct (Demo.pings 1 Demo.TOTAL_PINGS s1 [Demo.Started host_ port_])
      as [[r s1'] out1] eqn:Hp.
    destruct (pings_live _ _ _ _ Hact Hch Hp)
      as (Hk' & Hu' & Hopen' & m & Hout & Hr).
    assert (Hu : PyStr.truthy_opt (_uri_base (self s1')) = true)
      by (rewrite Hu', Hu1; apply uri_base_truthy).
    rewrite Hk1 in Hk'.
    destruct (terminate_sends s1' Hk' Hu)
      as (s2 & -> & Hself & _ & Hopen & _).
    eexists. eexists. split; [reflexivity|].
    rewrite Hself, Hopen, Hopen', Hopen1.
    split; [reflexivity|]. split; [apply incl_remove_cons|].
    rewrite Hout. destruct r as [u|e].
    + subst m. split.
      * right. left. exists host_, port_. rewrite <- app_assoc. reflexivity.
      * intros i. rewrite <- app_assoc.
        apply (Hnofail i _ [Demo.Started host_ port_] [Demo.Terminated]);
          intros j H; cbn in H; intuition discriminate.
    + destruct Hr as [Hm He]. split.
      * right. right. exists host_, port_, m, e.
        rewrite <- !app_assoc. auto.
      * intros i. rewrite <- !app_assoc.
        apply (Hnofail i _ [Demo.Started host_ port_]
                       [Demo.Failed e; Demo.Terminated]);
          intros j H; cbn in H; intuition discriminate.
  - destruct (@start_raises_closed isdecimal py_int s) as [Hsock Hincl];
      [rewrite Hstart; reflexivity|].
    rewrite Hstart in Hsock, Hincl. cbn [snd] in Hsock, Hincl.
    rewrite terminate_idle by (unfold idle; rewrite Hsock; reflexivity).
    eexists. eexists. split; [reflexivity|].
    split; [exact Hsock|]. split; [exact Hincl|]. split.
    + left. exists e. split; [|reflexivity].
      eapply start_raises_class. exact Hstart.
    + intros i H. cbn in H. intuition discriminate.
Qed.

End DemoRuns.

(** ** Without credentials *)

Lemma build_authorization_no_credentials (o : TalkBackInitiator)
      (method uri : str) :
  username (_url o) = None \/ password (_url o) = None ->
  _build_authorization o method uri = Raise RTSPAuthError.
Proof.
  unfold _build_authorization.
  destruct (username (_url o)), (password (_url o)); intros [H|H];
    (discriminate || reflexivity).
Qed.

Lemma _send_raises_connected (rq : request) (s : state) (k : socket)
      (e : exn) (s' : state) :
  _sock (self s) = Some k ->
  _send rq s = (Raise e, s') -> e = UnicodeEncodeError \/ e = OSError.
Proof.
  intros Hk.
  unfold _send, bind, get_self, raise, ret, sendall, recv. cbn beta iota.
  rewrite Hk.
  destruct (Utf8.encode (render rq)); [|intros [= <- _]; auto].
  destruct (send_results (net s)) as [|[|] sends]; cbn;
    try (intros [= <- _]; auto);
    destruct (incoming (net s)) as [|[data|] recvs]; cbn;
    intros [= <- _]; auto.
Qed.

(** [terminate] cannot authorize a TEARDOWN either: it only closes. *)
Lemma terminate_no_credentials (s : state) :
  username (_url (self s)) = None \/ password (_url (self s)) = None ->
  _sock (self s) = None \/ PyStr.truthy_opt (_uri_base (self s)) = true ->
  exists s',
    terminate s = (Return tt, s')
    /\ _sock (self s') = None
    /\ wire (net s') = wire (net s).
Proof.
  intros Hcred H. destruct (_sock (self s)) as [k|] eqn:Hk.
  - destruct H as [H|Hu]; [discriminate|].
    destruct (terminate_sends s Hk Hu) as (s' & Ht & Hself & _ & _ & Hw).
    exists s'. split; [exact Ht|]. rewrite Hself. split; [reflexivity|].
    destruct Hw as [Hw|(auth & Hb & _)]; [exact Hw|].
    rewrite build_authorization_no_credentials in Hb by exact Hcred.
    discriminate.
  - exists s. rewrite terminate_idle by (unfold idle; rewrite Hk; reflexivity).
    auto.
Qed.

Section NoCredentials.

Variable isdecimal : N -> bool.
Variable py_int : str -> option Z.

Lemma handshake_no_credentials (s : state) (r : result unit) (s1 : state) :
  username (_url (self s)) = None \/ password (_url (self s)) = None ->
  hd true (conn_results (net s)) = true ->
  _do_rtsp_handshake isdecimal py_int s = (r, s1) ->
  (exists e, r = Raise e /\ In e no_credentials_errors)
  /\ (wire (net s1) = wire (net s)
      \/ exists rq,
          wire (net s1) = wire (net s) ++ [(next_sock (net s), rq)]
          /\ shape rq = (py "DESCRIBE", false)).
Proof.
  intros Hcred Hconn.
  unfold _do_rtsp_handshake, bind, get_self, modify_self, lift, raise, ret.
  cbn beta iota. rewrite create_connection_ok by exact Hconn.
  cbn beta iota. fold (uri_base_of (_url (self s))).
  destruct (_send _ _) as [[resp1|e] sb] eqn:E1.
  - destruct (_send_spec _ _ E1) as [[Hself _ _ _] _].
    apply _send_returns in E1 as (k & Hk & Hw).
    cbn in Hk, Hw, Hself. injection Hk as <-.
    assert (Hsent : wire (net sb) = wire (net s)
                    \/ exists rq,
                        wire (net sb)
                        = wire (net s) ++ [(next_sock (net s), rq)]
                        /\ shape rq = (py "DESCRIBE", false))
      by (right; eexists; split; [exact Hw | reflexivity]).
    destruct (Re.search Patterns.WWW_AUTHENTICATE resp1) as [m|].
    + cbn beta iota.
      rewrite build_authorization_no_credentials
        by (cbn; rewrite Hself; exact Hcred).
      intros [= <- <-]. split; [|exact Hsent].
      exists RTSPAuthError. cbn. auto 8.
    + intros [= <- <-]. split; [|exact Hsent].
      exists RTSPAuthError. cbn. auto 8.
  - destruct (_send_spec _ _ E1) as [_ Hw].
    apply (@_send_raises_connected _ _ (next_sock (net s))) in E1;
      [|reflexivity].
    intros [= <- <-]. split.
    + exists e. split; [reflexivity|]. cbn. intuition auto.
    + destruct Hw as [(k & Hk & Hw)|[Hw _]]; cbn in Hw; [|left; exact Hw].
      cbn in Hk. injection Hk as <-.
      right. eexists. split; [exact Hw | reflexivity].
Qed.

(** X17: a URL without a user name or without a password.  [start] never
    returns: it raises a socket error, a [ValueError] (as the connection
    does for a host name that cannot be encoded), an encoding error or
    [RTSPAuthError], leaves the instance without a socket, and has sent
    at most the first, unauthorized DESCRIBE; no TEARDOWN follows, since
    that could not be authorized either. *)
Theorem start_needs_credentials :
  forall (s : state),
    username (_url (self s)) = None \/ password (_url (self s)) = None ->
    exists e s',
      start isdecimal py_int s = (Raise e, s')
      /\ In e no_credentials_errors
      /\ _sock (self s') = None
      /\ (wire (net s') = wire (net s)
          \/ exists rq,
              wire (net s') = wire (net s) ++ [(next_sock (net s), rq)]
              /\ shape rq = (py "DESCRIBE", false)).
Proof.
  intros s Hcred. unfold start.
  destruct (hd true (conn_results (net s))) eqn:Hc.
  - destruct (_do_rtsp_handshake isdecimal py_int s) as [r s1] eqn:Hh.
    destruct (handshake_trace _ _ _ Hc Hh) as (_ & _ & _ & Hurl & Hu & _).
    destruct (@handshake_no_credentials _ _ _ Hcred Hc Hh) as [(e & -> & He) Hw].
    destruct (terminate_no_credentials s1) as (s2 & -> & Hsock & Hw2).
    { rewrite Hurl. exact Hcred. }
    { right. rewrite Hu. apply uri_base_truthy. }
    exists e, s2. rewrite Hw2. auto.
  - rewrite (handshake_no_connection isdecimal py_int s Hc).
    match goal with |- context [terminate ?x] =>
      destruct (terminate_no_credentials x) as (s2 & -> & Hsock & Hw2);
        [exact Hcred | right; apply uri_base_truthy |]
    end.
    exists OSError, s2. rewrite Hw2. cbn. auto.
Qed.

End NoCredentials.

Lemma start_needs_credentials_witness :
  exists e s',
    start Ascii10.isdecimal Ascii10.int
          {| self := __init__ {| username := Some (py "admin");
                                 password := None; host := py "h";
                                 port := 554; path := py "p" |} None;
             net := fresh_network [] [] [Some Scenario.resp_401] |}
    = (Raise e, s')
    /\ In e no_credentials_errors.
Proof.
  destruct (@start_needs_credentials Ascii10.isdecimal Ascii10.int
              {| self := __init__ {| username := Some (py "admin");
                                     password := None; host := py "h";
                                     port := 554; path := py "p" |} None;
                 net := fresh_network [] [] [Some Scenario.resp_401] |})
    as (e & s' & Hs & He & _); [right; reflexivity|].
  exists e, s'. auto.
Defined.

(** ** The digest *)

Lemma hexchar_lower_hex (n : N) :
  (n < 16)%N -> is_lower_hex (MD5.hexchar n) = true.
Proof.
  intros Hn. unfold MD5.hexchar, is_lower_hex.
  destruct (N.ltb_spec n 10).
  - apply orb_true_iff. left. apply andb_true_iff.
    split; apply N.leb_le; lia.
  - apply orb_true_iff. right. apply andb_true_iff.
    split; apply N.leb_le; lia.
Qed.

Lemma hex_format (bs : list N) :
  Forall (fun b => (b < 256)%N) bs ->
  List.length (MD5.hex bs) = (2 * List.length bs)%nat
  /\ forallb is_lower_hex (MD5.hex bs) = true.
Proof.
  unfold MD5.hex.
  induction 1 as [|b bs Hb _ [IHl IHf]]; cbn [flat_map app forallb List.length];
    [auto|].
  rewrite IHl, IHf, !hexchar_lower_hex; [split; [lia | reflexivity] | | ].
  - apply N.mod_lt. discriminate.
  - apply N.Div0.div_lt_upper_bound. exact Hb.
Qed.

Lemma le_bytes_length (k : nat) (w : N) : List.length (MD5.le_bytes k w) = k.
Proof.
  revert w. induction k as [|k IH]; intros w; cbn; [|rewrite IH];
    reflexivity.
Qed.

Lemma hexdigest_format (msg : list N) :
  List.length (MD5.hexdigest msg) = 32%nat
  /\ forallb is_lower_hex (MD5.hexdigest msg) = true.
Proof.
  unfold MD5.hexdigest, MD5.digest.
  match goal with |- context [MD5.hex ?bs] =>
    destruct (@hex_format bs) as [Hl Hf]
  end.
  { repeat (apply Forall_app; split); apply le_bytes_bounded. }
  split; [|exact Hf].
  rewrite Hl, !length_app, !le_bytes_length. reflexivity.
Qed.

(** X18: the header that is built.  Whenever [_build_authorization]
    returns, its value is the five quoted fields with the user name of
    the URL, the realm and the nonce held, and the URI given; the
    response is 32 digits of lower-case hexadecimal, whatever the
    fields hold. *)
Theorem authorization_response_format :
  forall (o : TalkBackInitiator) (method uri h : str),
    _build_authorization o method uri = Return h ->
    exists user realm nonce response,
      h = digest_header user realm nonce uri response
      /\ username (_url o) = Some user
      /\ _realm o = Some realm /\ realm <> []
      /\ _nonce o = Some nonce /\ nonce <> []
      /\ List.length response = 32%nat
      /\ forallb is_lower_hex response = true.
Proof.
  intros o method uri h. unfold _build_authorization.
  destruct (username (_url o)) as [user|]; [|discriminate].
  destruct (password (_url o)) as [pass|]; [|discriminate].
  destruct (_realm o) as [realm|]; [|discriminate].
  destruct (_nonce o) as [nonce|];
    [|rewrite andb_false_r; discriminate].
  destruct (PyStr.truthy_opt (Some realm)) eqn:Hr; [|discriminate].
  destruct (PyStr.truthy_opt (Some nonce)) eqn:Hn; [|discriminate].
  cbn [andb fmt].
  destruct (Utf8.encode _) as [b1|]; [|discriminate].
  destruct (Utf8.encode _) as [b2|]; [|discriminate].
  destruct (Utf8.encode _) as [b3|]; [|discriminate].
  intros [= <-].
  exists user, realm, nonce, (MD5.hexdigest b3).
  split; [reflexivity|].
  split; [reflexivity|]. split; [reflexivity|].
  split; [intros ->; discriminate|]. split; [reflexivity|].
  split; [intros ->; discriminate|]. apply hexdigest_format.
Qed.

Lemma authorization_response_format_witness :
  exists user realm nonce response,
    digest_header (py "admin") (py "X") (py "Y") (py "rtsp://h:554/p")
                  (py "8624491e44f2b9123e7a56efdcfff11d")
    = digest_header user realm nonce (py "rtsp://h:554/p") response
    /\ List.length response = 32%nat.
Proof.
  destruct (@authorization_response_format Scenario.challenged
              (py "OPTIONS") (py "rtsp://h:554/p")
              (digest_header (py "admin") (py "X") (py "Y")
                             (py "rtsp://h:554/p")
                             (py "8624491e44f2b9123e7a56efdcfff11d")))
    as (user & realm & nonce & response & Hh & _ & _ & _ & _ & _ & Hl & _);
    [vm_compute; reflexivity|].
  exists user, realm, nonce, response. auto.
Defined.

(** ** A description without a body *)

(** X19: a DESCRIBE answer without an empty line has no SDP body, so no
    track is found and the talk-back URL cannot be resolved, whatever
    its headers say. *)
Theorem resolve_talk_url_needs_body :
  forall (resp2 : str),
    PyStr.contains (CRLF ++ CRLF) resp2 = false ->
    resolve_talk_url resp2 = Raise RTSPHandshakeError.
Proof.
  intros resp2 H. unfold resolve_talk_url, sdp_of. rewrite H.
  destruct (Re.search Patterns.CONTENT_BASE resp2); reflexivity.
Qed.

Lemma resolve_talk_url_needs_body_witness :
  resolve_talk_url
    (py "RTSP/1.0 200 OK" ++ CRLF ++ py "Content-Base: rtsp://cam/live/"
        ++ CRLF ++ py "m=audio 0 RTP/AVP 0" ++ CRLF ++ py "a=sendonly"
        ++ CRLF ++ py "a=control:track2" ++ CRLF)
  = Raise RTSPHandshakeError.
Proof.
  apply resolve_talk_url_needs_body. vm_compute. reflexivity.
Defined.

(** ** What a [start] that returned has read *)

Lemma _send_read (rq : request) (s : state) (resp : str) (s' : state) :
  _send rq s = (Return resp, s') ->
  self s' = self s
  /\ incoming (net s) = Some resp :: incoming (net s').
Proof.
  unfold _send, bind, get_self, raise, ret, sendall, recv. cbn beta iota.
  destruct (_sock (self s)); [|discriminate].
  destruct (Utf8.encode (render rq)); [|discriminate].
  destruct (send_results (net s)) as [|[|] sends]; cbn;
    try discriminate;
    destruct (incoming (net s)) as [|[data|] recvs] eqn:Hin; cbn;
    try discriminate; intros [= <- <-]; cbn; rewrite Hin; auto.
Qed.

Lemma build_authorization_credentials (o : TalkBackInitiator)
      (method uri auth : str) :
  _build_authorization o method uri = Return auth ->
  exists user pass,
    username (_url o) = Some user /\ password (_url o) = Some pass.
Proof.
  unfold _build_authorization.
  destruct (username (_url o)) as [user|]; [|discriminate].
  destruct (password (_url o)) as [pass|]; [|discriminate].
  eauto.
Qed.

Section StartReturned.

Variable isdecimal : N -> bool.
Variable py_int : str -> option Z.

Lemma handshake_returned (s : state) (s1 : state) :
  hd true (conn_results (net s)) = true ->
  _do_rtsp_handshake isdecimal py_int s = (Return tt, s1) ->
  exists resp1 resp2 resp3 resp4 m talk sess sp p,
    incoming (net s)
    = Some resp1 :: Some resp2 :: Some resp3 :: Some resp4
        :: incoming (net s1)
    /\ Re.search Patterns.WWW_AUTHENTICATE resp1 = Some m
    /\ resolve_talk_url resp2 = Return talk
    /\ Re.search Patterns.SESSION resp3 = Some sess
    /\ Re.search (Patterns.SERVER_PORT isdecimal) resp3 = Some sp
    /\ py_int (Re.group 1 sp) = Some p
    /\ PyStr.startswith (py "RTSP/1.0 200") resp4 = true
    /\ _back_channel_port (self s1) = Some p
    /\ _url (self s1) = _url (self s)
    /\ exists user pass,
        username (_url (self s)) = Some user
        /\ password (_url (self s)) = Some pass.
Proof.
  intros Hconn.
  unfold _do_rtsp_handshake, bind, get_self, modify_self, lift, raise, ret.
  cbn beta iota. rewrite create_connection_ok by exact Hconn.
  cbn beta iota. fold (uri_base_of (_url (self s))).
  destruct (_send _ _) as [[resp1|e] sb] eqn:E1; [|discriminate].
  apply _send_read in E1 as [Hself1 Hin1]. cbn in Hself1, Hin1.
  destruct (Re.search Patterns.WWW_AUTHENTICATE resp1) as [m|] eqn:Hm;
    [|discriminate].
  cbn beta iota.
  destruct (_build_authorization _ _ _) as [auth|e] eqn:Hb; [|discriminate].
  apply build_authorization_credentials in Hb as (user & pass & Hu & Hp).
  cbn in Hu, Hp. rewrite Hself1 in Hu, Hp. cbn in Hu, Hp.
  destruct (_send _ _) as [[resp2|e] sc] eqn:E2; [|discriminate].
  apply _send_read in E2 as [Hself2 Hin2]. cbn in Hself2, Hin2.
  destruct (resolve_talk_url resp2) as [talk|e] eqn:Htalk; [|discriminate].
  destruct (_build_authorization _ _ _) as [auth3|e]; [|discriminate].
  destruct (_send _ _) as [[resp3|e] sd] eqn:E3; [|discriminate].
  apply _send_read in E3 as [Hself3 Hin3].
  destruct (Re.search Patterns.SESSION resp3) as [sess|] eqn:Hsess;
    [|discriminate].
  destruct (Re.search (Patterns.SERVER_PORT isdecimal) resp3) as [sp|]
    eqn:Hsp; [|discriminate].
  destruct (py_int (Re.group 1 sp)) as [p|] eqn:Hport; [|discriminate].
  cbn beta iota. rewrite _send_simple_unfold.
  destruct (_build_authorization _ _ _) as [auth4|e]; [|discriminate].
  destruct (_send _ _) as [[resp4|e] se] eqn:E4; [|discriminate].
  apply _send_read in E4 as [Hself4 Hin4]. cbn in Hself4, Hin4.
  destruct (PyStr.startswith (py "RTSP/1.0 200") resp4) eqn:H200;
    cbn [negb andb]; [|destruct resp4; discriminate].
  intros [= <-].
  exists resp1, resp2, resp3, resp4, m, talk, sess, sp, p.
  rewrite Hin1, Hin2, Hin3, Hin4, Hself4, Hself3, Hself2. cbn.
  rewrite Hself1. cbn. repeat split; eauto.
Qed.

(** X20: what a [start] that returned has seen.  It made its connection
    and read exactly four answers: the first holds a digest challenge,
    the second resolves to a talk-back URL, the third holds a session id
    and a server port that [int] reads, and the fourth begins with
    [RTSP/1.0 200]; the URL has both credentials.  It returns the host
    of the URL and that server port. *)
Theorem start_returns_only_if :
  forall (s : state) (v : str * option Z) (s1 : state),
    start isdecimal py_int s = (Return v, s1) ->
    hd true (conn_results (net s)) = true
    /\ exists resp1 resp2 resp3 resp4 m talk sess sp p,
        incoming (net s)
        = Some resp1 :: Some resp2 :: Some resp3 :: Some resp4
            :: incoming (net s1)
        /\ Re.search Patterns.WWW_AUTHENTICATE resp1 = Some m
        /\ resolve_talk_url resp2 = Return talk
        /\ Re.search Patterns.SESSION resp3 = Some sess
        /\ Re.search (Patterns.SERVER_PORT isdecimal) resp3 = Some sp
        /\ py_int (Re.group 1 sp) = Some p
        /\ PyStr.startswith (py "RTSP/1.0 200") resp4 = true
        /\ v = (host (_url (self s)), Some p)
        /\ exists user pass,
            username (_url (self s)) = Some user
            /\ password (_url (self s)) = Some pass.
Proof.
  intros s v s1 H.
  destruct (@start_returns_connected _ _ _ _ _ H) as [Hc Hh].
  split; [exact Hc|].
  destruct (@handshake_returned _ _ Hc Hh)
    as (resp1 & resp2 & resp3 & resp4 & m & talk & sess & sp & p
        & Hin & Hm & Htalk & Hsess & Hsp & Hp & H200 & Hport & Hurl & Hcred).
  exists resp1, resp2, resp3, resp4, m, talk, sess, sp, p.
  unfold start in H. rewrite Hh in H. injection H as <-.
  rewrite Hport, Hurl. repeat split; assumption.
Qed.

End StartReturned.

Lemma start_returns_only_if_witness :
  hd true (conn_results (net (Scenario.facing Scenario.handshake_answers)))
  = true.
Proof.
  refine (proj1 (@start_returns_only_if Ascii10.isdecimal Ascii10.int
                   (Scenario.facing Scenario.handshake_answers)
                   (host Scenario.url,
                    _back_channel_port (self (Scenario.playing [])))
                   (snd (start Ascii10.isdecimal Ascii10.int
                               (Scenario.facing Scenario.handshake_answers)))
                   _)).
  vm_compute. reflexivity.
Defined.
